(** * A shallow embedding of the portfolio application's public views

    The Django application under [portfolio/] is a set of request
    handlers ([views.py]) reading the tables declared in [models.py],
    one model form ([forms.py]) and two context processors.  The
    handlers are embedded as functions from a content store and a
    request to an outcome; the two handlers that write (the contact form
    and the blog detail page) return the new store as well, and the home
    page, which is cached, takes and returns the cache.

    Conventions.
    - A table is the list of its rows in storage order.  [order_by] is a
      stable sort of that list, so rows that tie on the sort keys keep
      their storage order.
    - A character is an [ascii] (a code point below 256); text is a
      [string].
    - Timestamps and dates are integers; a nullable column is an
      [option].
    - An exception is a value: a handler returns [Return r] or
      [Raise e].
    - The two download views ([download_resume], [export_projects_pdf])
      read files and lay out a PDF; they are left out, and of the admin
      only the methods its classes define are embedded. *)

From Stdlib Require Import ZArith List Bool Ascii String Lia.
From Stdlib Require Import Sorting.Sorted Sorting.Permutation.
Import ListNotations.

Open Scope string_scope.
Open Scope Z_scope.

Set Default Proof Using "Type".

(* ================================================================= *)
(** ** Python values the handlers compute with *)

Module Py.

Definition code (c : ascii) : N := N_of_ascii c.

(** [str.isspace] on one character, for code points below 256. *)
Definition isspace (c : ascii) : bool :=
  let n := code c in
  ((9 <=? n) && (n <=? 13) || (28 <=? n) && (n <=? 32)
   || (n =? 133) || (n =? 160))%N.

Definition isdigit (c : ascii) : bool :=
  let n := code c in ((48 <=? n) && (n <=? 57))%N.

Definition digit (c : ascii) : Z := Z.of_N (code c) - 48.

Fixpoint lstrip (l : list ascii) : list ascii :=
  match l with
  | c :: l' => if isspace c then lstrip l' else l
  | [] => []
  end.

Definition rstrip (l : list ascii) : list ascii := rev (lstrip (rev l)).

(** [s.strip()] *)
Definition strip (s : string) : string :=
  string_of_list_ascii (rstrip (lstrip (list_ascii_of_string s))).

(** The digits of a decimal literal: single underscores are allowed
    between digits only.  [sep] says that a digit must come next. *)
Fixpoint digits (acc : Z) (count : nat) (sep : bool) (l : list ascii)
  : option (Z * nat) :=
  match l with
  | [] => if sep then None else Some (acc, count)
  | c :: l' =>
      if isdigit c then digits (10 * acc + digit c) (S count) false l'
      else if (c =? "_")%char
           then if sep then None else digits acc count true l'
           else None
  end.

(** The default of [sys.get_int_max_str_digits()]. *)
Definition max_str_digits : nat := 4300.

(** The white space [int()] skips around a number.  It first turns the
    spaces above U+007F into blanks (U+0085 and U+00A0, below 256) and
    then skips the white space of C: the separators U+001C to U+001F,
    which [str.strip] removes, are no white space to [int()]. *)
Definition isspace_int (c : ascii) : bool :=
  let n := code c in
  ((9 <=? n) && (n <=? 13) || (n =? 32) || (n =? 133) || (n =? 160))%N.

Fixpoint lskip (l : list ascii) : list ascii :=
  match l with
  | c :: l' => if isspace_int c then lskip l' else l
  | [] => []
  end.

Definition rskip (l : list ascii) : list ascii := rev (lskip (rev l)).

(** [int(s)] for a string [s]; [None] stands for [ValueError]. *)
Definition int (s : string) : option Z :=
  let l := rskip (lskip (list_ascii_of_string s)) in
  let '(neg, body) :=
    match l with
    | c :: l' =>
        if (c =? "-")%char then (true, l')
        else if (c =? "+")%char then (false, l')
        else (false, l)
    | [] => (false, l)
    end in
  match digits 0 0 true body with
  | Some (z, n) =>
      if (max_str_digits <? n)%nat then None
      else Some (if neg then - z else z)
  | None => None
  end.

(** ASCII case folding, as the database does for [icontains]. *)
Definition lower_char (c : ascii) : ascii :=
  let n := code c in
  if ((65 <=? n) && (n <=? 90))%N then ascii_of_N (n + 32) else c.

Fixpoint lower (s : string) : string :=
  match s with
  | EmptyString => EmptyString
  | String c s' => String (lower_char c) (lower s')
  end.

(** [needle in hay] *)
Fixpoint contains (needle hay : string) {struct hay} : bool :=
  match hay with
  | EmptyString => prefix needle EmptyString
  | String _ hay' => prefix needle hay || contains needle hay'
  end.

(** [s.split(sep)] for a one-character separator: never empty. *)
Fixpoint split_from (sep : ascii) (cur : string) (s : string)
  : list string :=
  match s with
  | EmptyString => [cur]
  | String c s' =>
      if (c =? sep)%char then cur :: split_from sep EmptyString s'
      else split_from sep (cur ++ String c EmptyString) s'
  end.

Definition split (sep : ascii) (s : string) : list string :=
  split_from sep EmptyString s.

(** Truth value of a string, and of a value that may be [None]. *)
Definition truthy (s : string) : bool := negb (s =? "")%string.

Definition truthy_opt (o : option string) : bool :=
  match o with
  | Some s => truthy s
  | None => false
  end.

(** [math.ceil(a / b)] for integers [a >= 0] and [b <> 0].  The
    quotient is a float: it is zero when the exact quotient is at most
    [2^-1075], and its ceiling is the exact one for [a < 2^53]. *)
Definition ceil_div (a b : Z) : Z :=
  if (0 <? b) && (a * 2 ^ 1075 <=? b) then 0 else - ((- a) / b).

(** [l[bottom:top]] for [0 <= bottom]. *)
Definition slice {A} (l : list A) (bottom top : Z) : list A :=
  firstn (Z.to_nat (top - bottom)) (skipn (Z.to_nat bottom) l).

End Py.

(* ================================================================= *)
(** ** Exceptions

    The exceptions the handlers meet.  [QuillParseError] is the one
    django_quill raises on a text that is no Quill document.
    [DataError] stands for the refusal of a value that does not fit its
    column: [django.db.DataError] on PostgreSQL and MySQL,
    [OverflowError] from the driver on SQLite. *)

Inductive Exception : Type :=
| Http404
| ValueError
| TypeError
| ZeroDivisionError
| PageNotAnInteger
| EmptyPage
| MultipleObjectsReturned
| QuillParseError
| DataError.

Inductive Result (A : Type) : Type :=
| Return (a : A)
| Raise (e : Exception).

Arguments Return {A} a.
Arguments Raise {A} e.

Definition bind {A B} (r : Result A) (k : A -> Result B) : Result B :=
  match r with
  | Return a => k a
  | Raise e => Raise e
  end.

Notation "x <- r ;; k" := (bind r (fun x => k))
  (at level 61, r at next level, right associativity).

(** [try: body  except: handler] with a bare [except]. *)
Definition try_except {A} (body handler : Result A) : Result A :=
  match body with
  | Return a => Return a
  | Raise _ => handler
  end.

(** A value handed to [int()]: [None], a string or an integer. *)
Inductive PyValue : Type :=
| PyNone
| PyStr (s : string)
| PyInt (z : Z).

Definition py_int (v : PyValue) : Result Z :=
  match v with
  | PyNone => Raise TypeError
  | PyStr s =>
      match Py.int s with
      | Some z => Return z
      | None => Raise ValueError
      end
  | PyInt z => Return z
  end.

Definition of_param (o : option string) : PyValue :=
  match o with
  | Some s => PyStr s
  | None => PyNone
  end.

(* ================================================================= *)
(** ** Query sets

    A query set is the list of the rows it selects.  [filter] is
    [List.filter]; the other operations the views use follow. *)

Module QuerySet.

Section Ops.
Context {A : Type}.

(** [.exclude(cond)] *)
Definition exclude (cond : A -> bool) (qs : list A) : list A :=
  filter (fun x => negb (cond x)) qs.

Fixpoint insert_by (leb : A -> A -> bool) (x : A) (l : list A)
  : list A :=
  match l with
  | [] => [x]
  | y :: l' => if leb x y then x :: l else y :: insert_by leb x l'
  end.

(** [.order_by(...)]: a stable sort; [leb] is the order of the keys. *)
Definition order_by (leb : A -> A -> bool) (qs : list A) : list A :=
  fold_right (insert_by leb) [] qs.

(** [qs[:n]] *)
Definition limit (n : nat) (qs : list A) : list A := firstn n qs.

(** [.first()] of an ordered query set. *)
Definition first (qs : list A) : option A := hd_error qs.

(** [.get()]: the single row, [None] for [DoesNotExist]. *)
Definition get (qs : list A) : Result (option A) :=
  match qs with
  | [] => Return None
  | [x] => Return (Some x)
  | _ => Raise MultipleObjectsReturned
  end.

(** [get_object_or_404(Model, cond)] *)
Definition get_object_or_404 (table : list A) (cond : A -> bool)
  : Result A :=
  o <- get (filter cond table) ;;
  match o with
  | Some x => Return x
  | None => Raise Http404
  end.
End Ops.

(** Key orders.  A null sorts below every value, as in SQLite, so it
    comes last in a descending order. *)
Definition asc {A} (key : A -> Z) (a b : A) : bool := key a <=? key b.
Definition desc {A} (key : A -> Z) (a b : A) : bool := key b <=? key a.

Definition opt_le (x y : option Z) : bool :=
  match x, y with
  | None, _ => true
  | Some _, None => false
  | Some a, Some b => a <=? b
  end.

Definition desc_opt {A} (key : A -> option Z) (a b : A) : bool :=
  opt_le (key b) (key a).

(** [order_by(k1, k2)] for a text column and then an integer one. *)
Definition asc2 {A} (k1 : A -> string) (k2 : A -> Z) (a b : A) : bool :=
  String.ltb (k1 a) (k1 b)
  || (String.eqb (k1 a) (k1 b) && (k2 a <=? k2 b)).

End QuerySet.

(* ================================================================= *)
(** ** django.core.paginator

    The paginator of the framework, as the views call it: [num_pages],
    [validate_number], [page] and the forgiving [get_page], which turns
    a page that is not a number into page 1 and a page out of range into
    the last page. *)

Module Paginator.

Section Pages.
Context {A : Type}.

(** [Paginator(object_list, per_page)], with [orphans = 0] and
    [allow_empty_first_page = True]. *)
Record t : Type := make {
  object_list : list A;
  per_page : Z
}.

Record Page : Type := {
  page_object_list : list A;
  number : Z;
  paginator : t
}.

Definition count (p : t) : Z := Z.of_nat (List.length (object_list p)).

Definition num_pages (p : t) : Result Z :=
  let hits := Z.max 1 (count p - 0) in
  if per_page p =? 0 then Raise ZeroDivisionError
  else Return (Py.ceil_div hits (per_page p)).

Definition validate_number (p : t) (number : PyValue) : Result Z :=
  match py_int number with
  | Raise _ => Raise PageNotAnInteger
  | Return n =>
      if n <? 1 then Raise EmptyPage
      else
        np <- num_pages p ;;
        if np <? n then Raise EmptyPage else Return n
  end.

Definition page (p : t) (number : PyValue) : Result Page :=
  n <- validate_number p number ;;
  let bottom := (n - 1) * per_page p in
  let top := bottom + per_page p in
  let top := if count p <=? top + 0 then count p else top in
  Return {| page_object_list := Py.slice (object_list p) bottom top;
            number := n;
            paginator := p |}.

Definition get_page (p : t) (number : PyValue) : Result Page :=
  match validate_number p number with
  | Return n => page p (PyInt n)
  | Raise PageNotAnInteger => page p (PyInt 1)
  | Raise EmptyPage => np <- num_pages p ;; page p (PyInt np)
  | Raise e => Raise e
  end.

Definition has_next (pg : Page) : Result bool :=
  np <- num_pages (paginator pg) ;; Return (number pg <? np).

Definition has_previous (pg : Page) : bool := 1 <? number pg.
End Pages.

Arguments t : clear implicits.
Arguments Page : clear implicits.

End Paginator.


(* ================================================================= *)
(** ** models.py

    One record per model, with the columns of the class.  A [UUIDField]
    is a 128-bit number, a [DateTimeField] or [DateField] an integer, a
    file or image column the stored name.

    A [QuillField] is the stored JSON text together with what
    django_quill reads from it, the HTML of the document, or nothing
    when the text is no Quill document.  The image of a project, whose
    address the JSON listing shows, is the stored name together with the
    address its storage gives to that name. *)

Definition UUID : Type := N.

Record Quill : Type := {
  quill_json : string;
  quill_html : option string
}.

Module FieldFile.
Record t : Type := {
  name : string;
  url : string
}.
End FieldFile.

Module About.
Record t : Type := {
  id : UUID;
  full_name : string;
  title : string;
  bio : Quill;
  email : string;
  phone : string;
  address : string;
  github_url : string;
  linkedin_url : string;
  twitter_url : string;
  profile_image : string;
  resume : string;
  is_active : bool;
  created_at : Z;
  updated_at : Z
}.
End About.

Module Service.
Record t : Type := {
  id : UUID;
  title : string;
  description : Quill;
  icon : string;
  order : Z;
  is_active : bool;
  created_at : Z
}.
End Service.

Module Project.
Definition PROJECT_TYPE_CHOICES : list (string * string) :=
  [("web", "Web Development"); ("mobile", "Mobile App");
   ("desktop", "Desktop Application"); ("other", "Other")].

Record t : Type := {
  id : UUID;
  title : string;
  description : Quill;
  project_type : string;
  technologies : string;
  github_url : string;
  live_url : string;
  featured_image : FieldFile.t;
  is_featured : bool;
  is_active : bool;
  start_date : Z;
  end_date : option Z;
  created_at : Z
}.

(** [Meta.ordering = ['-is_featured', '-created_at']] *)
Definition ordering (a b : t) : bool :=
  match is_featured a, is_featured b with
  | true, false => true
  | false, true => false
  | _, _ => created_at b <=? created_at a
  end.

(** [get_project_type_display()]: the label of the choice, or the raw
    value when it is not one of the choices. *)
Definition get_project_type_display (p : t) : string :=
  match find (fun c => String.eqb (fst c) (project_type p))
             PROJECT_TYPE_CHOICES with
  | Some c => snd c
  | None => project_type p
  end.
End Project.

(** The integers an [IntegerField] column holds.  The range is the
    database's: 64 bits on SQLite, 32 on PostgreSQL and MySQL. *)
Module IntegerField.
Record range : Type := {
  min_value : Z;
  max_value : Z
}.

Definition fits (column : range) (value : Z) : bool :=
  (min_value column <=? value) && (value <=? max_value column).

Definition sqlite : range :=
  {| min_value := - 2 ^ 63; max_value := 2 ^ 63 - 1 |}.

Definition postgresql : range :=
  {| min_value := - 2 ^ 31; max_value := 2 ^ 31 - 1 |}.
End IntegerField.

Module Blog.
Record t : Type := {
  id : UUID;
  title : string;
  slug : string;
  content : Quill;
  excerpt : string;
  featured_image : string;
  author : string;
  is_published : bool;
  published_date : option Z;
  views : Z;
  tags : string;
  created_at : Z;
  updated_at : Z
}.

Definition set_views (b : t) (v : Z) : t :=
  {| id := id b; title := title b; slug := slug b; content := content b;
     excerpt := excerpt b; featured_image := featured_image b;
     author := author b; is_published := is_published b;
     published_date := published_date b; views := v; tags := tags b;
     created_at := created_at b; updated_at := updated_at b |}.

Definition set_updated_at (b : t) (now : Z) : t :=
  {| id := id b; title := title b; slug := slug b; content := content b;
     excerpt := excerpt b; featured_image := featured_image b;
     author := author b; is_published := is_published b;
     published_date := published_date b; views := views b; tags := tags b;
     created_at := created_at b; updated_at := now |}.
End Blog.

Module Gallery.
Definition CATEGORY_CHOICES : list (string * string) :=
  [("project", "Project"); ("personal", "Personal");
   ("certificate", "Certificate"); ("other", "Other")].

Record t : Type := {
  id : UUID;
  title : string;
  image : string;
  category : string;
  description : string;
  is_active : bool;
  created_at : Z
}.
End Gallery.

Module Testimonial.
Record t : Type := {
  id : UUID;
  client_name : string;
  client_title : string;
  company : string;
  content : Quill;
  client_image : string;
  rating : Z;
  is_featured : bool;
  is_active : bool;
  created_at : Z
}.
End Testimonial.

Module Certificate.
Record t : Type := {
  id : UUID;
  name : string;
  issuer : string;
  issue_date : Z;
  expiry_date : option Z;
  certificate_url : string;
  credential_id : string;
  image : string;
  skills : string;
  is_active : bool;
  created_at : Z
}.
End Certificate.

Module Skill.
Record t : Type := {
  id : UUID;
  name : string;
  category : string;
  proficiency : Z;
  years_of_experience : Z;
  icon : string;
  is_active : bool;
  order : Z;
  created_at : Z
}.
End Skill.

Module ContactMessage.
Record t : Type := {
  id : UUID;
  name : string;
  email : string;
  subject : string;
  message : string;
  status : string;
  ip_address : option string;
  user_agent : string;
  created_at : Z;
  updated_at : Z
}.
End ContactMessage.

Module FAQ.
Definition CATEGORY_CHOICES : list (string * string) :=
  [("general", "General"); ("technical", "Technical");
   ("services", "Services"); ("pricing", "Pricing"); ("other", "Other")].

Record t : Type := {
  id : UUID;
  question : string;
  answer : Quill;
  category : string;
  order : Z;
  is_active : bool;
  created_at : Z;
  updated_at : Z
}.
End FAQ.

(** The content store: one table per model. *)
Record Store : Type := {
  about_table : list About.t;
  service_table : list Service.t;
  project_table : list Project.t;
  blog_table : list Blog.t;
  gallery_table : list Gallery.t;
  testimonial_table : list Testimonial.t;
  certificate_table : list Certificate.t;
  skill_table : list Skill.t;
  contact_table : list ContactMessage.t;
  faq_table : list FAQ.t
}.

Definition set_blog_table (s : Store) (bs : list Blog.t) : Store :=
  {| about_table := about_table s; service_table := service_table s;
     project_table := project_table s; blog_table := bs;
     gallery_table := gallery_table s;
     testimonial_table := testimonial_table s;
     certificate_table := certificate_table s;
     skill_table := skill_table s; contact_table := contact_table s;
     faq_table := faq_table s |}.

Definition set_contact_table (s : Store) (ms : list ContactMessage.t)
  : Store :=
  {| about_table := about_table s; service_table := service_table s;
     project_table := project_table s; blog_table := blog_table s;
     gallery_table := gallery_table s;
     testimonial_table := testimonial_table s;
     certificate_table := certificate_table s;
     skill_table := skill_table s; contact_table := ms;
     faq_table := faq_table s |}.

(* ================================================================= *)
(** ** Requests *)

(** [d.get(key)] on a [QueryDict] or a dict given as its items in
    order: the last value stored under the key. *)
Fixpoint dict_get (d : list (string * string)) (key : string)
  : option string :=
  match d with
  | [] => None
  | (k, v) :: d' =>
      match dict_get d' key with
      | Some v' => Some v'
      | None => if String.eqb k key then Some v else None
      end
  end.

Record HttpRequest : Type := {
  method : string;
  GET : list (string * string);
  POST : list (string * string);
  META : list (string * string);
  headers : list (string * string);
  LANGUAGE_CODE : string
}.

(* ================================================================= *)
(** ** forms.py: ContactForm

    A [ModelForm] over [ContactMessage] with the fields [name], [email],
    [subject] and [message]; each form field takes its limits from the
    model column.  Django's [EmailValidator] is library code: it is the
    parameter [validate_email] of this section. *)

(** A [ValidationError], by its code and parameters:
    - [Required]: "This field is required."
    - [Invalid]: "Enter a valid email address."
    - [MaxLength limit shown]: "Ensure this value has at most [limit]
      characters (it has [shown])."
    - [NullCharacters]: "Null characters are not allowed." *)
Inductive ValidationError : Type :=
| Required
| Invalid
| MaxLength (limit_value show_value : nat)
| NullCharacters.

Module ContactForm.

(** [ContactForm(data)] when bound, [ContactForm()] when not. *)
Record t : Type := make {
  data : option (list (string * string))
}.

Definition fields : list string := ["name"; "email"; "subject"; "message"].

(** [CharField.to_python]: a missing value is empty, a given one is
    stripped. *)
Definition to_python (value : option string) : string :=
  match value with
  | Some v => Py.strip v
  | None => ""
  end.

Definition MaxLengthValidator (limit : nat) (value : string)
  : list ValidationError :=
  if (limit <? String.length value)%nat
  then [MaxLength limit (String.length value)] else [].

Definition ProhibitNullCharactersValidator (value : string)
  : list ValidationError :=
  if Py.contains (String Ascii.zero EmptyString) value
  then [NullCharacters] else [].

Section Clean.
Variable validate_email : string -> bool.

Definition EmailValidator (value : string) : list ValidationError :=
  if validate_email value then [] else [Invalid].

(** The validators of each form field, in the order they run. *)
Definition validators (field : string) (value : string)
  : list ValidationError :=
  if String.eqb field "email" then
    EmailValidator value ++ MaxLengthValidator 254 value
    ++ ProhibitNullCharactersValidator value
  else if String.eqb field "message" then
    ProhibitNullCharactersValidator value
  else
    MaxLengthValidator 200 value ++ ProhibitNullCharactersValidator value.

(** [Field.clean]: the cleaned value and the errors of one field.  Every
    field is required; validators are skipped on an empty value. *)
Definition clean_field (field : string) (raw : option string)
  : string * list ValidationError :=
  let value := to_python raw in
  if String.eqb value "" then (value, [Required])
  else (value, validators field value).

(** [clean_email] returns the cleaned address as it is. *)
Definition clean_email (email : string) : string := email.

Definition raw_value (f : t) (field : string) : option string :=
  match data f with
  | Some d => dict_get d field
  | None => None
  end.

Definition cleaned (f : t) (field : string) : string :=
  let v := fst (clean_field field (raw_value f field)) in
  if String.eqb field "email" then clean_email v else v.

(** [form.errors]: the fields in error with their messages, in field
    order; empty for an unbound form. *)
Definition errors (f : t) : list (string * list ValidationError) :=
  match data f with
  | None => []
  | Some _ =>
      filter (fun fe => negb (Nat.eqb (List.length (snd fe)) 0))
        (map (fun field =>
                (field, snd (clean_field field (raw_value f field))))
             fields)
  end.

(** [form.is_valid()]: bound and free of errors. *)
Definition is_valid (f : t) : bool :=
  match data f with
  | None => false
  | Some _ => Nat.eqb (List.length (errors f)) 0
  end.

(** [form.save(commit=False)]: a new instance filled from the cleaned
    data; the other columns take their defaults ([uuid] is the value
    [uuid.uuid4] draws, and the two timestamps are set when the row is
    inserted). *)
Definition save_commit_false (f : t) (uuid : UUID) : ContactMessage.t :=
  {| ContactMessage.id := uuid;
     ContactMessage.name := cleaned f "name";
     ContactMessage.email := cleaned f "email";
     ContactMessage.subject := cleaned f "subject";
     ContactMessage.message := cleaned f "message";
     ContactMessage.status := "new";
     ContactMessage.ip_address := None;
     ContactMessage.user_agent := "";
     ContactMessage.created_at := 0;
     ContactMessage.updated_at := 0 |}.

End Clean.
End ContactForm.

(* ================================================================= *)
(** ** Template contexts and responses *)

(** A dict of lists in insertion order, as the grouping loops build it. *)
Section Grouping.
Context {A : Type}.

Definition Buckets : Type := list (string * list A).

(** [key in d] *)
Definition dict_contains (d : Buckets) (key : string) : bool :=
  existsb (fun kv => String.eqb (fst kv) key) d.

(** [d[key] = []]: a new key goes last, a known key keeps its place. *)
Fixpoint dict_set_empty (d : Buckets) (key : string) : Buckets :=
  match d with
  | [] => [(key, [])]
  | (k, l) :: d' =>
      if String.eqb k key then (k, []) :: d'
      else (k, l) :: dict_set_empty d' key
  end.

(** [d[key].append(x)] *)
Fixpoint dict_append (d : Buckets) (key : string) (x : A) : Buckets :=
  match d with
  | [] => []
  | (k, l) :: d' =>
      if String.eqb k key then (k, (l ++ [x])%list) :: d'
      else (k, l) :: dict_append d' key x
  end.

(** The body of the loop, and the loop over the rows. *)
Definition group_step (category : A -> string) (d : Buckets) (x : A)
  : Buckets :=
  let d := if negb (dict_contains d (category x))
           then dict_set_empty d (category x) else d in
  dict_append d (category x) x.

Definition group_by (category : A -> string) (rows : list A) : Buckets :=
  fold_left (group_step category) rows [].
End Grouping.

Arguments Buckets : clear implicits.

Module Home.
Record context : Type := {
  about : option About.t;
  services : list Service.t;
  featured_projects : list Project.t;
  testimonials : list Testimonial.t;
  skills : list Skill.t;
  skills_by_category : Buckets Skill.t;
  blog_posts : list (Blog.t * string);
  current_language : string;
  faq : list FAQ.t;
  gallery_items : list Gallery.t;
  certificates : list Certificate.t
}.
End Home.

Module AboutPage.
Record context : Type := {
  about : option About.t;
  certificates : list Certificate.t;
  skills : list Skill.t
}.
End AboutPage.

Module ProjectList.
Record context : Type := {
  page_obj : Paginator.Page Project.t;
  project_types : list (string * string);
  selected_type : option string;
  search_query : string
}.
End ProjectList.

Module ProjectDetail.
Record context : Type := {
  project : Project.t;
  related_projects : list Project.t
}.
End ProjectDetail.

Module BlogList.
Record context : Type := {
  page_obj : Paginator.Page Blog.t;
  all_tags : list string;
  search_query : string
}.
End BlogList.

Module BlogDetail.
Record context : Type := {
  blog : Blog.t;
  related_blogs : list Blog.t
}.
End BlogDetail.

Module GalleryPage.
Record context : Type := {
  page_obj : Paginator.Page Gallery.t;
  categories : list (string * string);
  selected_category : option string
}.
End GalleryPage.

Module FaqList.
Record context : Type := {
  faqs_by_category : Buckets FAQ.t;
  categories : list (string * string)
}.
End FaqList.

Inductive Context : Type :=
| HomeContext (c : Home.context)
| AboutContext (c : AboutPage.context)
| ServicesContext (page_obj : Paginator.Page Service.t)
| ProjectListContext (c : ProjectList.context)
| ProjectDetailContext (c : ProjectDetail.context)
| BlogListContext (c : BlogList.context)
| BlogDetailContext (c : BlogDetail.context)
| GalleryContext (c : GalleryPage.context)
| TestimonialsContext (page_obj : Paginator.Page Testimonial.t)
| CertificatesContext (certificates : list Certificate.t)
| ContactContext (form : ContactForm.t)
| FaqListContext (c : FaqList.context)
| NoContext.

Module Api.
(** One entry of the JSON project listing.  [id] and the dates are kept
    as values; the handler prints them with [str] and [strftime].
    [featured_image] is the address of the image, [None] without one. *)
Record project : Type := {
  id : UUID;
  title : string;
  description : string;
  project_type : string;
  technologies : string;
  github_url : string;
  live_url : string;
  featured_image : option string;
  start_date : Z;
  end_date : option Z
}.

Record pagination : Type := {
  total : Z;
  pages : Z;
  current : Z;
  has_next : bool;
  has_previous : bool
}.
End Api.

Inductive JsonData : Type :=
| ContactSuccess (success : bool) (message : string)
| ProjectsData (projects : list Api.project) (pagination : Api.pagination).

Inductive HttpResponse : Type :=
| render (template : string) (context : Context)
| JsonResponse (data : JsonData)
| HttpResponseNotAllowed (permitted : list string).

(* ================================================================= *)
(** ** django.views.decorators.cache

    [cache_page(timeout)] wraps a view in the cache middleware.  A GET
    or HEAD request is answered from the cache when the cache holds,
    under the key of the request, a response that has not expired;
    otherwise the view runs, and a response of status 200 is stored for
    [timeout] seconds.  A request of another method runs the view and
    leaves the cache alone.  Django makes the key from the method, the
    address and the language of the request: [cache_key method request]
    stands for it.  A HEAD request is also answered from the response
    stored for the same GET request.  The cache keeps a response until
    it expires. *)

Definition status_code (response : HttpResponse) : Z :=
  match response with
  | render _ _ => 200
  | JsonResponse _ => 200
  | HttpResponseNotAllowed _ => 405
  end.

Module Cache.
Record entry : Type := {
  key : string;
  expires : Z;
  value : HttpResponse
}.

Definition t : Type := list entry.

(** [cache.get(key)] at the time [now]: the response stored under the
    key, unless it has expired. *)
Fixpoint get (cache : t) (k : string) (now : Z) : option HttpResponse :=
  match cache with
  | [] => None
  | e :: cache' =>
      if String.eqb (key e) k
      then if now <? expires e then Some (value e) else None
      else get cache' k now
  end.

(** [cache.set(key, value, timeout)] at the time [now] *)
Definition set (cache : t) (k : string) (v : HttpResponse)
  (timeout now : Z) : t :=
  {| key := k; expires := now + timeout; value := v |}
    :: filter (fun e => negb (String.eqb (key e) k)) cache.
End Cache.

Section CachePage.
Variable cache_key : string -> HttpRequest -> string.

Definition cache_page (timeout : Z)
  (view : HttpRequest -> Result HttpResponse) (cache : Cache.t) (now : Z)
  (request : HttpRequest) : Cache.t * Result HttpResponse :=
  if negb (String.eqb (method request) "GET"
           || String.eqb (method request) "HEAD")
  then (cache, view request)
  else
    let cached :=
      match Cache.get cache (cache_key "GET" request) now with
      | Some response => Some response
      | None =>
          if String.eqb (method request) "HEAD"
          then Cache.get cache (cache_key "HEAD" request) now
          else None
      end in
    match cached with
    | Some response => (cache, Return response)
    | None =>
        match view request with
        | Return response =>
            if negb (timeout =? 0) && (status_code response =? 200)
            then (Cache.set cache (cache_key (method request) request)
                    response timeout now,
                  Return response)
            else (cache, Return response)
        | Raise e => (cache, Raise e)
        end
    end.
End CachePage.

(* ================================================================= *)
(** ** views.py *)

(** [column__icontains = query] *)
Definition icontains (column query : string) : bool :=
  Py.contains (Py.lower query) (Py.lower column).

(** [value or ''] *)
Definition or_empty (o : option string) : string :=
  match o with
  | Some s => s
  | None => ""
  end.

(** [d.get(key) == value] *)
Definition is_value (o : option string) (value : string) : bool :=
  match o with
  | Some v => String.eqb v value
  | None => false
  end.

(** [request.GET.get(key, default)] handed to [int()]. *)
Definition param_or (request : HttpRequest) (key : string) (default : Z)
  : PyValue :=
  match dict_get (GET request) key with
  | Some s => PyStr s
  | None => PyInt default
  end.

(** Primary keys in ascending order, the order [first()] imposes on a
    query set that has none. *)
Definition by_pk {A} (pk : A -> UUID) (a b : A) : bool :=
  (pk a <=? pk b)%N.

Definition active_about (s : Store) : option About.t :=
  QuerySet.first
    (QuerySet.order_by (by_pk About.id)
       (filter About.is_active (about_table s))).

(** The attribute [first_tag] the home page sets on each post. *)
Definition first_tag (post : Blog.t) : string :=
  if Py.truthy (Blog.tags post)
  then hd "" (Py.split "," (Blog.tags post))
  else "General".

(** The home page: the function [home] as it is written.  The module
    exports it under [cache_page(60 * 15)]; that view is [cached_home],
    below. *)
Definition home (s : Store) (request : HttpRequest) : Result HttpResponse :=
  let about := active_about s in
  let services :=
    QuerySet.limit 6
      (QuerySet.order_by (QuerySet.asc Service.order)
         (filter Service.is_active (service_table s))) in
  let projects :=
    QuerySet.limit 4
      (QuerySet.order_by (QuerySet.desc Project.created_at)
         (filter (fun p => Project.is_active p && Project.is_featured p)
            (project_table s))) in
  let testimonials :=
    QuerySet.limit 5
      (QuerySet.order_by (QuerySet.desc Testimonial.created_at)
         (filter (fun t => Testimonial.is_active t
                           && Testimonial.is_featured t)
            (testimonial_table s))) in
  let skills :=
    QuerySet.order_by (QuerySet.asc2 Skill.category Skill.order)
      (filter Skill.is_active (skill_table s)) in
  let blog :=
    QuerySet.limit 3
      (QuerySet.order_by (QuerySet.desc_opt Blog.published_date)
         (filter Blog.is_published (blog_table s))) in
  let faq :=
    QuerySet.limit 5
      (QuerySet.order_by (QuerySet.asc2 FAQ.category FAQ.order)
         (filter FAQ.is_active (faq_table s))) in
  let gallery_items :=
    QuerySet.limit 8
      (QuerySet.order_by (QuerySet.desc Gallery.created_at)
         (filter Gallery.is_active (gallery_table s))) in
  let certificate :=
    QuerySet.limit 3
      (QuerySet.order_by (QuerySet.desc Certificate.issue_date)
         (filter Certificate.is_active (certificate_table s))) in
  let blog := map (fun post => (post, first_tag post)) blog in
  let skills_by_category := group_by Skill.category skills in
  Return (render "portfolio/home.html" (HomeContext
    {| Home.about := about;
       Home.services := services;
       Home.featured_projects := projects;
       Home.testimonials := testimonials;
       Home.skills := skills;
       Home.skills_by_category := skills_by_category;
       Home.blog_posts := blog;
       Home.current_language := LANGUAGE_CODE request;
       Home.faq := faq;
       Home.gallery_items := gallery_items;
       Home.certificates := certificate |})).

(** [@cache_page(60 * 15)] over [home]: the view the module exports
    and the URL configuration routes.  [cache] is the cache when the
    request comes in and [now] the time; the view returns the cache as
    it leaves it. *)
Definition cached_home (cache_key : string -> HttpRequest -> string)
  (cache : Cache.t) (now : Z) (s : Store) (request : HttpRequest)
  : Cache.t * Result HttpResponse :=
  cache_page cache_key (60 * 15) (home s) cache now request.

Definition about (s : Store) (request : HttpRequest) : Result HttpResponse :=
  let about_info := active_about s in
  let certificates :=
    QuerySet.order_by (QuerySet.desc Certificate.issue_date)
      (filter Certificate.is_active (certificate_table s)) in
  let skills :=
    QuerySet.order_by (QuerySet.asc2 Skill.category Skill.order)
      (filter Skill.is_active (skill_table s)) in
  Return (render "portfolio/about.html" (AboutContext
    {| AboutPage.about := about_info;
       AboutPage.certificates := certificates;
       AboutPage.skills := skills |})).

(** The rows the services page paginates. *)
Definition services_queryset (s : Store) : list Service.t :=
  QuerySet.order_by (QuerySet.asc Service.order)
    (filter Service.is_active (service_table s)).

Definition services (s : Store) (request : HttpRequest)
  : Result HttpResponse :=
  let services := services_queryset s in
  let paginator := Paginator.make services 6 in
  let page_number := dict_get (GET request) "page" in
  page_obj <- Paginator.get_page paginator (of_param page_number) ;;
  Return (render "portfolio/services.html" (ServicesContext page_obj)).

(** The project rows the listing paginates: active, newest first, then
    narrowed by [type] and [search]. *)
Definition project_list_queryset (s : Store) (request : HttpRequest)
  : list Project.t :=
  let projects :=
    QuerySet.order_by (QuerySet.desc Project.created_at)
      (filter Project.is_active (project_table s)) in
  let project_type := dict_get (GET request) "type" in
  let search_query := dict_get (GET request) "search" in
  let projects :=
    if Py.truthy_opt project_type
    then filter (fun p => String.eqb (Project.project_type p)
                                     (or_empty project_type)) projects
    else projects in
  if Py.truthy_opt search_query
  then filter (fun p =>
                 icontains (Project.title p) (or_empty search_query)
                 || icontains (quill_json (Project.description p))
                              (or_empty search_query)
                 || icontains (Project.technologies p)
                              (or_empty search_query)) projects
  else projects.

Definition project_list (s : Store) (request : HttpRequest)
  : Result HttpResponse :=
  let projects := project_list_queryset s request in
  let project_type := dict_get (GET request) "type" in
  let search_query := dict_get (GET request) "search" in
  let paginator := Paginator.make projects 9 in
  let page_number := dict_get (GET request) "page" in
  page_obj <- Paginator.get_page paginator (of_param page_number) ;;
  Return (render "portfolio/projects.html" (ProjectListContext
    {| ProjectList.page_obj := page_obj;
       ProjectList.project_types := Project.PROJECT_TYPE_CHOICES;
       ProjectList.selected_type := project_type;
       ProjectList.search_query := or_empty search_query |})).

Definition project_detail (s : Store) (request : HttpRequest) (id : UUID)
  : Result HttpResponse :=
  project <- QuerySet.get_object_or_404 (project_table s)
               (fun p => (Project.id p =? id)%N && Project.is_active p) ;;
  let related_projects :=
    QuerySet.limit 3
      (QuerySet.order_by (QuerySet.desc Project.created_at)
         (QuerySet.exclude (fun p => (Project.id p =? Project.id project)%N)
            (filter (fun p => Project.is_active p
                              && String.eqb (Project.project_type p)
                                            (Project.project_type project))
               (project_table s)))) in
  Return (render "portfolio/project_detail.html" (ProjectDetailContext
    {| ProjectDetail.project := project;
       ProjectDetail.related_projects := related_projects |})).

(** [[tag.strip() for tag in blog.tags.split(',') if tag.strip()]] *)
Definition tags_of (blog : Blog.t) : list string :=
  map Py.strip
    (filter (fun tag => Py.truthy (Py.strip tag))
       (Py.split "," (Blog.tags blog))).

(** [sorted(a_set)]: the distinct strings in code-point order. *)
Definition sorted_set (l : list string) : list string :=
  QuerySet.order_by String.leb (nodup string_dec l).

(** The posts the blog listing paginates: published, latest first,
    narrowed by [search]. *)
Definition blog_list_queryset (s : Store) (request : HttpRequest)
  : list Blog.t :=
  let blogs :=
    QuerySet.order_by (QuerySet.desc_opt Blog.published_date)
      (filter Blog.is_published (blog_table s)) in
  let category := dict_get (GET request) "category" in
  let search_query := dict_get (GET request) "search" in
  if Py.truthy_opt search_query
  then filter (fun b =>
                 icontains (Blog.title b) (or_empty search_query)
                 || icontains (quill_json (Blog.content b))
                              (or_empty search_query)
                 || icontains (Blog.tags b) (or_empty search_query)
                 || icontains (Blog.excerpt b) (or_empty search_query))
         blogs
  else blogs.

Definition blog_list (s : Store) (request : HttpRequest)
  : Result HttpResponse :=
  let blogs := blog_list_queryset s request in
  let search_query := dict_get (GET request) "search" in
  let paginator := Paginator.make blogs 6 in
  let page_number := dict_get (GET request) "page" in
  page_obj <- Paginator.get_page paginator (of_param page_number) ;;
  let all_tags := flat_map tags_of blogs in
  Return (render "portfolio/blog.html" (BlogListContext
    {| BlogList.page_obj := page_obj;
       BlogList.all_tags := sorted_set all_tags;
       BlogList.search_query := or_empty search_query |})).

(** [blog.save()]: the row with the instance's primary key is
    rewritten, [updated_at] taking the current time; an instance with no
    row is inserted.  A counter that does not fit the [views] column
    ([column] is its range) is refused: the save raises and writes
    nothing.  (The history row that [HistoricalRecords] adds lives in a
    table of its own, which the views never read.) *)
Definition Blog_save (column : IntegerField.range) (table : list Blog.t)
  (blog : Blog.t) (now : Z) : Result (list Blog.t * Blog.t) :=
  let blog := Blog.set_updated_at blog now in
  if negb (IntegerField.fits column (Blog.views blog)) then Raise DataError
  else if existsb (fun b => (Blog.id b =? Blog.id blog)%N) table
  then Return
         (map (fun b => if (Blog.id b =? Blog.id blog)%N then blog else b)
            table, blog)
  else Return ((table ++ [blog])%list, blog).

(** The blog detail page reads the post, adds one to its counter and
    saves it; [now] is the clock at the time of the save and [column]
    the range of the [views] column. *)
Definition blog_detail (column : IntegerField.range) (now : Z) (s : Store)
  (request : HttpRequest) (slug : string) : Store * Result HttpResponse :=
  match QuerySet.get_object_or_404 (blog_table s)
          (fun b => String.eqb (Blog.slug b) slug && Blog.is_published b)
  with
  | Raise e => (s, Raise e)
  | Return blog =>
      let blog := Blog.set_views blog (Blog.views blog + 1) in
      match Blog_save column (blog_table s) blog now with
      | Raise e => (s, Raise e)
      | Return (table, blog) =>
          let s := set_blog_table s table in
          let related_blogs :=
            QuerySet.limit 3
              (QuerySet.order_by (QuerySet.desc_opt Blog.published_date)
                 (QuerySet.exclude (fun b => (Blog.id b =? Blog.id blog)%N)
                    (filter Blog.is_published (blog_table s)))) in
          (s, Return (render "portfolio/blog_detail.html"
                (BlogDetailContext
                   {| BlogDetail.blog := blog;
                      BlogDetail.related_blogs := related_blogs |})))
      end
  end.

(** The rows the gallery paginates: active, newest first, narrowed by
    [category]. *)
Definition gallery_queryset (s : Store) (request : HttpRequest)
  : list Gallery.t :=
  let gallery_items :=
    QuerySet.order_by (QuerySet.desc Gallery.created_at)
      (filter Gallery.is_active (gallery_table s)) in
  let category := dict_get (GET request) "category" in
  if Py.truthy_opt category
  then filter (fun g => String.eqb (Gallery.category g)
                                   (or_empty category)) gallery_items
  else gallery_items.

Definition gallery (s : Store) (request : HttpRequest)
  : Result HttpResponse :=
  let gallery_items := gallery_queryset s request in
  let category := dict_get (GET request) "category" in
  let paginator := Paginator.make gallery_items 12 in
  let page_number := dict_get (GET request) "page" in
  page_obj <- Paginator.get_page paginator (of_param page_number) ;;
  Return (render "portfolio/gallery.html" (GalleryContext
    {| GalleryPage.page_obj := page_obj;
       GalleryPage.categories := Gallery.CATEGORY_CHOICES;
       GalleryPage.selected_category := category |})).

(** The rows the testimonials page paginates. *)
Definition testimonials_queryset (s : Store) : list Testimonial.t :=
  QuerySet.order_by (QuerySet.desc Testimonial.created_at)
    (filter Testimonial.is_active (testimonial_table s)).

Definition testimonials (s : Store) (request : HttpRequest)
  : Result HttpResponse :=
  let testimonials := testimonials_queryset s in
  let paginator := Paginator.make testimonials 8 in
  let page_number := dict_get (GET request) "page" in
  page_obj <- Paginator.get_page paginator (of_param page_number) ;;
  Return (render "portfolio/testimonials.html"
            (TestimonialsContext page_obj)).

Definition certificates (s : Store) (request : HttpRequest)
  : Result HttpResponse :=
  let certificates :=
    QuerySet.order_by (QuerySet.desc Certificate.issue_date)
      (filter Certificate.is_active (certificate_table s)) in
  Return (render "portfolio/certificates.html"
            (CertificatesContext certificates)).

(** The contact page.  Two pieces of library code are parameters of
    this section: Django's [EmailValidator] ([validate_email]) and
    [clean_ipv6_address], which puts an IPv6 address in canonical form
    and gives none, for its [ValidationError], on any other text. *)
Section Contact.
Variable validate_email : string -> bool.
Variable clean_ipv6_address : string -> option string.

(** [GenericIPAddressField.get_db_prep_value]: what the column stores
    for the attribute.  A text with a colon is put in canonical form
    when it is an IPv6 address and kept as it is when not; an empty text
    is stored as [NULL]. *)
Definition GenericIPAddressField_get_db_prep_value (value : option string)
  : option string :=
  match value with
  | None => None
  | Some value =>
      let value :=
        if Py.truthy value && Py.contains ":" value
        then match clean_ipv6_address value with
             | Some address => address
             | None => value
             end
        else value in
      if Py.truthy value then Some value else None
  end.

(** [contact_message.save()] on a new instance: one row is inserted,
    both timestamps taking the current time and the address as the
    column stores it. *)
Definition ContactMessage_insert (s : Store) (m : ContactMessage.t)
  (now : Z) : Store :=
  let m :=
    {| ContactMessage.id := ContactMessage.id m;
       ContactMessage.name := ContactMessage.name m;
       ContactMessage.email := ContactMessage.email m;
       ContactMessage.subject := ContactMessage.subject m;
       ContactMessage.message := ContactMessage.message m;
       ContactMessage.status := ContactMessage.status m;
       ContactMessage.ip_address :=
         GenericIPAddressField_get_db_prep_value
           (ContactMessage.ip_address m);
       ContactMessage.user_agent := ContactMessage.user_agent m;
       ContactMessage.created_at := now;
       ContactMessage.updated_at := now |} in
  set_contact_table s (contact_table s ++ [m])%list.

(** The contact page; [uuid] is the key drawn for a new message and
    [now] the clock at the time of the save. *)
Definition contact (uuid : UUID) (now : Z) (s : Store)
  (request : HttpRequest) : Store * Result HttpResponse :=
  if String.eqb (method request) "POST" then
    let form := ContactForm.make (Some (POST request)) in
    if ContactForm.is_valid validate_email form then
      let contact_message :=
        ContactForm.save_commit_false validate_email form uuid in
      let contact_message :=
        {| ContactMessage.id := ContactMessage.id contact_message;
           ContactMessage.name := ContactMessage.name contact_message;
           ContactMessage.email := ContactMessage.email contact_message;
           ContactMessage.subject := ContactMessage.subject contact_message;
           ContactMessage.message := ContactMessage.message contact_message;
           ContactMessage.status := ContactMessage.status contact_message;
           ContactMessage.ip_address :=
             dict_get (META request) "REMOTE_ADDR";
           ContactMessage.user_agent :=
             or_empty (dict_get (META request) "HTTP_USER_AGENT");
           ContactMessage.created_at :=
             ContactMessage.created_at contact_message;
           ContactMessage.updated_at :=
             ContactMessage.updated_at contact_message |} in
      let s := ContactMessage_insert s contact_message now in
      if is_value (dict_get (headers request) "X-Requested-With")
           "XMLHttpRequest"
      then (s, Return (JsonResponse (ContactSuccess true
              "Thank you for your message! I will get back to you soon.")))
      else (s, Return (render "portfolio/contact_success.html" NoContext))
    else (s, Return (render "portfolio/contact.html" (ContactContext form)))
  else
    let form := ContactForm.make None in
    (s, Return (render "portfolio/contact.html" (ContactContext form))).
End Contact.

Definition faq_list (s : Store) (request : HttpRequest)
  : Result HttpResponse :=
  let faqs :=
    QuerySet.order_by (QuerySet.asc2 FAQ.category FAQ.order)
      (filter FAQ.is_active (faq_table s)) in
  let faqs_by_category := group_by FAQ.category faqs in
  Return (render "portfolio/faq.html" (FaqListContext
    {| FaqList.faqs_by_category := faqs_by_category;
       FaqList.categories := FAQ.CATEGORY_CHOICES |})).

(** [field.html]: django_quill parses the stored text and raises when
    it is no Quill document; [hasattr] lets that exception through. *)
Definition Quill_html (q : Quill) : Result string :=
  match quill_html q with
  | Some html => Return html
  | None => Raise QuillParseError
  end.

(** A list comprehension whose expression may raise. *)
Fixpoint for_each {A B} (f : A -> Result B) (l : list A)
  : Result (list B) :=
  match l with
  | [] => Return []
  | x :: l' => y <- f x ;; ys <- for_each f l' ;; Return (y :: ys)
  end.

Definition api_project_entry (p : Project.t) : Result Api.project :=
  description <- Quill_html (Project.description p) ;;
  Return
    {| Api.id := Project.id p;
       Api.title := Project.title p;
       Api.description := description;
       Api.project_type := Project.get_project_type_display p;
       Api.technologies := Project.technologies p;
       Api.github_url := Project.github_url p;
       Api.live_url := Project.live_url p;
       Api.featured_image :=
         if Py.truthy (FieldFile.name (Project.featured_image p))
         then Some (FieldFile.url (Project.featured_image p)) else None;
       Api.start_date := Project.start_date p;
       Api.end_date := Project.end_date p |}.

(** The rows the JSON listing paginates. *)
Definition api_projects_queryset (s : Store) : list Project.t :=
  QuerySet.order_by (QuerySet.desc Project.created_at)
    (filter Project.is_active (project_table s)).

(** The page the JSON listing serves: [page] and [per_page] are parsed
    before the [try], the fall-back to page 1 is inside it. *)
Definition api_projects_page (s : Store) (request : HttpRequest)
  : Result (Paginator.Page Project.t) :=
  let projects := api_projects_queryset s in
  page <- py_int (param_or request "page" 1) ;;
  per_page <- py_int (param_or request "per_page" 9) ;;
  let paginator := Paginator.make projects per_page in
  try_except (Paginator.page paginator (PyInt page))
             (Paginator.page paginator (PyInt 1)).

Definition api_projects (s : Store) (request : HttpRequest)
  : Result HttpResponse :=
  if negb (String.eqb (method request) "GET")
  then Return (HttpResponseNotAllowed ["GET"])
  else
    page_obj <- api_projects_page s request ;;
    let paginator := Paginator.paginator page_obj in
    projects <- for_each api_project_entry
                  (Paginator.page_object_list page_obj) ;;
    pages <- Paginator.num_pages paginator ;;
    has_next <- Paginator.has_next page_obj ;;
    Return (JsonResponse (ProjectsData projects
      {| Api.total := Paginator.count paginator;
         Api.pages := pages;
         Api.current := Paginator.number page_obj;
         Api.has_next := has_next;
         Api.has_previous := Paginator.has_previous page_obj |})).

(* ================================================================= *)
(** ** context_processors.py *)

Module SiteSettings.
Record t : Type := {
  site_title : string;
  site_description : string;
  site_author : string;
  current_year : Z;
  about : option About.t
}.
End SiteSettings.

(** [site_settings(request)] *)
Definition site_settings (s : Store) (request : HttpRequest)
  : SiteSettings.t :=
  let about := active_about s in
  {| SiteSettings.site_title := "Nishan Chaudhary - Django Developer";
     SiteSettings.site_description :=
       "Portfolio of Nishan Chaudhary, Django Web Developer";
     SiteSettings.site_author := "Nishan Chaudhary";
     SiteSettings.current_year := 2024;
     SiteSettings.about := about |}.

Module Nav.
(** The value under ['dropdown'], when an item has that key. *)
Inductive dropdown : Type :=
| NoDropdown
| ServiceDropdown (rows : list Service.t)
| FaqDropdown (rows : list FAQ.t).

Record item : Type := {
  name : string;
  url : string;
  icon : string;
  menu : dropdown
}.

Record context : Type := {
  nav_items : list item;
  current_path : string
}.
End Nav.

(** [navigation(request)]; [path] is [request.path]. *)
Definition navigation (s : Store) (request : HttpRequest) (path : string)
  : Nav.context :=
  let nav_items :=
    [ {| Nav.name := "Home"; Nav.url := "/"; Nav.icon := "home";
         Nav.menu := Nav.NoDropdown |};
      {| Nav.name := "About"; Nav.url := "/about/"; Nav.icon := "person";
         Nav.menu := Nav.NoDropdown |};
      {| Nav.name := "Services"; Nav.url := "/services/";
         Nav.icon := "business_center";
         Nav.menu :=
           Nav.ServiceDropdown
             (QuerySet.limit 5
                (QuerySet.order_by (QuerySet.asc Service.order)
                   (filter Service.is_active (service_table s)))) |};
      {| Nav.name := "Projects"; Nav.url := "/projects/";
         Nav.icon := "folder"; Nav.menu := Nav.NoDropdown |};
      {| Nav.name := "Blog"; Nav.url := "/blog/"; Nav.icon := "article";
         Nav.menu := Nav.NoDropdown |};
      {| Nav.name := "Gallery"; Nav.url := "/gallery/";
         Nav.icon := "photo_library"; Nav.menu := Nav.NoDropdown |};
      {| Nav.name := "Testimonials"; Nav.url := "/testimonials/";
         Nav.icon := "format_quote"; Nav.menu := Nav.NoDropdown |};
      {| Nav.name := "Certificates"; Nav.url := "/certificates/";
         Nav.icon := "badge"; Nav.menu := Nav.NoDropdown |};
      {| Nav.name := "FAQ"; Nav.url := "/faq/"; Nav.icon := "help";
         Nav.menu :=
           Nav.FaqDropdown
             (QuerySet.limit 5
                (QuerySet.order_by (QuerySet.asc2 FAQ.category FAQ.order)
                   (filter FAQ.is_active (faq_table s)))) |};
      {| Nav.name := "Contact"; Nav.url := "/contact/"; Nav.icon := "mail";
         Nav.menu := Nav.NoDropdown |} ] in
  {| Nav.nav_items := nav_items; Nav.current_path := path |}.

(* ================================================================= *)
(** ** admin.py: the methods the admin classes define *)

Definition Blog_set_published_date (b : Blog.t) (d : option Z) : Blog.t :=
  {| Blog.id := Blog.id b; Blog.title := Blog.title b;
     Blog.slug := Blog.slug b; Blog.content := Blog.content b;
     Blog.excerpt := Blog.excerpt b;
     Blog.featured_image := Blog.featured_image b;
     Blog.author := Blog.author b;
     Blog.is_published := Blog.is_published b;
     Blog.published_date := d; Blog.views := Blog.views b;
     Blog.tags := Blog.tags b; Blog.created_at := Blog.created_at b;
     Blog.updated_at := Blog.updated_at b |}.

Definition Blog_set_created_at (b : Blog.t) (now : Z) : Blog.t :=
  {| Blog.id := Blog.id b; Blog.title := Blog.title b;
     Blog.slug := Blog.slug b; Blog.content := Blog.content b;
     Blog.excerpt := Blog.excerpt b;
     Blog.featured_image := Blog.featured_image b;
     Blog.author := Blog.author b;
     Blog.is_published := Blog.is_published b;
     Blog.published_date := Blog.published_date b;
     Blog.views := Blog.views b; Blog.tags := Blog.tags b;
     Blog.created_at := now; Blog.updated_at := Blog.updated_at b |}.

(** [obj.save()] as the admin calls it.  A post the add form has built
    ([change] false) is inserted, both timestamps taking the current
    time; a post the change form has loaded rewrites its row, and is
    inserted if the row has gone. *)
Definition Blog_admin_save (column : IntegerField.range) (change : bool)
  (table : list Blog.t) (obj : Blog.t) (now : Z)
  : Result (list Blog.t * Blog.t) :=
  if change && existsb (fun b => (Blog.id b =? Blog.id obj)%N) table
  then Blog_save column table obj now
  else if negb (IntegerField.fits column (Blog.views obj))
  then Raise DataError
  else
    let obj := Blog_set_created_at (Blog.set_updated_at obj now) now in
    Return ((table ++ [obj])%list, obj).

(** [BlogAdmin.save_model(request, obj, form, change)]: a published post
    without a publication date gets the current time, then the post is
    saved.  [published_now] is the clock read by [save_model] and [now]
    the clock read by the save. *)
Definition BlogAdmin_save_model (column : IntegerField.range)
  (published_now now : Z) (change : bool) (table : list Blog.t)
  (obj : Blog.t) : Result (list Blog.t * Blog.t) :=
  let obj :=
    if Blog.is_published obj
       && negb (match Blog.published_date obj with
                | Some _ => true
                | None => false
                end)
    then Blog_set_published_date obj (Some published_now)
    else obj in
  Blog_admin_save column change table obj now.





(* ================================================================= *)
(** ** utils.py: get_chart_data

    The rows of the query set are of any model.  [date_of obj] is
    [getattr(obj, date_field)], a date or [None]; [value_of obj] is the
    attribute [value_field] of the row, [None] when the row has no such
    attribute; [strftime_Y_m] is [date.strftime('%Y-%m')]. *)

Module Chart.
Record t : Type := {
  labels : list string;
  data : list Z
}.

(** [data[key] += value] on a [defaultdict(int)]: a new key goes last
    and starts from zero. *)
Fixpoint add (d : list (string * Z)) (key : string) (value : Z)
  : list (string * Z) :=
  match d with
  | [] => [(key, 0 + value)]
  | (k, x) :: d' =>
      if String.eqb k key then (k, x + value) :: d'
      else (k, x) :: add d' key value
  end.

Section GetChartData.
Context {Obj Date : Type}.
Variable date_of : Obj -> option Date.
Variable value_of : Obj -> option PyValue.
Variable strftime_Y_m : Date -> string.

(** [getattr(obj, value_field, 1)] *)
Definition value (obj : Obj) : PyValue :=
  match value_of obj with
  | Some v => v
  | None => PyInt 1
  end.

(** The loop over the query set. *)
Fixpoint loop (d : list (string * Z)) (queryset : list Obj)
  : Result (list (string * Z)) :=
  match queryset with
  | [] => Return d
  | obj :: rest =>
      match date_of obj with
      | Some date =>
          let month_year := strftime_Y_m date in
          v <- py_int (value obj) ;;
          loop (add d month_year v) rest
      | None => loop d rest
      end
  end.

(** [sorted(data.items())]: tuples compare by key, then by value. *)
Definition get_chart_data (queryset : list Obj) : Result t :=
  d <- loop [] queryset ;;
  let sorted_data := QuerySet.order_by (QuerySet.asc2 fst snd) d in
  Return {| labels := map fst sorted_data;
            data := map snd sorted_data |}.
End GetChartData.
End Chart.

(* ================================================================= *)
(** ** forms.py: FilterForm

    A plain form of three optional fields, a text and two dates, whose
    [clean] compares the dates.  A date is the number of its day;
    [strptime] stands for [DateField.strptime] tried over the input
    formats of the settings, and gives no date when none matches. *)

Module FilterForm.

(** [FilterForm(data)] when bound, [FilterForm()] when not. *)
Record t : Type := make {
  data : option (list (string * string))
}.

(** What [Field.clean] makes of a value: the cleaned value, or the
    [ValidationError] it raises. *)
Inductive Cleaned (A : Type) : Type :=
| Value (value : A)
| Error (e : ValidationError).
Arguments Value {A} value.
Arguments Error {A} e.

(** An entry of [form.errors]: under the name of a field, or under
    [__all__] with the message of [clean]. *)
Inductive FormError : Type :=
| FieldError (field : string) (e : ValidationError)
| NonFieldError (message : string).

(** [cleaned_data]: a key is absent when its field is in error. *)
Record CleanedData : Type := {
  search : option string;
  start_date : option (option Z);
  end_date : option (option Z)
}.

(** [cleaned_data.get(key)] on a date: [None] for an absent key as for an
    empty date. *)
Definition get (entry : option (option Z)) : option Z :=
  match entry with
  | Some (Some date) => Some date
  | _ => None
  end.

Definition raw_value (f : t) (field : string) : option string :=
  match data f with
  | Some d => dict_get d field
  | None => None
  end.

(** [CharField(required=False).clean]: the stripped text; validators
    are skipped on an empty value. *)
Definition clean_search (raw : option string) : Cleaned string :=
  let value := ContactForm.to_python raw in
  if String.eqb value "" then Value value
  else
    match ContactForm.ProhibitNullCharactersValidator value with
    | [] => Value value
    | e :: _ => Error e
    end.

Section Clean.
Variable strptime : string -> option Z.

(** [DateField(required=False).clean]: no date for an empty value, else
    the stripped text parsed. *)
Definition clean_date (raw : option string) : Cleaned (option Z) :=
  match raw with
  | None => Value None
  | Some value =>
      if String.eqb value "" then Value None
      else
        match strptime (Py.strip value) with
        | Some date => Value (Some date)
        | None => Error Invalid
        end
  end.

Definition entry {A} (c : Cleaned A) : option A :=
  match c with
  | Value value => Some value
  | Error _ => None
  end.

Definition field_errors {A} (field : string) (c : Cleaned A)
  : list FormError :=
  match c with
  | Value _ => []
  | Error e => [FieldError field e]
  end.

(** [_clean_fields]: each field cleaned in turn, into [cleaned_data] or
    into the errors. *)
Definition _clean_fields (f : t) : CleanedData * list FormError :=
  let s := clean_search (raw_value f "search") in
  let sd := clean_date (raw_value f "start_date") in
  let ed := clean_date (raw_value f "end_date") in
  ({| search := entry s; start_date := entry sd; end_date := entry ed |},
   (field_errors "search" s ++ field_errors "start_date" sd
    ++ field_errors "end_date" ed)%list).

(** [FilterForm.clean]: the cleaned data, or the message of the
    [ValidationError] it raises. *)
Definition clean (cleaned_data : CleanedData) : CleanedData + string :=
  let start_date := get (start_date cleaned_data) in
  let end_date := get (end_date cleaned_data) in
  match start_date, end_date with
  | Some s, Some e =>
      if e <? s then inr "Start date cannot be after end date"
      else inl cleaned_data
  | _, _ => inl cleaned_data
  end.

(** [full_clean]: the fields, then [clean]; nothing on an unbound form. *)
Definition full_clean (f : t) : option (CleanedData * list FormError) :=
  match data f with
  | None => None
  | Some _ =>
      let '(cleaned_data, errors) := _clean_fields f in
      match clean cleaned_data with
      | inl cleaned_data' => Some (cleaned_data', errors)
      | inr message =>
          Some (cleaned_data, (errors ++ [NonFieldError message])%list)
      end
  end.

Definition errors (f : t) : list FormError :=
  match full_clean f with
  | Some (_, errors) => errors
  | None => []
  end.

Definition cleaned_data (f : t) : option CleanedData :=
  option_map fst (full_clean f).

(** [form.is_valid()]: bound and free of errors. *)
Definition is_valid (f : t) : bool :=
  match full_clean f with
  | Some (_, []) => true
  | _ => false
  end.

End Clean.
End FilterForm.

(* ================================================================= *)
(** ** Sample data for the examples *)

Module Sample.

(** The text django_quill stores for a document of HTML [html], and a
    column that holds it. *)
Definition dq : string := String (ascii_of_N 34) EmptyString.

Definition quill_text (html : string) : string :=
  "{" ++ dq ++ "delta" ++ dq ++ ":" ++ dq ++ dq ++ ","
      ++ dq ++ "html" ++ dq ++ ":" ++ dq ++ html ++ dq ++ "}".

Definition quill (html : string) : Quill :=
  {| quill_json := quill_text html; quill_html := Some html |}.

(** A column that holds plain text, which is no Quill document. *)
Definition plain (text : string) : Quill :=
  {| quill_json := text; quill_html := None |}.

(** An image stored under [name], and no image. *)
Definition image (name : string) : FieldFile.t :=
  {| FieldFile.name := name; FieldFile.url := "/media/" ++ name |}.

Definition no_image : FieldFile.t :=
  {| FieldFile.name := EmptyString; FieldFile.url := EmptyString |}.

Definition project (id : UUID) (title type : string)
  (featured active : bool) (created : Z) : Project.t :=
  {| Project.id := id; Project.title := title;
     Project.description := quill "";
     Project.project_type := type; Project.technologies := "";
     Project.github_url := ""; Project.live_url := "";
     Project.featured_image := image (title ++ ".png");
     Project.is_featured := featured;
     Project.is_active := active; Project.start_date := 0;
     Project.end_date := None; Project.created_at := created |}.

Definition blog (id : UUID) (slug : string) (published : bool)
  (date : option Z) (views : Z) (tags : string) : Blog.t :=
  {| Blog.id := id; Blog.title := slug; Blog.slug := slug;
     Blog.content := quill ""; Blog.excerpt := "";
     Blog.featured_image := ""; Blog.author := "Nishan Chaudhary";
     Blog.is_published := published; Blog.published_date := date;
     Blog.views := views; Blog.tags := tags;
     Blog.created_at := 0; Blog.updated_at := 0 |}.

Definition faq (id : UUID) (category : string) (order : Z)
  (active : bool) : FAQ.t :=
  {| FAQ.id := id; FAQ.question := ""; FAQ.answer := quill "";
     FAQ.category := category; FAQ.order := order;
     FAQ.is_active := active; FAQ.created_at := 0; FAQ.updated_at := 0 |}.

Definition empty : Store :=
  {| about_table := []; service_table := []; project_table := [];
     blog_table := []; gallery_table := []; testimonial_table := [];
     certificate_table := []; skill_table := []; contact_table := [];
     faq_table := [] |}.

Definition with_projects (ps : list Project.t) : Store :=
  {| about_table := []; service_table := []; project_table := ps;
     blog_table := []; gallery_table := []; testimonial_table := [];
     certificate_table := []; skill_table := []; contact_table := [];
     faq_table := [] |}.

Definition get (query : list (string * string)) : HttpRequest :=
  {| method := "GET"; GET := query; POST := []; META := [];
     headers := []; LANGUAGE_CODE := "en" |}.

Definition post (form : list (string * string)) : HttpRequest :=
  {| method := "POST"; GET := []; POST := form;
     META := [("REMOTE_ADDR", "203.0.113.7");
              ("HTTP_USER_AGENT", "curl/8.0")];
     headers := []; LANGUAGE_CODE := "en" |}.

(** A stand-in for the email validator in the examples: one [@] with a
    non-empty name before it and a dotted host after it. *)
Definition validate_email (s : string) : bool :=
  match Py.split "@" s with
  | [user; host] => Py.truthy user && Py.contains "." host
  | _ => false
  end.

(** Four projects: an older featured one, a newer plain one, a hidden
    one and one of another type. *)
Definition p_old : Project.t := project 1%N "old" "web" true true 10.
Definition p_new : Project.t := project 2%N "new" "web" false true 20.
Definition p_hidden : Project.t := project 3%N "hidden" "web" false false 30.
Definition p_app : Project.t := project 4%N "app" "mobile" false true 5.

Definition portfolio : Store :=
  with_projects [p_old; p_new; p_hidden; p_app].

Definition with_blogs (bs : list Blog.t) : Store :=
  {| about_table := []; service_table := []; project_table := [];
     blog_table := bs; gallery_table := []; testimonial_table := [];
     certificate_table := []; skill_table := []; contact_table := [];
     faq_table := [] |}.

(** Three posts: two published ones and a draft. *)
Definition b_hello : Blog.t := blog 1%N "hello" true (Some 5) 7 "a, b".
Definition b_draft : Blog.t := blog 2%N "draft" false None 0 "".
Definition b_world : Blog.t := blog 3%N "world" true (Some 9) 0 "b".

Definition journal : Store := with_blogs [b_hello; b_draft; b_world].

(** A post whose counter is the largest integer SQLite stores, and a
    store that holds it. *)
Definition b_full : Blog.t :=
  blog 4%N "full" true (Some 1) (2 ^ 63 - 1) "".

Definition archive : Store := with_blogs [b_hello; b_full].

(** A name of 201 characters. *)
Definition long_name : string :=
  string_of_list_ascii (repeat "a"%char 201).

Definition message (name email : string) : HttpRequest :=
  post [("name", name); ("email", email); ("subject", "S");
        ("message", "M")].

Definition page_two : HttpRequest := get [("page", "2")].

(** A valid message from the address [address]. *)
Definition message_from (address : string) : HttpRequest :=
  {| method := "POST"; GET := [];
     POST := [("name", "A"); ("email", "a@b.com"); ("subject", "S");
              ("message", "M")];
     META := [("REMOTE_ADDR", address)];
     headers := []; LANGUAGE_CODE := "en" |}.

(** Dates written as day numbers, for the examples. *)
Definition strptime (value : string) : option Z := Py.int value.

Definition filter_form (start_date end_date : string) : FilterForm.t :=
  FilterForm.make
    (Some [("search", "django"); ("start_date", start_date);
           ("end_date", end_date)]).

(** Rows numbered from 1 to [count]. *)
Definition rows {A} (count : nat) (row : N -> A) : list A :=
  map (fun i => row (N.of_nat i)) (seq 1 count).

Definition about (id : UUID) (name : string) (active : bool) : About.t :=
  {| About.id := id; About.full_name := name; About.title := "";
     About.bio := quill ""; About.email := ""; About.phone := "";
     About.address := ""; About.github_url := "";
     About.linkedin_url := ""; About.twitter_url := "";
     About.profile_image := ""; About.resume := "";
     About.is_active := active; About.created_at := 0;
     About.updated_at := 0 |}.

Definition service (id : UUID) (order : Z) (active : bool) : Service.t :=
  {| Service.id := id; Service.title := "service";
     Service.description := quill ""; Service.icon := "";
     Service.order := order; Service.is_active := active;
     Service.created_at := 0 |}.

Definition gallery_item (id : UUID) (category : string) (active : bool)
  (created : Z) : Gallery.t :=
  {| Gallery.id := id; Gallery.title := "picture"; Gallery.image := "";
     Gallery.category := category; Gallery.description := "";
     Gallery.is_active := active; Gallery.created_at := created |}.

Definition testimonial (id : UUID) (featured active : bool) (created : Z)
  : Testimonial.t :=
  {| Testimonial.id := id; Testimonial.client_name := "client";
     Testimonial.client_title := ""; Testimonial.company := "";
     Testimonial.content := quill ""; Testimonial.client_image := "";
     Testimonial.rating := 5; Testimonial.is_featured := featured;
     Testimonial.is_active := active;
     Testimonial.created_at := created |}.

Definition certificate (id : UUID) (active : bool) (issued : Z)
  : Certificate.t :=
  {| Certificate.id := id; Certificate.name := "certificate";
     Certificate.issuer := ""; Certificate.issue_date := issued;
     Certificate.expiry_date := None; Certificate.certificate_url := "";
     Certificate.credential_id := ""; Certificate.image := "";
     Certificate.skills := ""; Certificate.is_active := active;
     Certificate.created_at := 0 |}.

Definition skill (id : UUID) (category : string) (order : Z)
  (active : bool) : Skill.t :=
  {| Skill.id := id; Skill.name := "skill"; Skill.category := category;
     Skill.proficiency := 80; Skill.years_of_experience := 2;
     Skill.icon := ""; Skill.is_active := active; Skill.order := order;
     Skill.created_at := 0 |}.

(** A store with more than one page in every paginated listing, and a
    hidden row in every table: 8 visible services (6 to a page), 11
    projects (9), 8 posts (6), 14 gallery items (12) and 10 testimonials
    (8). *)
Definition catalogue : Store :=
  {| about_table :=
       [about 3%N "C" true; about 1%N "A" false; about 2%N "B" true];
     service_table :=
       (rows 8 (fun i => service i (9 - Z.of_N i) true)
        ++ [service 90%N 0 false])%list;
     project_table :=
       (rows 11 (fun i => project i "p"
                            (if N.even i then "web" else "mobile")
                            (N.even i) true (10 * Z.of_N i))
        ++ [project 90%N "hidden" "web" true false 500])%list;
     blog_table :=
       (rows 8 (fun i => blog i
                           ("post" ++ String (ascii_of_N (48 + i)) "")
                           true (Some (Z.of_N i)) 0 "a, b")
        ++ [blog 90%N "draft" false None 0 "c"])%list;
     gallery_table :=
       (rows 14 (fun i => gallery_item i
                            (if N.even i then "project" else "personal")
                            true (Z.of_N i))
        ++ [gallery_item 90%N "personal" false 500])%list;
     testimonial_table :=
       (rows 10 (fun i => testimonial i (N.even i) true (Z.of_N i))
        ++ [testimonial 90%N true false 500])%list;
     certificate_table :=
       (rows 4 (fun i => certificate i true (Z.of_N i))
        ++ [certificate 90%N false 500])%list;
     skill_table :=
       [skill 1%N "frontend" 2 true; skill 2%N "backend" 1 true;
        skill 3%N "frontend" 1 true; skill 4%N "backend" 0 false];
     contact_table := [];
     faq_table :=
       (rows 6 (fun i => faq i (if N.even i then "general" else "pricing")
                           (7 - Z.of_N i) true)
        ++ [faq 90%N "general" 0 false])%list |}.

(** One address for every request, for the examples: the key of the
    cache is the method. *)
Definition cache_key (method : string) (request : HttpRequest) : string :=
  method.



(** A stand-in for [clean_ipv6_address] in the examples: a text of
    hexadecimal digits and colons is an address, and its canonical form
    is in lower case. *)
Definition clean_ipv6_address (value : string) : option string :=
  if forallb (fun c => Py.isdigit c || (c =? ":")%char
                       || Py.contains (String (Py.lower_char c) "") "abcdef")
       (list_ascii_of_string value)
  then Some (Py.lower value) else None.



(** A project written as plain text, without an image. *)
Definition p_plain : Project.t :=
  {| Project.id := 7%N; Project.title := "plain";
     Project.description := plain "hello";
     Project.project_type := "web"; Project.technologies := "";
     Project.github_url := ""; Project.live_url := "";
     Project.featured_image := no_image; Project.is_featured := false;
     Project.is_active := true; Project.start_date := 0;
     Project.end_date := None; Project.created_at := 1 |}.

End Sample.

(** The rows a response of the project listing shows. *)
Definition project_list_rows (r : Result HttpResponse) : list Project.t :=
  match r with
  | Return (render _ (ProjectListContext c)) =>
      Paginator.page_object_list (ProjectList.page_obj c)
  | _ => []
  end.

(* ================================================================= *)
(** ** Vocabulary of the properties *)

(** Every row of [l] has the flag set. *)
Definition all_set {A} (flag : A -> bool) (l : list A) : Prop :=
  Forall (fun x => flag x = true) l.

(** Newest first: each row is at least as recent as those after it. *)
Definition newest_first {A} (created_at : A -> Z) (l : list A) : Prop :=
  StronglySorted (fun a b => created_at b <= created_at a) l.

(** A primary-key or [unique=True] constraint on a table. *)
Definition unique {A K} (key : A -> K) (table : list A) : Prop :=
  NoDup (map key table).

(** The number of the last page of [total] rows, [per_page] to a page:
    [ceil(total / per_page)], and 1 when there is no row. *)
Definition last_page (per_page total : Z) : Z :=
  Z.max 1 ((total + per_page - 1) / per_page).

(** The rows of page [n]. *)
Definition page_rows {A} (per_page : Z) (rows : list A) (n : Z) : list A :=
  Py.slice rows ((n - 1) * per_page)
    (Z.min (n * per_page) (Z.of_nat (List.length rows))).

(** The page number [get_page] settles on. *)
Definition resolved_page (per_page total : Z) (number : PyValue) : Z :=
  match py_int number with
  | Raise _ => 1
  | Return n =>
      if n <? 1 then last_page per_page total
      else Z.min n (last_page per_page total)
  end.

(** What a listing that clamps shows for page [n >= 1] of [rows]: page
    [n] itself, of [min(per_page, total - (n-1)*per_page)] rows, when
    [n] is one of its pages; the last page, which is not empty unless
    there is no row at all, when [n] lies beyond. *)
Definition clamps_to_last {A} (per_page : Z) (rows shown : list A) (n : Z)
  : Prop :=
  let total := Z.of_nat (List.length rows) in
  let last := last_page per_page total in
  (n <= last ->
   shown = page_rows per_page rows n
   /\ Z.of_nat (List.length shown)
      = Z.min per_page (total - (n - 1) * per_page))
  /\ (last < n ->
      shown = page_rows per_page rows last /\ (rows <> [] -> shown <> [])).

(** The same for a listing that falls back to page 1 beyond the last
    page. *)
Definition falls_back_to_first {A} (per_page : Z) (rows shown : list A)
  (n : Z) : Prop :=
  let total := Z.of_nat (List.length rows) in
  let last := last_page per_page total in
  (n <= last ->
   shown = page_rows per_page rows n
   /\ Z.of_nat (List.length shown)
      = Z.min per_page (total - (n - 1) * per_page))
  /\ (last < n -> shown = page_rows per_page rows 1).

(** The distinct keys of a list, each at its first occurrence. *)
Fixpoint first_seen (keys : list string) : list string :=
  match keys with
  | [] => []
  | k :: keys' =>
      k :: filter (fun k' => negb (String.eqb k' k)) (first_seen keys')
  end.

(** What the grouping is to produce: one bucket per category, in the
    order the categories are first met, each holding the rows of its
    category in the order of the input. *)
Definition grouped {A} (category : A -> string) (rows : list A)
  : Buckets A :=
  map (fun k => (k, filter (fun x => String.eqb (category x) k) rows))
      (first_seen (map category rows)).

(** What the form accepts of one field: a value that is not empty, at
    most [limit] characters long when the column has a limit, and free
    of null characters. *)
Definition field_ok (limit : option nat) (value : string) : bool :=
  negb (String.eqb value "")
  && match limit with
     | Some n => (String.length value <=? n)%nat
     | None => true
     end
  && negb (Py.contains (String Ascii.zero EmptyString) value).

(** The posted value of a field after the form has stripped it. *)
Definition posted (request : HttpRequest) (field : string) : string :=
  ContactForm.to_python (dict_get (POST request) field).

(** A payload the form accepts: the four fields pass [field_ok] ([name]
    and [subject] within 200 characters, [email] within 254) and the
    address is well formed. *)
Definition payload_ok (validate_email : string -> bool)
  (request : HttpRequest) : bool :=
  field_ok (Some 200%nat) (posted request "name")
  && (field_ok (Some 254%nat) (posted request "email")
      && validate_email (posted request "email"))
  && field_ok (Some 200%nat) (posted request "subject")
  && field_ok None (posted request "message").

(** A handler answers: it returns a response, or raises the not-found
    exception that the framework turns into the 404 page. *)
Definition answers (r : Result HttpResponse) : Prop :=
  (exists response, r = Return response) \/ r = Raise Http404.

(** The rows of [l] are in the order [leb]: each row comes before all
    the rows after it. *)
Definition sorted_by {A} (leb : A -> A -> bool) (l : list A) : Prop :=
  StronglySorted (fun a b => leb a b = true) l.

(** The condition a query parameter puts on a row: none when the
    parameter is absent or empty, [test value] otherwise. *)
Definition param_holds (param : option string) (test : string -> bool)
  : Prop :=
  forall value, param = Some value -> value <> "" -> test value = true.

(** What one visit of the post with slug [slug] does to a row of the
    blog table: the post gains a view and the time of the save, every
    other row stays as it is. *)
Definition visited (slug : string) (now : Z) (b : Blog.t) : Blog.t :=
  if String.eqb (Blog.slug b) slug
  then Blog.set_updated_at (Blog.set_views b (Blog.views b + 1)) now
  else b.

(** [n] requests for the detail page of a post, one after the other;
    [clock k] is the time of the save of request [k]. *)
Fixpoint visits (column : IntegerField.range) (clock : nat -> Z)
  (n : nat) (s : Store) (request : HttpRequest) (slug : string) : Store :=
  match n with
  | O => s
  | S n' =>
      fst (blog_detail column (clock n')
             (visits column clock n' s request slug) request slug)
  end.



(** The menu of the navigation item with address [url]. *)
Definition menu_at (nav : Nav.context) (url : string) : option Nav.dropdown :=
  option_map Nav.menu
    (find (fun i => String.eqb (Nav.url i) url) (Nav.nav_items nav)).

(** Every published post of the table carries a publication date. *)
Definition published_are_dated (table : list Blog.t) : Prop :=
  Forall (fun b => Blog.is_published b = true ->
                   Blog.published_date b <> None) table.

(** The sum of a list of integers. *)
Definition total_of (l : list Z) : Z := fold_right Z.add 0 l.

(** The integer [int()] makes of the value of a row, and the rows of a
    month. *)
Definition amount {Obj} (value_of : Obj -> option PyValue) (obj : Obj) : Z :=
  match py_int (Chart.value value_of obj) with
  | Return v => v
  | Raise _ => 0
  end.

Definition in_month {Obj Date} (date_of : Obj -> option Date)
  (strftime_Y_m : Date -> string) (label : string) (obj : Obj) : bool :=
  match date_of obj with
  | Some date => String.eqb (strftime_Y_m date) label
  | None => false
  end.

(** The objects a chart counts: those with a date. *)
Definition dated {Obj Date} (date_of : Obj -> option Date) (obj : Obj)
  : bool :=
  match date_of obj with
  | Some _ => true
  | None => false
  end.

(** The value a tally holds for a label, zero when it has none. *)
Definition tallied (d : list (string * Z)) (label : string) : Z :=
  total_of (map snd (filter (fun e => String.eqb (fst e) label) d)).

(** The date a filter form was given in a field: the text, stripped and
    parsed, of a field that is present and not empty. *)
Definition date_given (strptime : string -> option Z) (f : FilterForm.t)
  (field : string) : option Z :=
  match FilterForm.raw_value f field with
  | Some value =>
      if String.eqb value "" then None else strptime (Py.strip value)
  | None => None
  end.

(** The form reports the error of [clean], under no field. *)
Definition range_error (strptime : string -> option Z) (f : FilterForm.t)
  : Prop :=
  exists message,
    In (FilterForm.NonFieldError message) (FilterForm.errors strptime f).

(** The form was given, in a field, a text that is no date. *)
Definition date_rejected (strptime : string -> option Z) (f : FilterForm.t)
  (field : string) : bool :=
  match FilterForm.raw_value f field with
  | Some value =>
      negb (String.eqb value "")
      && match strptime (Py.strip value) with
         | Some _ => false
         | None => true
         end
  | None => false
  end.

(** The search text of the form holds a null character. *)
Definition search_rejected (f : FilterForm.t) : bool :=
  Py.contains (String Ascii.zero EmptyString)
    (ContactForm.to_python (FilterForm.raw_value f "search")).

(** The end a filter form was given comes before its start. *)
Definition out_of_order (strptime : string -> option Z) (f : FilterForm.t)
  : bool :=
  match date_given strptime f "start_date",
        date_given strptime f "end_date" with
  | Some s, Some e => e <? s
  | _, _ => false
  end.

(** The errors a filter form reports under its fields. *)
Definition field_part (strptime : string -> option Z) (f : FilterForm.t)
  : list FilterForm.FormError :=
  ((if search_rejected f
    then [FilterForm.FieldError "search" NullCharacters] else [])
   ++ (if date_rejected strptime f "start_date"
       then [FilterForm.FieldError "start_date" Invalid] else [])
   ++ (if date_rejected strptime f "end_date"
       then [FilterForm.FieldError "end_date" Invalid] else []))%list.

(** Every project of [rows] has a description that is a Quill
    document. *)
Definition quill_descriptions (rows : list Project.t) : Prop :=
  Forall (fun p => quill_html (Project.description p) <> None) rows.

(** [entries] are the JSON entries of the projects [shown], one for
    one. *)
Definition api_entries (shown : list Project.t)
  (entries : list Api.project) : Prop :=
  Forall2 (fun p entry => api_project_entry p = Return entry) shown entries.

(** The rows [rows] are rows of [table] with the flag set. *)
Definition shown_from {A} (flag : A -> bool) (table rows : list A) : Prop :=
  Forall (fun x => In x table /\ flag x = true) rows.

(** A handler returns a response. *)
Definition returns (r : Result HttpResponse) : Prop :=
  exists response, r = Return response.

(** A request for the home page: the time it came in, the store at that
    time, and the request. *)
Record visit : Type := {
  at_time : Z;
  store_then : Store;
  asked : HttpRequest
}.

(** The cache of the home page after the requests of [history], the
    latest first, the first of which found the cache empty. *)
Fixpoint cache_after (cache_key : string -> HttpRequest -> string)
  (history : list visit) : Cache.t :=
  match history with
  | [] => []
  | v :: earlier =>
      fst (cached_home cache_key (cache_after cache_key earlier)
             (at_time v) (store_then v) (asked v))
  end.

(** The store and the request a response of the home page was computed
    from: those of the request being served, or those of an earlier
    request that came in less than fifteen minutes before. *)
Definition computed_from (history : list visit) (now : Z) (s : Store)
  (request : HttpRequest) (s0 : Store) (request0 : HttpRequest) : Prop :=
  (s0 = s /\ request0 = request)
  \/ exists v,
       In v history /\ s0 = store_then v /\ request0 = asked v
       /\ now < at_time v + 60 * 15.


(* ================================================================= *)
(** * Properties *)

(** ** The model at work *)

Example int_of_text :
  Py.int " 12 " = Some 12 /\ Py.int "1_000" = Some 1000
  /\ Py.int "-5" = Some (-5) /\ Py.int "007" = Some 7
  /\ Py.int "" = None /\ Py.int "abc" = None /\ Py.int "1__0" = None
  /\ Py.int "_1" = None /\ Py.int "+ 5" = None /\ Py.int "1.0" = None
  /\ Py.int (String (ascii_of_N 28) "2") = None
  /\ Py.strip (String (ascii_of_N 28) "2") = "2"
  /\ Py.int (String (ascii_of_N 160) "2") = Some 2.
Proof. repeat split; reflexivity. Qed.

Example get_page_of_seven :
  let shown page :=
    match Paginator.get_page (Paginator.make [1; 2; 3; 4; 5; 6; 7] 3) page
    with
    | Return pg => Some (Paginator.page_object_list pg)
    | Raise _ => None
    end in
  shown (PyStr "2") = Some [4; 5; 6]
  /\ shown (PyStr "3") = Some [7]
  /\ shown (PyStr "9") = Some [7]
  /\ shown (PyStr "0") = Some [7]
  /\ shown (PyStr "x") = Some [1; 2; 3]
  /\ shown PyNone = Some [1; 2; 3].
Proof. repeat split; reflexivity. Qed.

Example page_of_seven :
  Paginator.page (Paginator.make [1; 2; 3; 4; 5; 6; 7] 3) (PyInt 9)
  = Raise EmptyPage
  /\ Paginator.page (Paginator.make [1; 2; 3; 4; 5; 6; 7] 0) (PyInt 1)
     = Raise ZeroDivisionError
  /\ Paginator.num_pages (Paginator.make (@nil Z) 3) = Return 1.
Proof. repeat split; reflexivity. Qed.

Example grouping_of_five :
  group_by fst [("b", 1); ("a", 2); ("b", 3); ("c", 4); ("a", 5)]
  = [("b", [("b", 1); ("b", 3)]); ("a", [("a", 2); ("a", 5)]);
     ("c", [("c", 4)])].
Proof. reflexivity. Qed.

Example tags_of_post :
  tags_of Sample.b_hello = ["a"; "b"]
  /\ sorted_set ["b"; "a"; "b"; "c"] = ["a"; "b"; "c"]
  /\ first_tag Sample.b_hello = "a"
  /\ first_tag Sample.b_draft = "General".
Proof. repeat split; reflexivity. Qed.

(** ** Lists: selecting, sorting and slicing *)

Section Selecting.
Context {A : Type}.
Variable P : A -> Prop.
Variable R : A -> A -> Prop.

Lemma Forall_filter_keep (f : A -> bool) (l : list A) :
  Forall P l -> Forall P (filter f l).
Proof.
  induction 1 as [|x l Hx Hl IH]; simpl; [constructor|].
  destruct (f x); auto.
Qed.

Lemma Forall_firstn_keep (n : nat) (l : list A) :
  Forall P l -> Forall P (firstn n l).
Proof.
  intros H. revert n.
  induction H as [|x l Hx Hl IH]; intros [|n]; simpl; auto.
Qed.

Lemma Forall_skipn_keep (n : nat) (l : list A) :
  Forall P l -> Forall P (skipn n l).
Proof.
  intros H. revert n.
  induction H as [|x l Hx Hl IH]; intros [|n]; simpl; auto.
Qed.

Lemma Forall_slice_keep (l : list A) (bottom top : Z) :
  Forall P l -> Forall P (Py.slice l bottom top).
Proof.
  intros H. unfold Py.slice.
  now apply Forall_firstn_keep, Forall_skipn_keep.
Qed.

Lemma StronglySorted_filter (f : A -> bool) (l : list A) :
  StronglySorted R l -> StronglySorted R (filter f l).
Proof.
  induction 1 as [|x l Hl IH Hx]; simpl; [constructor|].
  destruct (f x); auto.
  constructor; auto.
  apply Forall_forall. intros y Hy. apply filter_In in Hy.
  rewrite Forall_forall in Hx. apply Hx. exact (proj1 Hy).
Qed.

Lemma StronglySorted_firstn (n : nat) (l : list A) :
  StronglySorted R l -> StronglySorted R (firstn n l).
Proof.
  intros H. revert n.
  induction H as [|x l Hl IH Hx]; intros [|n]; simpl;
    try constructor; auto.
  apply Forall_forall. intros y Hy. rewrite Forall_forall in Hx.
  apply Hx. rewrite <- (firstn_skipn n l). apply in_or_app. now left.
Qed.

Lemma StronglySorted_skipn (n : nat) (l : list A) :
  StronglySorted R l -> StronglySorted R (skipn n l).
Proof.
  intros H. revert n.
  induction H as [|x l Hl IH Hx]; intros [|n]; simpl;
    try constructor; auto.
Qed.

Lemma StronglySorted_slice (l : list A) (bottom top : Z) :
  StronglySorted R l -> StronglySorted R (Py.slice l bottom top).
Proof.
  intros H. unfold Py.slice.
  now apply StronglySorted_firstn, StronglySorted_skipn.
Qed.
End Selecting.

Lemma slice_length {A} (l : list A) (bottom top : Z) :
  0 <= bottom <= top -> top <= Z.of_nat (List.length l) ->
  Z.of_nat (List.length (Py.slice l bottom top)) = top - bottom.
Proof.
  intros Hb Ht. unfold Py.slice.
  rewrite length_firstn, length_skipn. lia.
Qed.

Lemma filter_none {A} (f : A -> bool) (rows : list A) :
  (forall x, In x rows -> f x = false) -> filter f rows = [].
Proof.
  induction rows as [|y rows IH]; simpl; intros H; [reflexivity|].
  rewrite (H y) by tauto. apply IH. intros z Hz. apply H. tauto.
Qed.

Lemma In_firstn {A} (n : nat) (l : list A) (x : A) :
  In x (firstn n l) -> In x l.
Proof.
  intros H. rewrite <- (firstn_skipn n l). apply in_or_app. now left.
Qed.

Lemma In_skipn {A} (n : nat) (l : list A) (x : A) :
  In x (skipn n l) -> In x l.
Proof.
  intros H. rewrite <- (firstn_skipn n l). apply in_or_app. now right.
Qed.

Section Ordering.
Context {A : Type}.
Variable leb : A -> A -> bool.

Lemma insert_by_Permutation (x : A) (l : list A) :
  Permutation (x :: l) (QuerySet.insert_by leb x l).
Proof.
  induction l as [|y l IH]; simpl; [reflexivity|].
  destruct (leb x y); [reflexivity|].
  rewrite perm_swap. now apply perm_skip.
Qed.

Lemma order_by_Permutation (l : list A) :
  Permutation l (QuerySet.order_by leb l).
Proof.
  induction l as [|x l IH]; simpl; [reflexivity|].
  rewrite <- insert_by_Permutation. now apply perm_skip.
Qed.

Lemma order_by_In (x : A) (l : list A) :
  In x (QuerySet.order_by leb l) <-> In x l.
Proof.
  split; apply Permutation_in;
    [symmetry|]; apply order_by_Permutation.
Qed.

Lemma order_by_Forall (P : A -> Prop) (l : list A) :
  Forall P l -> Forall P (QuerySet.order_by leb l).
Proof.
  intros H. eapply Permutation_Forall; [apply order_by_Permutation|exact H].
Qed.

Lemma order_by_length (l : list A) :
  List.length (QuerySet.order_by leb l) = List.length l.
Proof.
  symmetry. apply Permutation_length, order_by_Permutation.
Qed.

Hypothesis leb_total : forall a b, leb a b = true \/ leb b a = true.
Hypothesis leb_trans :
  forall a b c, leb a b = true -> leb b c = true -> leb a c = true.

Let le (a b : A) : Prop := leb a b = true.

Lemma insert_by_sorted (x : A) (l : list A) :
  StronglySorted le l -> StronglySorted le (QuerySet.insert_by leb x l).
Proof using leb_total leb_trans.
  induction 1 as [|y l Hl IH Hy]; simpl.
  - repeat constructor.
  - destruct (leb x y) eqn:Hxy.
    + constructor; [now constructor|].
      constructor; [exact Hxy|].
      eapply Forall_impl; [|exact Hy].
      intros z Hz. now apply leb_trans with y.
    + constructor; [exact IH|].
      eapply Permutation_Forall; [apply insert_by_Permutation|].
      constructor; [|exact Hy].
      destruct (leb_total x y) as [H|H]; [congruence|exact H].
Qed.

Lemma order_by_sorted (l : list A) :
  StronglySorted le (QuerySet.order_by leb l).
Proof using leb_total leb_trans.
  induction l as [|x l IH]; simpl; [constructor|].
  now apply insert_by_sorted.
Qed.
End Ordering.

Lemma order_by_desc_newest_first {A} (key : A -> Z) (l : list A) :
  newest_first key (QuerySet.order_by (QuerySet.desc key) l).
Proof.
  unfold newest_first.
  eapply StronglySorted_ind with
    (P := fun l => StronglySorted (fun a b => key b <= key a) l);
    [constructor| |apply (order_by_sorted (QuerySet.desc key))].
  - intros a l' _ IH Ha. constructor; [exact IH|].
    eapply Forall_impl; [|exact Ha].
    intros b Hb. unfold QuerySet.desc in Hb. lia.
  - intros a b. unfold QuerySet.desc. lia.
  - intros a b c. unfold QuerySet.desc. lia.
Qed.

(** ** The paginator *)

Section PaginatorFacts.
Context {A : Type}.
Variable rows : list A.
Variable per_page : Z.
Hypothesis per_page_pos : 0 < per_page.
Hypothesis per_page_float : per_page < 2 ^ 1075.

Let p : Paginator.t A := Paginator.make rows per_page.
Let total : Z := Z.of_nat (List.length rows).

Lemma num_pages_last_page :
  Paginator.num_pages p = Return (last_page per_page total).
Proof using per_page_pos per_page_float.
  unfold Paginator.num_pages, Paginator.count, last_page, Py.ceil_div, p.
  cbn [Paginator.per_page Paginator.object_list]. fold total.
  assert (Ht : 0 <= total) by (unfold total; lia).
  destruct (Z.eqb_spec per_page 0) as [E|_]; [lia|].
  set (h := Z.max 1 (total - 0)).
  assert (Hh : 1 <= h) by (unfold h; lia).
  assert (Hf : (0 <? per_page) && (h * 2 ^ 1075 <=? per_page) = false).
  { apply andb_false_iff. right. apply Z.leb_gt.
    apply Z.lt_le_trans with (1 * 2 ^ 1075); [lia|].
    apply Z.mul_le_mono_nonneg_r; lia. }
  rewrite Hf. f_equal.
  pose proof (Z.div_mod (h + per_page - 1) per_page ltac:(lia)) as D.
  pose proof (Z.mod_pos_bound (h + per_page - 1) per_page
                per_page_pos) as B.
  set (q := (h + per_page - 1) / per_page) in *.
  set (r := (h + per_page - 1) mod per_page) in *.
  assert (Hq : - h / per_page = - q).
  { symmetry. apply Z.div_unique with (r := per_page - 1 - r); lia. }
  rewrite Hq.
  destruct (Z.eq_dec total 0) as [E|E].
  - rewrite E.
    replace ((0 + per_page - 1) / per_page) with 0
      by (symmetry; apply Z.div_small; lia).
    assert (h = 1) by (unfold h; lia).
    assert (q = 1); [|lia].
    unfold q. replace (h + per_page - 1) with (1 * per_page) by lia.
    apply Z.div_mul. lia.
  - assert (h = total) by (unfold h; lia).
    assert (1 <= q) by (apply Z.div_le_lower_bound; lia).
    unfold q in *. replace (total + per_page - 1)
      with (h + per_page - 1) by lia. lia.
Qed.

Lemma last_page_bounds :
  1 <= last_page per_page total
  /\ (last_page per_page total - 1) * per_page <= total
  /\ (0 < total -> (last_page per_page total - 1) * per_page < total)
  /\ total <= last_page per_page total * per_page.
Proof using per_page_pos.
  unfold last_page.
  assert (Ht : 0 <= total) by (unfold total; lia).
  pose proof (Z.div_mod (total + per_page - 1) per_page ltac:(lia)) as D.
  pose proof (Z.mod_pos_bound (total + per_page - 1) per_page
                per_page_pos) as B.
  set (q := (total + per_page - 1) / per_page) in *.
  set (r := (total + per_page - 1) mod per_page) in *.
  assert (0 <= q) by (apply Z.div_pos; lia).
  destruct (Z.max_spec 1 q) as [[Hq ->]|[Hq ->]]; nia.
Qed.

Lemma page_in_range (n : Z) :
  1 <= n <= last_page per_page total ->
  Paginator.page p (PyInt n)
  = Return {| Paginator.page_object_list := page_rows per_page rows n;
              Paginator.number := n;
              Paginator.paginator := p |}.
Proof using per_page_pos per_page_float.
  intros Hn. unfold Paginator.page, Paginator.validate_number.
  cbn [py_int bind].
  destruct (Z.ltb_spec n 1) as [?|_]; [lia|].
  rewrite num_pages_last_page. cbn [bind].
  destruct (Z.ltb_spec (last_page per_page total) n) as [?|_]; [lia|].
  cbn [bind]. unfold page_rows, Paginator.count, p.
  cbn [Paginator.per_page Paginator.object_list]. fold total.
  replace (if total <=? (n - 1) * per_page + per_page + 0
           then total else (n - 1) * per_page + per_page)
    with (Z.min (n * per_page) total); [reflexivity|].
  destruct (Z.leb_spec total ((n - 1) * per_page + per_page + 0)); lia.
Qed.

Lemma page_beyond (n : Z) :
  last_page per_page total < n ->
  Paginator.page p (PyInt n) = Raise EmptyPage.
Proof using per_page_pos per_page_float.
  intros Hn. unfold Paginator.page, Paginator.validate_number.
  cbn [py_int bind].
  pose proof last_page_bounds as [H1 _].
  destruct (Z.ltb_spec n 1) as [?|_]; [lia|].
  rewrite num_pages_last_page. cbn [bind].
  destruct (Z.ltb_spec (last_page per_page total) n) as [_|?]; [|lia].
  reflexivity.
Qed.

Lemma get_page_resolved (number : PyValue) :
  Paginator.get_page p number
  = Return {| Paginator.page_object_list :=
                page_rows per_page rows
                  (resolved_page per_page total number);
              Paginator.number := resolved_page per_page total number;
              Paginator.paginator := p |}.
Proof using per_page_pos per_page_float.
  pose proof last_page_bounds as [H1 _].
  unfold Paginator.get_page, Paginator.validate_number, resolved_page.
  destruct (py_int number) as [n|e].
  - destruct (Z.ltb_spec n 1) as [Hn|Hn].
    + rewrite num_pages_last_page. cbn [bind]. apply page_in_range. lia.
    + rewrite num_pages_last_page. cbn [bind].
      destruct (Z.ltb_spec (last_page per_page total) n) as [Hl|Hl].
      * cbn [bind]. rewrite Z.min_r by lia. apply page_in_range. lia.
      * rewrite Z.min_l by lia. apply page_in_range. lia.
  - apply page_in_range. lia.
Qed.

Lemma page_rows_length (n : Z) :
  1 <= n <= last_page per_page total ->
  Z.of_nat (List.length (page_rows per_page rows n))
  = Z.min per_page (total - (n - 1) * per_page).
Proof using per_page_pos.
  intros Hn. pose proof last_page_bounds as (H1 & H2 & _ & H4).
  unfold page_rows. fold total.
  assert ((n - 1) * per_page <= total) by nia.
  assert (0 <= (n - 1) * per_page) by nia.
  replace (n * per_page) with ((n - 1) * per_page + per_page) by ring.
  rewrite slice_length; fold total; lia.
Qed.
End PaginatorFacts.

(** ** Grouping by category *)

Lemma first_seen_In (k : string) (keys : list string) :
  In k (first_seen keys) <-> In k keys.
Proof.
  induction keys as [|a keys IH]; simpl; [tauto|].
  rewrite filter_In, IH, negb_true_iff, String.eqb_neq.
  destruct (string_dec a k); intuition congruence.
Qed.

Lemma first_seen_NoDup (keys : list string) : NoDup (first_seen keys).
Proof.
  induction keys as [|a keys IH]; simpl; constructor.
  - rewrite filter_In, negb_true_iff, String.eqb_neq. tauto.
  - now apply NoDup_filter.
Qed.

Lemma first_seen_snoc (keys : list string) (k : string) :
  first_seen (keys ++ [k])
  = if existsb (String.eqb k) keys then first_seen keys
    else (first_seen keys ++ [k])%list.
Proof.
  induction keys as [|a keys IH]; simpl; [reflexivity|].
  rewrite IH. destruct (String.eqb_spec k a) as [->|Hka]; simpl.
  - destruct (existsb (String.eqb a) keys); [reflexivity|].
    rewrite filter_app. simpl. rewrite String.eqb_refl. simpl.
    now rewrite app_nil_r.
  - destruct (existsb (String.eqb k) keys); [reflexivity|].
    rewrite filter_app. simpl.
    destruct (String.eqb_spec k a); [contradiction|reflexivity].
Qed.

Section GroupingFacts.
Context {A : Type}.

Lemma dict_contains_In (d : Buckets A) (key : string) :
  dict_contains d key = true <-> In key (map fst d).
Proof.
  unfold dict_contains. rewrite existsb_exists, in_map_iff.
  split; intros [kv [H1 H2]]; exists kv.
  - apply String.eqb_eq in H2. tauto.
  - split; [tauto|]. apply String.eqb_eq. tauto.
Qed.

Lemma dict_set_empty_new (d : Buckets A) (key : string) :
  ~ In key (map fst d) ->
  dict_set_empty d key = (d ++ [(key, [])])%list.
Proof.
  induction d as [|[k l] d IH]; simpl; intros H; [reflexivity|].
  destruct (String.eqb_spec k key) as [->|_]; [tauto|].
  rewrite IH; tauto.
Qed.

Lemma dict_append_last (d : Buckets A) (key : string) (l : list A)
  (x : A) :
  ~ In key (map fst d) ->
  dict_append (d ++ [(key, l)])%list key x
  = (d ++ [(key, l ++ [x])])%list.
Proof.
  induction d as [|[k l'] d IH]; simpl; intros H.
  - now rewrite String.eqb_refl.
  - destruct (String.eqb_spec k key) as [->|_]; [tauto|].
    rewrite IH; tauto.
Qed.

Lemma dict_append_map (g : string -> list A) (keys : list string)
  (key : string) (x : A) :
  NoDup keys ->
  dict_append (map (fun k => (k, g k)) keys) key x
  = map (fun k => (k, if String.eqb k key then g k ++ [x] else g k)%list)
        keys.
Proof.
  induction 1 as [|k keys Hk Hnd IH]; simpl; [reflexivity|].
  destruct (String.eqb_spec k key) as [->|Hne].
  - f_equal. apply map_ext_in. intros k' Hk'.
    destruct (String.eqb_spec k' key) as [->|_]; [contradiction|].
    reflexivity.
  - now rewrite IH.
Qed.

Variable category : A -> string.

Lemma group_by_snoc (rows : list A) (x : A) :
  group_by category (rows ++ [x])
  = group_step category (group_by category rows) x.
Proof. unfold group_by. now rewrite fold_left_app. Qed.

Lemma grouped_keys (rows : list A) :
  map fst (grouped category rows) = first_seen (map category rows).
Proof.
  unfold grouped. rewrite map_map. simpl. apply map_id.
Qed.

Lemma group_step_grouped (rows : list A) (x : A) :
  group_step category (grouped category rows) x
  = grouped category (rows ++ [x]).
Proof.
  unfold group_step.
  destruct (dict_contains (grouped category rows) (category x)) eqn:Hc;
    simpl.
  - apply dict_contains_In in Hc. rewrite grouped_keys in Hc.
    unfold grouped at 1. rewrite dict_append_map by apply first_seen_NoDup.
    unfold grouped. rewrite map_app. simpl. rewrite first_seen_snoc.
    replace (existsb (String.eqb (category x)) (map category rows))
      with true.
    2:{ symmetry. apply existsb_exists. exists (category x).
        split; [now apply first_seen_In|apply String.eqb_refl]. }
    apply map_ext. intros k. rewrite filter_app. simpl.
    rewrite (String.eqb_sym k).
    destruct (String.eqb (category x) k); [reflexivity|].
    now rewrite app_nil_r.
  - assert (Hn : ~ In (category x) (map category rows)).
    { intros H. apply (proj2 (first_seen_In _ _)) in H.
      rewrite <- grouped_keys in H.
      apply dict_contains_In in H. congruence. }
    assert (Hk : ~ In (category x) (map fst (grouped category rows))).
    { rewrite grouped_keys, first_seen_In. exact Hn. }
    rewrite dict_set_empty_new, dict_append_last by exact Hk.
    unfold grouped. rewrite map_app. simpl. rewrite first_seen_snoc.
    replace (existsb (String.eqb (category x)) (map category rows))
      with false.
    2:{ symmetry. apply not_true_is_false. intros H.
        apply existsb_exists in H. destruct H as [k [H1 H2]].
        apply String.eqb_eq in H2. apply Hn. now rewrite H2. }
    rewrite map_app. simpl. f_equal.
    + apply map_ext_in. intros k Hk'. rewrite filter_app. simpl.
      destruct (String.eqb_spec (category x) k) as [E|_].
      * apply (proj1 (first_seen_In _ _)) in Hk'. exfalso. apply Hn.
        now rewrite E.
      * now rewrite app_nil_r.
    + rewrite filter_app. simpl. rewrite String.eqb_refl.
      rewrite filter_none; [reflexivity|].
      intros y Hy. apply String.eqb_neq. intros E. apply Hn.
      rewrite <- E. now apply in_map.
Qed.

Lemma group_by_grouped (rows : list A) :
  group_by category rows = grouped category rows.
Proof.
  induction rows as [|x rows IH] using rev_ind; [reflexivity|].
  now rewrite group_by_snoc, IH, group_step_grouped.
Qed.
End GroupingFacts.

(** ** Public listings *)

Lemma small_per_page (n : Z) : n <= 100 -> n < 2 ^ 1075.
Proof.
  intros H. apply Z.le_lt_trans with 100; [exact H|reflexivity].
Qed.

Lemma filter_all_set {A} (flag f : A -> bool) (l : list A) :
  (forall x, f x = true -> flag x = true) -> all_set flag (filter f l).
Proof.
  intros H. apply Forall_forall. intros x Hx.
  apply filter_In in Hx. apply H. tauto.
Qed.

(** Selecting, ordering, limiting and slicing keep a flag that the
    innermost filter has established. *)
Ltac keep_flag :=
  unfold all_set, page_rows, QuerySet.limit, QuerySet.exclude;
  repeat first
    [ apply Forall_slice_keep
    | apply Forall_firstn_keep
    | apply order_by_Forall
    | solve [ apply filter_all_set; intros ? H;
              try (apply andb_prop in H); tauto ]
    | apply Forall_filter_keep ].

Ltac run_get_page :=
  rewrite get_page_resolved by (try apply small_per_page; lia);
  cbn [bind].

(** Reading a field off the context a view has built. *)
Ltac fields :=
  cbn [Paginator.page_object_list Paginator.number Paginator.paginator
       ProjectList.page_obj BlogList.page_obj GalleryPage.page_obj
       FaqList.faqs_by_category ProjectDetail.project
       ProjectDetail.related_projects BlogDetail.blog
       BlogDetail.related_blogs
       Home.services Home.featured_projects Home.testimonials
       Home.skills Home.skills_by_category Home.blog_posts Home.faq
       Home.gallery_items Home.certificates Home.about].

(** The rows a view shows are rows of the table, taken through the
    filters, the ordering, the limit and the page. *)
Ltac trace_back H :=
  unfold page_rows, Py.slice, QuerySet.limit, QuerySet.exclude in H;
  repeat first
    [ apply In_firstn in H
    | apply In_skipn in H
    | apply (proj1 (order_by_In _ _ _)) in H
    | apply filter_In in H;
      let F := fresh "F" in destruct H as [H F] ].

Ltac from_table :=
  unfold shown_from; apply Forall_forall;
  let x := fresh "x" in
  let H := fresh "H" in
  intros x H; trace_back H; split; [exact H|];
  repeat match goal with
         | F : _ && _ = true |- _ =>
             let F1 := fresh "F" in
             let F2 := fresh "F" in
             apply andb_prop in F; destruct F as [F1 F2]
         end;
  assumption.



(** ** The cache of the home page *)

Lemma cache_get_entry (cache : Cache.t) (k : string) (now : Z)
  (response : HttpResponse) :
  Cache.get cache k now = Some response ->
  exists e, In e cache /\ Cache.value e = response /\ now < Cache.expires e.
Proof.
  induction cache as [|e cache IH]; cbn [Cache.get]; [discriminate|].
  destruct (String.eqb (Cache.key e) k).
  - destruct (Z.ltb_spec now (Cache.expires e)); [|discriminate].
    intros E. inversion E; subst. exists e. repeat split; auto. now left.
  - intros E. destruct (IH E) as (e' & He & H). exists e'.
    split; [now right|exact H].
Qed.

Section CacheFacts.
Variable cache_key : string -> HttpRequest -> string.

(** What the cache holds was computed by [home] on an earlier request,
    and expires fifteen minutes after it. *)
Lemma cache_after_entries (history : list visit) (e : Cache.entry) :
  In e (cache_after cache_key history) ->
  exists v,
    In v history
    /\ home (store_then v) (asked v) = Return (Cache.value e)
    /\ Cache.expires e = at_time v + 60 * 15.
Proof.
  revert e. induction history as [|v earlier IH]; intros e He;
    [contradiction|].
  assert (Old : In e (cache_after cache_key earlier) ->
                exists v0,
                  In v0 (v :: earlier)
                  /\ home (store_then v0) (asked v0) = Return (Cache.value e)
                  /\ Cache.expires e = at_time v0 + 60 * 15).
  { intros H. destruct (IH e H) as (v0 & Hv0 & H0). exists v0.
    split; [now right|exact H0]. }
  cbn [cache_after] in He. unfold cached_home, cache_page in He.
  destruct (negb _); [now apply Old|].
  destruct (match Cache.get _ _ _ with Some _ => _ | None => _ end);
    [now apply Old|].
  destruct (home (store_then v) (asked v)) as [response|] eqn:Eh;
    [|now apply Old].
  destruct (negb (60 * 15 =? 0) && (status_code response =? 200));
    [|now apply Old].
  cbn [fst] in He. unfold Cache.set in He. destruct He as [<-|He].
  - exists v. cbn [Cache.value Cache.expires]. repeat split; auto.
    now left.
  - apply filter_In in He. apply Old. exact (proj1 He).
Qed.

(** The cached home page answers with what [home] computes from the
    request it is serving, or with what it computed from a request less
    than fifteen minutes old. *)
Lemma cached_home_replays (history : list visit) (now : Z) (s : Store)
  (request : HttpRequest) :
  exists s0 request0,
    snd (cached_home cache_key (cache_after cache_key history) now s request)
    = home s0 request0
    /\ computed_from history now s request s0 request0.
Proof.
  assert (Fresh : exists s0 request0,
             home s request = home s0 request0
             /\ computed_from history now s request s0 request0).
  { exists s, request. split; [reflexivity|]. now left. }
  assert (Hit : forall k response,
             Cache.get (cache_after cache_key history) k now
             = Some response ->
             exists s0 request0,
               Return response = home s0 request0
               /\ computed_from history now s request s0 request0).
  { intros k response E. apply cache_get_entry in E.
    destruct E as (e & He & <- & Ht).
    destruct (cache_after_entries history e He) as (v & Hv & Eh & Ee).
    exists (store_then v), (asked v). split; [now rewrite Eh|].
    right. exists v. repeat split; auto. lia. }
  unfold cached_home, cache_page.
  destruct (negb _); [exact Fresh|].
  destruct (Cache.get _ (cache_key "GET" request) now) as [response|] eqn:Eg.
  - cbn [snd]. now apply (Hit _ _ Eg).
  - destruct (String.eqb (method request) "HEAD").
    + destruct (Cache.get _ (cache_key "HEAD" request) now)
        as [response|] eqn:Eh.
      * cbn [snd]. now apply (Hit _ _ Eh).
      * destruct (home s request) as [response|] eqn:E; [|exact Fresh].
        destruct (negb _ && _); exact Fresh.
    + destruct (home s request) as [response|] eqn:E; [|exact Fresh].
      destruct (negb _ && _); exact Fresh.
Qed.
End CacheFacts.



(** C8. Grouping keeps the order of the sorted list.  The FAQ page and
    the home page group the active rows, sorted by category and then by
    the order field, into buckets keyed by category: the buckets come in
    the order their categories are first met in that list, and each
    bucket holds the rows of its category in the order of that list. *)
Theorem grouping_keeps_order (s : Store) (request : HttpRequest) :
  let faqs :=
    QuerySet.order_by (QuerySet.asc2 FAQ.category FAQ.order)
      (filter FAQ.is_active (faq_table s)) in
  let skills :=
    QuerySet.order_by (QuerySet.asc2 Skill.category Skill.order)
      (filter Skill.is_active (skill_table s)) in
  (exists c,
      faq_list s request
      = Return (render "portfolio/faq.html" (FaqListContext c))
      /\ map fst (FaqList.faqs_by_category c)
         = first_seen (map FAQ.category faqs)
      /\ FaqList.faqs_by_category c
         = map (fun k =>
                  (k, filter (fun f => String.eqb (FAQ.category f) k) faqs))
               (map fst (FaqList.faqs_by_category c)))
  /\ (exists c,
      home s request
      = Return (render "portfolio/home.html" (HomeContext c))
      /\ Home.skills c = skills
      /\ map fst (Home.skills_by_category c)
         = first_seen (map Skill.category skills)
      /\ Home.skills_by_category c
         = map (fun k =>
                  (k, filter (fun x => String.eqb (Skill.category x) k)
                        skills))
               (map fst (Home.skills_by_category c))).
Proof.
  intros faqs skills. split.
  - unfold faq_list. eexists. split; [reflexivity|]. fields.
    fold faqs. rewrite group_by_grouped, grouped_keys. now split.
  - unfold home. eexists. split; [reflexivity|]. fields.
    fold skills. rewrite group_by_grouped, grouped_keys. now repeat split.
Qed.

(** ** Detail pages *)

Lemma unique_key_eq {A K} (key : A -> K) (table : list A) (x y : A) :
  unique key table -> In x table -> In y table -> key x = key y -> x = y.
Proof.
  unfold unique. induction table as [|z table IH]; simpl;
    intros Hu Hx Hy E; [contradiction|].
  inversion Hu as [|? ? Hz Hu']; subst.
  destruct Hx as [->|Hx]; destruct Hy as [->|Hy]; auto.
  - exfalso. apply Hz. rewrite E. now apply in_map.
  - exfalso. apply Hz. rewrite <- E. now apply in_map.
Qed.

Lemma filter_unique {A K} (key : A -> K) (f : A -> bool)
  (table : list A) (x : A) :
  unique key table -> In x table -> f x = true ->
  (forall y, In y table -> f y = true -> key y = key x) ->
  filter f table = [x].
Proof.
  unfold unique. induction table as [|y table IH]; simpl;
    intros Hu Hin Hfx Hkey; [contradiction|].
  inversion Hu as [|? ? Hy Hu']; subst.
  destruct Hin as [->|Hin].
  - rewrite Hfx. f_equal. apply filter_none. intros z Hz.
    destruct (f z) eqn:Hfz; [|reflexivity].
    exfalso. apply Hy. rewrite <- (Hkey z); [now apply in_map|tauto|exact Hfz].
  - destruct (f y) eqn:Hfy.
    + exfalso. apply Hy. rewrite (Hkey y); [now apply in_map|tauto|exact Hfy].
    + apply IH; auto.
Qed.

Lemma get_object_or_404_found {A K} (key : A -> K) (f : A -> bool)
  (table : list A) (x : A) :
  unique key table -> In x table -> f x = true ->
  (forall y, In y table -> f y = true -> key y = key x) ->
  QuerySet.get_object_or_404 table f = Return x.
Proof.
  intros Hu Hin Hfx Hkey. unfold QuerySet.get_object_or_404.
  now rewrite (filter_unique key f table x).
Qed.

Lemma get_object_or_404_none {A} (f : A -> bool) (table : list A) :
  (forall y, In y table -> f y = false) ->
  QuerySet.get_object_or_404 table f = Raise Http404.
Proof.
  intros H. unfold QuerySet.get_object_or_404.
  now rewrite filter_none.
Qed.

(** C2. For an active project [p] the detail page lists as related only
    active projects of [p]'s type, never [p] itself, at most three of
    them, the most recently created first. *)
Theorem related_projects_same_type_newest_first
  (s : Store) (request : HttpRequest) (p : Project.t) :
  unique Project.id (project_table s) ->
  In p (project_table s) ->
  Project.is_active p = true ->
  exists related,
    project_detail s request (Project.id p)
    = Return (render "portfolio/project_detail.html"
                (ProjectDetailContext
                   {| ProjectDetail.project := p;
                      ProjectDetail.related_projects := related |}))
    /\ Forall (fun q => In q (project_table s)
                        /\ Project.is_active q = true
                        /\ Project.project_type q = Project.project_type p
                        /\ Project.id q <> Project.id p) related
    /\ (List.length related <= 3)%nat
    /\ newest_first Project.created_at related.
Proof.
  intros Hu Hin Hact. unfold project_detail.
  rewrite (get_object_or_404_found Project.id _ _ p Hu Hin).
  2:{ now rewrite N.eqb_refl, Hact. }
  2:{ intros y _ Hy. apply andb_prop in Hy. now apply N.eqb_eq. }
  cbn [bind]. eexists. split; [reflexivity|]. repeat split.
  - apply Forall_forall. intros q Hq. unfold QuerySet.limit in Hq.
    apply In_firstn in Hq. apply order_by_In in Hq.
    unfold QuerySet.exclude in Hq.
    apply filter_In in Hq. destruct Hq as [Hq Hne].
    apply filter_In in Hq. destruct Hq as [Hq Hf].
    apply andb_prop in Hf. destruct Hf as [Ha Ht].
    apply String.eqb_eq in Ht. apply negb_true_iff, N.eqb_neq in Hne.
    auto.
  - unfold QuerySet.limit. rewrite length_firstn. lia.
  - unfold QuerySet.limit. apply StronglySorted_firstn.
    apply order_by_desc_newest_first.
Qed.

Ltac distinct :=
  unfold unique; cbn;
  repeat (constructor; [cbn; intuition discriminate|]); constructor.

Lemma related_projects_witness :
  exists related,
    project_detail Sample.portfolio (Sample.get []) (Project.id Sample.p_old)
    = Return (render "portfolio/project_detail.html"
                (ProjectDetailContext
                   {| ProjectDetail.project := Sample.p_old;
                      ProjectDetail.related_projects := related |}))
    /\ Forall (fun q => In q (project_table Sample.portfolio)
                        /\ Project.is_active q = true
                        /\ Project.project_type q
                           = Project.project_type Sample.p_old
                        /\ Project.id q <> Project.id Sample.p_old) related
    /\ (List.length related <= 3)%nat
    /\ newest_first Project.created_at related.
Proof.
  apply (related_projects_same_type_newest_first
           Sample.portfolio (Sample.get []) Sample.p_old).
  - distinct.
  - cbn. tauto.
  - reflexivity.
Defined.

(** ** Order of the project listing *)

(** C6, as the code has it.  The project listing shows its rows newest
    first, by creation time alone: the view orders the query itself, so
    the model's default order (featured first, then newest) does not
    apply, and a featured project gets no precedence. *)
Theorem project_list_newest_first (s : Store) (request : HttpRequest) :
  exists c,
    project_list s request
    = Return (render "portfolio/projects.html" (ProjectListContext c))
    /\ newest_first Project.created_at
         (Paginator.page_object_list (ProjectList.page_obj c)).
Proof.
  unfold project_list. run_get_page.
  eexists. split; [reflexivity|]. fields.
  unfold page_rows, newest_first, project_list_queryset.
  apply StronglySorted_slice.
  destruct (Py.truthy_opt (dict_get (GET request) "type"));
    destruct (Py.truthy_opt (dict_get (GET request) "search"));
    repeat apply StronglySorted_filter;
    apply order_by_desc_newest_first.
Qed.

(** C6 fails as stated: with an older featured project and a newer
    plain one, the listing puts the plain one first, which the
    featured-first order of [Project.Meta] forbids. *)
Lemma project_list_not_featured_first :
  project_list_rows (project_list Sample.portfolio (Sample.get []))
  = [Sample.p_new; Sample.p_old; Sample.p_app]
  /\ Project.ordering Sample.p_new Sample.p_old = false
  /\ ~ StronglySorted (fun a b => Project.ordering a b = true)
       (project_list_rows (project_list Sample.portfolio (Sample.get []))).
Proof.
  assert (E : project_list_rows
                (project_list Sample.portfolio (Sample.get []))
              = [Sample.p_new; Sample.p_old; Sample.p_app])
    by (vm_compute; reflexivity).
  rewrite E. repeat split.
  intros H. inversion H as [|? ? _ Hall]; subst.
  inversion Hall as [|? ? Hhd _]; subst. discriminate Hhd.
Qed.

(** ** Pages of a listing *)

Lemma last_page_not_empty {A} (per_page : Z) (rows : list A) :
  0 < per_page -> rows <> [] ->
  page_rows per_page rows
    (last_page per_page (Z.of_nat (List.length rows))) <> [].
Proof.
  intros Hp Hr E. apply (f_equal (@List.length A)) in E.
  apply (f_equal Z.of_nat) in E.
  pose proof (last_page_bounds rows per_page Hp) as (H1 & _ & H3 & _).
  rewrite page_rows_length in E by lia.
  destruct rows; [contradiction|]. simpl List.length in *. lia.
Qed.

Lemma get_page_clamps {A} (rows : list A) (per_page : Z) (page : string)
  (n : Z) :
  0 < per_page -> per_page < 2 ^ 1075 ->
  Py.int page = Some n -> 1 <= n ->
  exists pg,
    Paginator.get_page (Paginator.make rows per_page)
      (of_param (Some page)) = Return pg
    /\ clamps_to_last per_page rows (Paginator.page_object_list pg) n.
Proof.
  intros Hp Hf Hpage Hn. rewrite get_page_resolved by assumption.
  eexists. split; [reflexivity|]. fields.
  unfold resolved_page, of_param, py_int. rewrite Hpage.
  destruct (Z.ltb_spec n 1) as [?|_]; [lia|].
  split; intros Hl.
  - rewrite Z.min_l by lia. split; [reflexivity|].
    apply page_rows_length; [assumption|lia].
  - rewrite Z.min_r by lia. split; [reflexivity|].
    now apply last_page_not_empty.
Qed.

Lemma In_page_rows {A} (per_page : Z) (rows : list A) (n : Z) (x : A) :
  In x (page_rows per_page rows n) -> In x rows.
Proof.
  unfold page_rows, Py.slice. intros H. apply In_firstn in H.
  rewrite <- (firstn_skipn (Z.to_nat ((n - 1) * per_page)) rows).
  apply in_or_app. now right.
Qed.

Lemma api_projects_queryset_In (s : Store) (p : Project.t) :
  In p (api_projects_queryset s) -> In p (project_table s).
Proof.
  unfold api_projects_queryset. rewrite order_by_In, filter_In. tauto.
Qed.

Lemma quill_descriptions_sub (rows rows' : list Project.t) :
  (forall p, In p rows -> In p rows') ->
  quill_descriptions rows' -> quill_descriptions rows.
Proof.
  unfold quill_descriptions. rewrite !Forall_forall. auto.
Qed.

Lemma for_each_entries (rows : list Project.t) :
  quill_descriptions rows ->
  exists entries,
    for_each api_project_entry rows = Return entries
    /\ api_entries rows entries.
Proof.
  unfold quill_descriptions, api_entries.
  induction rows as [|p rows IH]; intros H.
  - exists []. split; [reflexivity|constructor].
  - inversion H as [|? ? Hp Hrows]; subst.
    destruct (IH Hrows) as [entries [E F]].
    assert (Ep : exists entry, api_project_entry p = Return entry).
    { unfold api_project_entry, Quill_html.
      destruct (quill_html (Project.description p)); [|now elim Hp].
      eexists. reflexivity. }
    destruct Ep as [entry Ep]. exists (entry :: entries).
    cbn [for_each]. rewrite Ep, E. split; [reflexivity|].
    now constructor.
Qed.

Lemma api_page_falls_back (s : Store) (request : HttpRequest)
  (page : string) (n per_page : Z) :
  dict_get (GET request) "page" = Some page ->
  Py.int page = Some n -> 1 <= n ->
  py_int (param_or request "per_page" 9) = Return per_page ->
  0 < per_page -> per_page < 2 ^ 1075 ->
  exists pg,
    api_projects_page s request = Return pg
    /\ Paginator.paginator pg
       = Paginator.make (api_projects_queryset s) per_page
    /\ 1 <= Paginator.number pg
       <= last_page per_page
            (Z.of_nat (List.length (api_projects_queryset s)))
    /\ (forall p, In p (Paginator.page_object_list pg) ->
                  In p (api_projects_queryset s))
    /\ falls_back_to_first per_page (api_projects_queryset s)
         (Paginator.page_object_list pg) n.
Proof.
  intros Hget Hpage Hn Hper Hp Hf. unfold api_projects_page.
  unfold param_or at 1. rewrite Hget. unfold py_int at 1. rewrite Hpage.
  cbn [bind]. rewrite Hper. cbn [bind].
  pose proof (last_page_bounds (api_projects_queryset s) per_page Hp)
    as (H1 & _).
  set (last := last_page per_page _) in *.
  destruct (Z_le_gt_dec n last) as [Hl|Hl].
  - rewrite page_in_range by (try assumption; fold last; lia).
    cbn [try_except]. eexists. split; [reflexivity|]. fields.
    repeat split; try (fold last; lia); try (intros; lia);
      try apply In_page_rows.
    apply page_rows_length; [assumption|fold last; lia].
  - rewrite page_beyond by (try assumption; fold last; lia).
    cbn [try_except].
    rewrite page_in_range by (try assumption; fold last; lia).
    eexists. split; [reflexivity|]. fields.
    repeat split; try (fold last; lia); try apply In_page_rows;
      intros; lia.
Qed.

(** C4, as the code has it.  A request for page [n >= 1] of a paginated
    listing gets page [n], of [min(P, total - (n-1)*P)] rows, when the
    listing has that page.  Beyond the last page the HTML listings
    (services 6 to a page, projects 9, blog 6, gallery 12, testimonials
    8) show the last page; the JSON project listing, [per_page] rows to
    a page, shows page 1 instead. *)
Theorem listing_pages (s : Store) (request : HttpRequest) (page : string)
  (n : Z) :
  dict_get (GET request) "page" = Some page ->
  Py.int page = Some n ->
  1 <= n ->
  (exists pg,
      services s request
      = Return (render "portfolio/services.html" (ServicesContext pg))
      /\ clamps_to_last 6 (services_queryset s)
           (Paginator.page_object_list pg) n)
  /\ (exists c,
      project_list s request
      = Return (render "portfolio/projects.html" (ProjectListContext c))
      /\ clamps_to_last 9 (project_list_queryset s request)
           (Paginator.page_object_list (ProjectList.page_obj c)) n)
  /\ (exists c,
      blog_list s request
      = Return (render "portfolio/blog.html" (BlogListContext c))
      /\ clamps_to_last 6 (blog_list_queryset s request)
           (Paginator.page_object_list (BlogList.page_obj c)) n)
  /\ (exists c,
      gallery s request
      = Return (render "portfolio/gallery.html" (GalleryContext c))
      /\ clamps_to_last 12 (gallery_queryset s request)
           (Paginator.page_object_list (GalleryPage.page_obj c)) n)
  /\ (exists pg,
      testimonials s request
      = Return (render "portfolio/testimonials.html"
                  (TestimonialsContext pg))
      /\ clamps_to_last 8 (testimonials_queryset s)
           (Paginator.page_object_list pg) n)
  /\ (forall per_page,
      method request = "GET" ->
      py_int (param_or request "per_page" 9) = Return per_page ->
      0 < per_page < 2 ^ 1075 ->
      quill_descriptions (project_table s) ->
      exists shown entries pagination,
        api_projects s request
        = Return (JsonResponse (ProjectsData entries pagination))
        /\ api_entries shown entries
        /\ falls_back_to_first per_page (api_projects_queryset s) shown n).
Proof.
  intros Hget Hpage Hn.
  assert (G : forall A (rows : list A) per_page,
             0 < per_page <= 100 ->
             exists pg,
               Paginator.get_page (Paginator.make rows per_page)
                 (of_param (dict_get (GET request) "page")) = Return pg
               /\ clamps_to_last per_page rows
                    (Paginator.page_object_list pg) n).
  { intros A rows per_page Hp. rewrite Hget.
    apply get_page_clamps; try assumption; try lia.
    all: apply small_per_page; lia. }
  repeat apply conj.
  - unfold services.
    destruct (G _ (services_queryset s) 6 ltac:(lia)) as [pg [E H]].
    rewrite E. cbn [bind]. eexists. split; [reflexivity|exact H].
  - unfold project_list.
    destruct (G _ (project_list_queryset s request) 9 ltac:(lia))
      as [pg [E H]].
    rewrite E. cbn [bind]. eexists. split; [reflexivity|exact H].
  - unfold blog_list.
    destruct (G _ (blog_list_queryset s request) 6 ltac:(lia))
      as [pg [E H]].
    rewrite E. cbn [bind]. eexists. split; [reflexivity|exact H].
  - unfold gallery.
    destruct (G _ (gallery_queryset s request) 12 ltac:(lia))
      as [pg [E H]].
    rewrite E. cbn [bind]. eexists. split; [reflexivity|exact H].
  - unfold testimonials.
    destruct (G _ (testimonials_queryset s) 8 ltac:(lia)) as [pg [E H]].
    rewrite E. cbn [bind]. eexists. split; [reflexivity|exact H].
  - intros per_page Hm Hper [Hp Hf] Hq.
    destruct (api_page_falls_back s request page n per_page
                Hget Hpage Hn Hper Hp Hf)
      as [pg (E & Epg & Hnum & Hrows & H)].
    destruct (for_each_entries (Paginator.page_object_list pg))
      as [entries [Ee He]].
    { eapply quill_descriptions_sub; [|exact Hq].
      intros p Hp'. apply Hrows in Hp'. now apply api_projects_queryset_In. }
    unfold api_projects. rewrite Hm. cbn [String.eqb negb].
    change (("GET" =? "GET")%string) with true. cbn [negb].
    rewrite E. cbn [bind]. rewrite Ee. cbn [bind]. rewrite Epg.
    unfold Paginator.has_next. rewrite Epg.
    rewrite num_pages_last_page by assumption. cbn [bind].
    do 3 eexists. split; [reflexivity|]. split; [exact He|exact H].
Qed.

Lemma listing_pages_witness :
  (exists pg,
      services Sample.catalogue Sample.page_two
      = Return (render "portfolio/services.html" (ServicesContext pg))
      /\ clamps_to_last 6 (services_queryset Sample.catalogue)
           (Paginator.page_object_list pg) 2)
  /\ (exists c,
      project_list Sample.catalogue Sample.page_two
      = Return (render "portfolio/projects.html" (ProjectListContext c))
      /\ clamps_to_last 9
           (project_list_queryset Sample.catalogue Sample.page_two)
           (Paginator.page_object_list (ProjectList.page_obj c)) 2)
  /\ (exists c,
      blog_list Sample.catalogue Sample.page_two
      = Return (render "portfolio/blog.html" (BlogListContext c))
      /\ clamps_to_last 6
           (blog_list_queryset Sample.catalogue Sample.page_two)
           (Paginator.page_object_list (BlogList.page_obj c)) 2)
  /\ (exists c,
      gallery Sample.catalogue Sample.page_two
      = Return (render "portfolio/gallery.html" (GalleryContext c))
      /\ clamps_to_last 12
           (gallery_queryset Sample.catalogue Sample.page_two)
           (Paginator.page_object_list (GalleryPage.page_obj c)) 2)
  /\ (exists pg,
      testimonials Sample.catalogue Sample.page_two
      = Return (render "portfolio/testimonials.html"
                  (TestimonialsContext pg))
      /\ clamps_to_last 8 (testimonials_queryset Sample.catalogue)
           (Paginator.page_object_list pg) 2)
  /\ (exists shown entries pagination,
        api_projects Sample.catalogue Sample.page_two
        = Return (JsonResponse (ProjectsData entries pagination))
        /\ api_entries shown entries
        /\ falls_back_to_first 9
             (api_projects_queryset Sample.catalogue) shown 2).
Proof.
  destruct (listing_pages Sample.catalogue Sample.page_two "2" 2
              eq_refl eq_refl ltac:(lia))
    as (H1 & H2 & H3 & H4 & H5 & H6).
  repeat apply conj; try assumption.
  apply (H6 9); [reflexivity|reflexivity| |].
  - split; [lia|reflexivity].
  - unfold quill_descriptions. cbn.
    repeat (constructor; [discriminate|]). constructor.
Defined.

(** The sample store has two pages in each listing.  Page 2 of its
    project listing holds the two oldest of its eleven projects, and so
    does page 7, which lies beyond the last page; the JSON listing
    answers page 7 with the nine newest projects, those of page 1. *)
Example pages_of_the_catalogue :
  map Project.id
    (project_list_rows (project_list Sample.catalogue Sample.page_two))
  = [2; 1]%N
  /\ map Project.id
       (project_list_rows
          (project_list Sample.catalogue (Sample.get [("page", "7")])))
     = [2; 1]%N
  /\ (exists entries pagination,
        api_projects Sample.catalogue (Sample.get [("page", "7")])
        = Return (JsonResponse (ProjectsData entries pagination))
        /\ map Api.id entries = [11; 10; 9; 8; 7; 6; 5; 4; 3]%N
        /\ Api.current pagination = 1 /\ Api.pages pagination = 2)
  /\ List.length (services_queryset Sample.catalogue) = 8%nat
  /\ List.length (blog_list_queryset Sample.catalogue Sample.page_two)
     = 8%nat
  /\ List.length (gallery_queryset Sample.catalogue Sample.page_two)
     = 14%nat
  /\ List.length (testimonials_queryset Sample.catalogue) = 10%nat.
Proof.
  repeat split; try (vm_compute; reflexivity).
  do 2 eexists. split; [vm_compute; reflexivity|].
  repeat split; vm_compute; reflexivity.
Qed.

(** C4 fails as stated for the JSON listing: with three active projects
    and one row to a page, a request for page 5 is answered with page 1
    (the newest project) and not with the last page (the oldest). *)
Lemma api_projects_beyond_last_is_first :
  let request := Sample.get [("page", "5"); ("per_page", "1")] in
  let rows := api_projects_queryset Sample.portfolio in
  rows = [Sample.p_new; Sample.p_old; Sample.p_app]
  /\ last_page 1 (Z.of_nat (List.length rows)) = 3
  /\ page_rows 1 rows 3 = [Sample.p_app]
  /\ exists entry pagination,
       api_project_entry Sample.p_new = Return entry
       /\ api_projects Sample.portfolio request
          = Return (JsonResponse (ProjectsData [entry] pagination))
       /\ for_each api_project_entry (page_rows 1 rows 3)
          <> Return [entry].
Proof.
  cbv zeta. repeat split; try (vm_compute; reflexivity).
  do 2 eexists. split; [vm_compute; reflexivity|].
  split; [vm_compute; reflexivity|].
  vm_compute. discriminate.
Qed.

(** ** The blog detail page *)

Lemma blog_detail_table (column : IntegerField.range) (now : Z) (s : Store)
  (request : HttpRequest) (b : Blog.t) :
  unique Blog.id (blog_table s) ->
  unique Blog.slug (blog_table s) ->
  In b (blog_table s) ->
  Blog.is_published b = true ->
  IntegerField.fits column (Blog.views b + 1) = true ->
  exists c,
    blog_detail column now s request (Blog.slug b)
    = (set_blog_table s (map (visited (Blog.slug b) now) (blog_table s)),
       Return (render "portfolio/blog_detail.html" (BlogDetailContext c)))
    /\ BlogDetail.blog c = visited (Blog.slug b) now b
    /\ BlogDetail.related_blogs c
       = QuerySet.limit 3
           (QuerySet.order_by (QuerySet.desc_opt Blog.published_date)
              (QuerySet.exclude (fun x => (Blog.id x =? Blog.id b)%N)
                 (filter Blog.is_published
                    (map (visited (Blog.slug b) now) (blog_table s))))).
Proof.
  intros Hid Hslug Hin Hpub Hfit. unfold blog_detail.
  rewrite (get_object_or_404_found Blog.slug _ _ b Hslug Hin).
  2:{ now rewrite String.eqb_refl, Hpub. }
  2:{ intros y _ Hy. apply andb_prop in Hy. now apply String.eqb_eq. }
  unfold Blog_save.
  cbn [Blog.views Blog.set_updated_at Blog.set_views]. rewrite Hfit.
  cbn [negb].
  replace (existsb _ (blog_table s)) with true.
  2:{ symmetry. apply existsb_exists. exists b. split; [exact Hin|].
      apply N.eqb_refl. }
  assert (E : map (fun x : Blog.t =>
                     if (Blog.id x =?
                         Blog.id (Blog.set_updated_at
                                    (Blog.set_views b (Blog.views b + 1))
                                    now))%N
                     then Blog.set_updated_at
                            (Blog.set_views b (Blog.views b + 1)) now
                     else x) (blog_table s)
              = map (visited (Blog.slug b) now) (blog_table s)).
  { apply map_ext_in. intros x Hx. unfold visited.
    cbn [Blog.id Blog.set_updated_at Blog.set_views].
    destruct (N.eqb_spec (Blog.id x) (Blog.id b)) as [E|E];
      destruct (String.eqb_spec (Blog.slug x) (Blog.slug b)) as [E'|E'];
      try reflexivity.
    - now rewrite (unique_key_eq Blog.id (blog_table s) x b).
    - elim E'. f_equal. now apply (unique_key_eq Blog.id (blog_table s)).
    - elim E. f_equal. now apply (unique_key_eq Blog.slug (blog_table s)). }
  rewrite E. eexists. split; [reflexivity|]. fields. split.
  - unfold visited. now rewrite String.eqb_refl.
  - reflexivity.
Qed.

Lemma blog_detail_refused (column : IntegerField.range) (now : Z)
  (s : Store) (request : HttpRequest) (b : Blog.t) :
  unique Blog.slug (blog_table s) ->
  In b (blog_table s) ->
  Blog.is_published b = true ->
  IntegerField.fits column (Blog.views b + 1) = false ->
  blog_detail column now s request (Blog.slug b) = (s, Raise DataError).
Proof.
  intros Hslug Hin Hpub Hfit. unfold blog_detail.
  rewrite (get_object_or_404_found Blog.slug _ _ b Hslug Hin).
  2:{ now rewrite String.eqb_refl, Hpub. }
  2:{ intros y _ Hy. apply andb_prop in Hy. now apply String.eqb_eq. }
  unfold Blog_save.
  cbn [Blog.views Blog.set_updated_at Blog.set_views]. now rewrite Hfit.
Qed.

Lemma visited_keys (slug : string) (now : Z) (b : Blog.t) :
  Blog.id (visited slug now b) = Blog.id b
  /\ Blog.slug (visited slug now b) = Blog.slug b
  /\ Blog.is_published (visited slug now b) = Blog.is_published b
  /\ Blog.published_date (visited slug now b) = Blog.published_date b.
Proof.
  unfold visited. destruct (String.eqb (Blog.slug b) slug);
    repeat split; reflexivity.
Qed.

(** C3, as the code has it.  One request for the detail page of a
    published post whose counter, once raised, still fits the [views]
    column adds exactly one to that counter and leaves every other post
    as it was (requests are served one at a time: the handler runs from
    the store it is given to the store it returns).  When the raised
    counter does not fit, the save is refused: the request fails and
    the store is as it was. *)
Theorem blog_detail_counts_one_view
  (column : IntegerField.range) (now : Z) (s : Store)
  (request : HttpRequest) (b : Blog.t) :
  unique Blog.id (blog_table s) ->
  unique Blog.slug (blog_table s) ->
  In b (blog_table s) ->
  Blog.is_published b = true ->
  (IntegerField.fits column (Blog.views b + 1) = true ->
   exists s' c,
     blog_detail column now s request (Blog.slug b)
     = (s', Return (render "portfolio/blog_detail.html"
                      (BlogDetailContext c)))
     /\ Blog.views (BlogDetail.blog c) = Blog.views b + 1
     /\ Forall2 (fun old new =>
                   if String.eqb (Blog.slug old) (Blog.slug b)
                   then Blog.id new = Blog.id old
                        /\ Blog.views new = Blog.views old + 1
                   else new = old)
          (blog_table s) (blog_table s'))
  /\ (IntegerField.fits column (Blog.views b + 1) = false ->
      blog_detail column now s request (Blog.slug b)
      = (s, Raise DataError)).
Proof.
  intros Hid Hslug Hin Hpub. split; intros Hfit.
  - destruct (blog_detail_table column now s request b
                Hid Hslug Hin Hpub Hfit) as (c & E & Eb & _).
    rewrite E. do 2 eexists. split; [reflexivity|]. split.
    + rewrite Eb. unfold visited. now rewrite String.eqb_refl.
    + cbn [blog_table set_blog_table]. clear.
      induction (blog_table s) as [|x table IH]; cbn [map]; constructor;
        [|exact IH].
      unfold visited.
      destruct (String.eqb (Blog.slug x) (Blog.slug b));
        [split|]; reflexivity.
  - now apply blog_detail_refused.
Qed.

Lemma blog_detail_witness :
  exists s' c,
    blog_detail IntegerField.sqlite 100 Sample.journal (Sample.get [])
      (Blog.slug Sample.b_hello)
    = (s', Return (render "portfolio/blog_detail.html"
                     (BlogDetailContext c)))
    /\ Blog.views (BlogDetail.blog c) = Blog.views Sample.b_hello + 1
    /\ Forall2 (fun old new =>
                  if String.eqb (Blog.slug old) (Blog.slug Sample.b_hello)
                  then Blog.id new = Blog.id old
                       /\ Blog.views new = Blog.views old + 1
                  else new = old)
         (blog_table Sample.journal) (blog_table s').
Proof.
  apply (blog_detail_counts_one_view IntegerField.sqlite 100 Sample.journal
           (Sample.get []) Sample.b_hello).
  - distinct.
  - distinct.
  - cbn. tauto.
  - reflexivity.
  - reflexivity.
Defined.

(** C3 fails as stated: a published post whose counter is the largest
    integer of the column (here the 64 bits of SQLite) gains no view
    from a request; the save is refused and the store is as it was. *)
Lemma blog_detail_at_the_maximum :
  Blog.is_published Sample.b_full = true
  /\ Blog.views Sample.b_full
     = IntegerField.max_value IntegerField.sqlite
  /\ blog_detail IntegerField.sqlite 100 Sample.archive (Sample.get [])
       (Blog.slug Sample.b_full)
     = (Sample.archive, Raise DataError)
  /\ In Sample.b_full (blog_table Sample.archive).
Proof.
  repeat split; try (vm_compute; reflexivity). cbn. tauto.
Qed.

(** C9. A project that is stored but not active, and a post that is
    stored but not published, have no detail page: the project page and
    the blog page answer not-found, and the blog page leaves the store
    as it is; an identifier or a slug that no row carries gets the very
    same answer. *)
Theorem hidden_detail_is_not_found
  (column : IntegerField.range) (now : Z) (s : Store)
  (request : HttpRequest) :
  (unique Project.id (project_table s) ->
   forall p,
     In p (project_table s) -> Project.is_active p = false ->
     project_detail s request (Project.id p) = Raise Http404)
  /\ (unique Blog.slug (blog_table s) ->
      forall b,
        In b (blog_table s) -> Blog.is_published b = false ->
        blog_detail column now s request (Blog.slug b)
        = (s, Raise Http404))
  /\ (forall id,
        ~ In id (map Project.id (project_table s)) ->
        project_detail s request id = Raise Http404)
  /\ (forall slug,
        ~ In slug (map Blog.slug (blog_table s)) ->
        blog_detail column now s request slug = (s, Raise Http404)).
Proof.
  assert (P0 : forall id,
             (forall q, In q (project_table s) -> Project.id q = id ->
                        Project.is_active q = false) ->
             project_detail s request id = Raise Http404).
  { intros id H. unfold project_detail.
    rewrite get_object_or_404_none; [reflexivity|].
    intros q Hq. destruct (N.eqb_spec (Project.id q) id) as [E|_];
      [|reflexivity].
    now rewrite (H q Hq E). }
  assert (B0 : forall slug,
             (forall q, In q (blog_table s) -> Blog.slug q = slug ->
                        Blog.is_published q = false) ->
             blog_detail column now s request slug = (s, Raise Http404)).
  { intros slug H. unfold blog_detail.
    rewrite get_object_or_404_none; [reflexivity|].
    intros q Hq. destruct (String.eqb_spec (Blog.slug q) slug) as [E|_];
      [|reflexivity].
    now rewrite (H q Hq E). }
  repeat apply conj.
  - intros Hid p Hp Hpa. apply P0. intros q Hq E.
    now rewrite (unique_key_eq Project.id (project_table s) q p).
  - intros Hslug b Hb Hbp. apply B0. intros q Hq E.
    now rewrite (unique_key_eq Blog.slug (blog_table s) q b).
  - intros id H. apply P0. intros q Hq E. exfalso. apply H.
    rewrite <- E. now apply in_map.
  - intros slug H. apply B0. intros q Hq E. exfalso. apply H.
    rewrite <- E. now apply in_map.
Qed.

Lemma hidden_detail_witness :
  project_detail Sample.portfolio (Sample.get [])
    (Project.id Sample.p_hidden)
  = Raise Http404
  /\ blog_detail IntegerField.sqlite 100 Sample.journal (Sample.get [])
       (Blog.slug Sample.b_draft)
     = (Sample.journal, Raise Http404)
  /\ project_detail Sample.journal (Sample.get []) 3%N = Raise Http404
  /\ blog_detail IntegerField.sqlite 100 Sample.portfolio (Sample.get [])
       "draft"
     = (Sample.portfolio, Raise Http404).
Proof.
  repeat apply conj.
  - apply (proj1 (hidden_detail_is_not_found IntegerField.sqlite 100
                    Sample.portfolio (Sample.get []))).
    + distinct.
    + cbn. tauto.
    + reflexivity.
  - apply (proj1 (proj2 (hidden_detail_is_not_found IntegerField.sqlite
                           100 Sample.journal (Sample.get [])))).
    + distinct.
    + cbn. tauto.
    + reflexivity.
  - apply (proj1 (proj2 (proj2 (hidden_detail_is_not_found
                                  IntegerField.sqlite 100 Sample.journal
                                  (Sample.get []))))).
    cbn. tauto.
  - apply (proj2 (proj2 (proj2 (hidden_detail_is_not_found
                                  IntegerField.sqlite 100 Sample.portfolio
                                  (Sample.get []))))).
    cbn. tauto.
Defined.

(** ** The blog listing and its [category] parameter *)

(** C10. The blog listing reads the [category] parameter and makes no
    use of it: two requests that agree on every other query parameter
    get the same response. *)
Theorem blog_list_ignores_category
  (s : Store) (request1 request2 : HttpRequest) :
  (forall key, key <> "category" ->
               dict_get (GET request1) key = dict_get (GET request2) key) ->
  blog_list s request1 = blog_list s request2.
Proof.
  intros H. unfold blog_list, blog_list_queryset.
  rewrite (H "search") by discriminate.
  rewrite (H "page") by discriminate.
  reflexivity.
Qed.

Lemma blog_list_ignores_category_witness :
  blog_list Sample.journal
    (Sample.get [("category", "travel"); ("search", "b"); ("page", "1")])
  = blog_list Sample.journal (Sample.get [("search", "b"); ("page", "1")]).
Proof.
  apply (blog_list_ignores_category Sample.journal
           (Sample.get [("category", "travel"); ("search", "b");
                        ("page", "1")])
           (Sample.get [("search", "b"); ("page", "1")])).
  intros key Hkey. cbn [Sample.get GET dict_get].
  destruct (String.eqb "page" key); [reflexivity|].
  destruct (String.eqb "search" key); [reflexivity|].
  destruct (String.eqb_spec "category" key) as [E|_]; [|reflexivity].
  now elim Hkey.
Defined.

(** ** The JSON listing and a malformed page number *)

(** C7 does not hold of the JSON project listing.  The handler parses
    [page] and [per_page] before its [try]: a GET request whose [page]
    is not a number raises [ValueError] out of the handler, whatever the
    store and the other parameters.  The fall-back to page 1 covers only
    the page look-up. *)
Theorem api_projects_malformed_page_raises
  (s : Store) (request : HttpRequest) (page : string) :
  method request = "GET" ->
  dict_get (GET request) "page" = Some page ->
  Py.int page = None ->
  api_projects s request = Raise ValueError.
Proof.
  intros Hm Hget Hpage. unfold api_projects. rewrite Hm.
  change (String.eqb "GET" "GET") with true. cbn [negb].
  unfold api_projects_page, param_or. rewrite Hget.
  unfold py_int at 1. rewrite Hpage. reflexivity.
Qed.

Lemma api_projects_malformed_page_witness :
  api_projects Sample.portfolio (Sample.get [("page", "abc")])
  = Raise ValueError.
Proof.
  apply (api_projects_malformed_page_raises Sample.portfolio
           (Sample.get [("page", "abc")]) "abc");
    reflexivity.
Defined.

(** ** The contact form *)

Section ContactFacts.
Variable validate_email : string -> bool.

Let no_errors (field : string) (raw : option string) : bool :=
  Nat.eqb (List.length
             (snd (ContactForm.clean_field validate_email field raw))) 0.

Lemma limited_field_errors (raw : option string) :
  no_errors "name" raw = field_ok (Some 200%nat) (ContactForm.to_python raw)
  /\ no_errors "subject" raw
     = field_ok (Some 200%nat) (ContactForm.to_python raw).
Proof.
  unfold no_errors, ContactForm.clean_field, ContactForm.validators,
    field_ok, ContactForm.MaxLengthValidator,
    ContactForm.ProhibitNullCharactersValidator.
  change (String.eqb "name" "email") with false.
  change (String.eqb "name" "message") with false.
  change (String.eqb "subject" "email") with false.
  change (String.eqb "subject" "message") with false.
  cbv iota.
  rewrite Nat.leb_antisym.
  destruct (String.eqb (ContactForm.to_python raw) "");
    destruct (200 <? String.length (ContactForm.to_python raw))%nat;
    destruct (Py.contains _ (ContactForm.to_python raw));
    split; reflexivity.
Qed.

Lemma email_field_errors (raw : option string) :
  no_errors "email" raw
  = field_ok (Some 254%nat) (ContactForm.to_python raw)
    && validate_email (ContactForm.to_python raw).
Proof.
  unfold no_errors, ContactForm.clean_field, ContactForm.validators,
    field_ok, ContactForm.MaxLengthValidator, ContactForm.EmailValidator,
    ContactForm.ProhibitNullCharactersValidator.
  change (String.eqb "email" "email") with true. cbv iota.
  rewrite Nat.leb_antisym.
  destruct (String.eqb (ContactForm.to_python raw) "");
    destruct (254 <? String.length (ContactForm.to_python raw))%nat;
    destruct (Py.contains _ (ContactForm.to_python raw));
    destruct (validate_email (ContactForm.to_python raw)); reflexivity.
Qed.

Lemma message_field_errors (raw : option string) :
  no_errors "message" raw = field_ok None (ContactForm.to_python raw).
Proof.
  unfold no_errors, ContactForm.clean_field, ContactForm.validators,
    field_ok, ContactForm.ProhibitNullCharactersValidator.
  change (String.eqb "message" "email") with false.
  change (String.eqb "message" "message") with true. cbv iota.
  destruct (String.eqb (ContactForm.to_python raw) "");
    destruct (Py.contains _ (ContactForm.to_python raw)); reflexivity.
Qed.

Lemma is_valid_payload_ok (request : HttpRequest) :
  ContactForm.is_valid validate_email
    (ContactForm.make (Some (POST request)))
  = payload_ok validate_email request.
Proof.
  unfold payload_ok, posted.
  destruct (limited_field_errors (dict_get (POST request) "name"))
    as [<- _].
  destruct (limited_field_errors (dict_get (POST request) "subject"))
    as [_ <-].
  rewrite <- email_field_errors, <- message_field_errors.
  unfold no_errors, ContactForm.is_valid, ContactForm.errors,
    ContactForm.fields, ContactForm.raw_value.
  cbn [ContactForm.data map].
  destruct (snd (ContactForm.clean_field validate_email "name" _));
    destruct (snd (ContactForm.clean_field validate_email "email" _));
    destruct (snd (ContactForm.clean_field validate_email "subject" _));
    destruct (snd (ContactForm.clean_field validate_email "message" _));
    reflexivity.
Qed.

Lemma cleaned_posted (request : HttpRequest) (field : string) :
  ContactForm.cleaned validate_email
    (ContactForm.make (Some (POST request))) field
  = posted request field.
Proof.
  unfold ContactForm.cleaned, ContactForm.clean_field,
    ContactForm.raw_value, ContactForm.clean_email, posted.
  cbn [ContactForm.data].
  destruct (String.eqb (ContactForm.to_python _) "");
    destruct (String.eqb field "email"); reflexivity.
Qed.

Lemma errors_well_formed (form : ContactForm.t) :
  Forall (fun fe => In (fst fe) ContactForm.fields /\ snd fe <> [])
    (ContactForm.errors validate_email form).
Proof.
  unfold ContactForm.errors. destruct (ContactForm.data form); [|constructor].
  apply Forall_forall. intros [field errs] H.
  apply filter_In in H. destruct H as [H Hne].
  apply in_map_iff in H. destruct H as [f [E Hf]].
  inversion E; subst. cbn [fst snd] in *. split; [exact Hf|].
  intros E'. rewrite E' in Hne. discriminate Hne.
Qed.
End ContactFacts.

Lemma stored_address_plain (clean_ipv6_address : string -> option string)
  (address : string) :
  address <> "" -> Py.contains ":" address = false ->
  GenericIPAddressField_get_db_prep_value clean_ipv6_address (Some address)
  = Some address.
Proof.
  intros Hne Hc. unfold GenericIPAddressField_get_db_prep_value, Py.truthy.
  rewrite Hc, andb_false_r.
  now destruct (String.eqb_spec address "").
Qed.

(** C5, as the code has it.  On a POST of the contact form, a payload
    the form accepts (each of the four fields non-empty once surrounding
    white space is stripped and free of null characters, [name] and
    [subject] of at most 200 characters, [email] of at most 254 and well
    formed) adds exactly one message: its status is [new], its text is
    the stripped payload, its user agent is that of the request
    metadata, and its address is that of the request metadata as the
    column stores it: as it is for a text that is not empty and has no
    colon, none for a missing or empty one.  Any other payload adds
    nothing, and the form page comes back with a non-empty list of
    errors, each attached to one of the four fields; a payload with an
    empty field or a malformed address is such a payload. *)
Theorem contact_post
  (validate_email : string -> bool)
  (clean_ipv6_address : string -> option string) (uuid : UUID) (now : Z)
  (s : Store) (request : HttpRequest) :
  method request = "POST" ->
  (payload_ok validate_email request = true ->
   exists m response,
     contact validate_email clean_ipv6_address uuid now s request
     = (set_contact_table s (contact_table s ++ [m])%list, Return response)
     /\ ContactMessage.status m = "new"
     /\ ContactMessage.ip_address m
        = GenericIPAddressField_get_db_prep_value clean_ipv6_address
            (dict_get (META request) "REMOTE_ADDR")
     /\ (forall address,
           dict_get (META request) "REMOTE_ADDR" = Some address ->
           address <> "" -> Py.contains ":" address = false ->
           ContactMessage.ip_address m = Some address)
     /\ (dict_get (META request) "REMOTE_ADDR" = None
         \/ dict_get (META request) "REMOTE_ADDR" = Some "" ->
         ContactMessage.ip_address m = None)
     /\ ContactMessage.user_agent m
        = or_empty (dict_get (META request) "HTTP_USER_AGENT")
     /\ ContactMessage.name m = posted request "name"
     /\ ContactMessage.email m = posted request "email"
     /\ ContactMessage.subject m = posted request "subject"
     /\ ContactMessage.message m = posted request "message"
     /\ response
        = if is_value (dict_get (headers request) "X-Requested-With")
               "XMLHttpRequest"
          then JsonResponse (ContactSuccess true
                 "Thank you for your message! I will get back to you soon.")
          else render "portfolio/contact_success.html" NoContext)
  /\ (payload_ok validate_email request = false ->
      exists form,
        contact validate_email clean_ipv6_address uuid now s request
        = (s, Return (render "portfolio/contact.html" (ContactContext form)))
        /\ ContactForm.errors validate_email form <> []
        /\ Forall (fun fe => In (fst fe) ContactForm.fields /\ snd fe <> [])
             (ContactForm.errors validate_email form))
  /\ ((exists field,
         In field ContactForm.fields /\ posted request field = "")
      \/ validate_email (posted request "email") = false ->
      payload_ok validate_email request = false).
Proof.
  intros Hm. split; [|split].
  3:{ unfold payload_ok, field_ok.
      intros [[field [Hf E]]|E].
      - cbn [ContactForm.fields In] in Hf.
        destruct Hf as [<-|[<-|[<-|[<-|[]]]]]; rewrite E;
          cbn [String.eqb negb andb];
          repeat rewrite andb_false_r; reflexivity.
      - rewrite E. repeat rewrite andb_false_r. reflexivity. }
  all: unfold contact; rewrite Hm;
    change (String.eqb "POST" "POST") with true; cbv iota;
    rewrite is_valid_payload_ok; intros Hok; rewrite Hok.
  - eexists.
    exists (if is_value (dict_get (headers request) "X-Requested-With")
                 "XMLHttpRequest"
            then JsonResponse (ContactSuccess true
                   "Thank you for your message! I will get back to you soon.")
            else render "portfolio/contact_success.html" NoContext).
    split.
    + unfold ContactMessage_insert.
      destruct (is_value _ _); reflexivity.
    + cbn [ContactMessage.status ContactMessage.ip_address
           ContactMessage.user_agent ContactMessage.name
           ContactMessage.email ContactMessage.subject
           ContactMessage.message ContactForm.save_commit_false].
      repeat split; try apply cleaned_posted.
      * intros address E Hne Hc. rewrite E.
        now apply stored_address_plain.
      * intros [E|E]; rewrite E; reflexivity.
  - eexists. split; [reflexivity|]. split; [|apply errors_well_formed].
    intros E. rewrite <- is_valid_payload_ok in Hok.
    unfold ContactForm.is_valid in Hok. cbn [ContactForm.data] in Hok.
    rewrite E in Hok. discriminate Hok.
Qed.

Lemma contact_post_witness :
  (exists m response,
     contact Sample.validate_email Sample.clean_ipv6_address 9%N 100
       Sample.empty (Sample.message "A" "a@b.com")
     = (set_contact_table Sample.empty
          (contact_table Sample.empty ++ [m])%list, Return response)
     /\ ContactMessage.status m = "new"
     /\ ContactMessage.ip_address m = Some "203.0.113.7"
     /\ ContactMessage.user_agent m = "curl/8.0"
     /\ ContactMessage.name m = "A"
     /\ ContactMessage.email m = "a@b.com")
  /\ (exists form,
        contact Sample.validate_email Sample.clean_ipv6_address 9%N 100
          Sample.empty (Sample.message "A" "not-an-email")
        = (Sample.empty,
           Return (render "portfolio/contact.html" (ContactContext form)))
        /\ ContactForm.errors Sample.validate_email form <> []
        /\ Forall (fun fe => In (fst fe) ContactForm.fields /\ snd fe <> [])
             (ContactForm.errors Sample.validate_email form)).
Proof.
  split.
  - destruct (proj1 (contact_post Sample.validate_email
                       Sample.clean_ipv6_address 9%N 100 Sample.empty
                       (Sample.message "A" "a@b.com") eq_refl) eq_refl)
      as (m & response & E & Hs & _ & Ha & _ & Hu & Hn & He & _).
    exists m, response. split; [exact E|]. split; [exact Hs|].
    split; [apply Ha; [reflexivity|discriminate|reflexivity]|].
    split; [exact Hu|]. split; [exact Hn|exact He].
  - apply (proj1 (proj2 (contact_post Sample.validate_email
                           Sample.clean_ipv6_address 9%N 100
                           Sample.empty
                           (Sample.message "A" "not-an-email") eq_refl))).
    reflexivity.
Defined.

(** The address as it is stored: an IPv6 address in canonical form, and
    nothing for an empty [REMOTE_ADDR]. *)
Example contact_stores_the_address :
  map ContactMessage.ip_address
    (contact_table
       (fst (contact Sample.validate_email Sample.clean_ipv6_address 9%N
               100 Sample.empty (Sample.message_from "2001:DB8::1"))))
  = [Some "2001:db8::1"]
  /\ map ContactMessage.ip_address
       (contact_table
          (fst (contact Sample.validate_email Sample.clean_ipv6_address
                  9%N 100 Sample.empty (Sample.message_from ""))))
     = [None].
Proof. split; vm_compute; reflexivity. Qed.

(** C5 fails as stated: a name of 201 characters is not empty and the
    address is well formed, yet the form rejects the payload, for the
    column holds 200 characters at most, and no message is stored. *)
Lemma contact_rejects_long_name :
  let request := Sample.message Sample.long_name "a@b.com" in
  dict_get (POST request) "name" = Some Sample.long_name
  /\ String.length Sample.long_name = 201%nat
  /\ dict_get (POST request) "email" = Some "a@b.com"
  /\ Sample.validate_email "a@b.com" = true
  /\ dict_get (POST request) "subject" = Some "S"
  /\ dict_get (POST request) "message" = Some "M"
  /\ contact Sample.validate_email Sample.clean_ipv6_address 9%N 100 Sample.empty request
     = (Sample.empty,
        Return (render "portfolio/contact.html"
                  (ContactContext (ContactForm.make (Some (POST request))))))
  /\ ContactForm.errors Sample.validate_email
       (ContactForm.make (Some (POST request)))
     = [("name", [MaxLength 200 201])].
Proof.
  cbv zeta. repeat split; vm_compute; reflexivity.
Qed.

(** ** The HTML views always answer *)

Lemma get_object_or_404_answers {A K} (key : A -> K) (k : K)
  (f : A -> bool) (table : list A) :
  unique key table ->
  (forall y, f y = true -> key y = k) ->
  (exists x, QuerySet.get_object_or_404 table f = Return x)
  \/ QuerySet.get_object_or_404 table f = Raise Http404.
Proof.
  intros Hu Hk. destruct (existsb f table) eqn:E.
  - apply existsb_exists in E. destruct E as [x [Hin Hfx]].
    left. exists x. apply (get_object_or_404_found key); auto.
    intros y _ Hy. now rewrite (Hk y Hy), (Hk x Hfx).
  - right. apply get_object_or_404_none. intros y Hy.
    destruct (f y) eqn:Hfy; [|reflexivity].
    rewrite <- E. symmetry. apply existsb_exists. now exists y.
Qed.

Lemma get_object_or_404_In {A} (f : A -> bool) (table : list A) (x : A) :
  QuerySet.get_object_or_404 table f = Return x ->
  In x table /\ f x = true.
Proof.
  unfold QuerySet.get_object_or_404, QuerySet.get.
  destruct (filter f table) as [|y [|z l]] eqn:F; cbn [bind];
    try discriminate.
  intros E. inversion E; subst. apply filter_In. rewrite F. now left.
Qed.

(** Every HTML view answers, whatever the query parameters.  The pages
    that list rows, the home page (whatever its cache holds) and the
    contact page return a response.  The project page returns a
    response or raises not-found.  So does the blog page, unless the
    counter of the post, once raised, does not fit its column: the save
    is then refused and the page fails.  (The store satisfies the
    primary-key constraint on projects and the unique constraint on
    slugs.) *)
Theorem html_views_answer
  (validate_email : string -> bool)
  (clean_ipv6_address : string -> option string)
  (cache_key : string -> HttpRequest -> string) (cache : Cache.t)
  (column : IntegerField.range) (uuid : UUID) (now : Z) (s : Store)
  (request : HttpRequest) (id : UUID) (slug : string) :
  unique Project.id (project_table s) ->
  unique Blog.slug (blog_table s) ->
  returns (snd (cached_home cache_key cache now s request))
  /\ returns (about s request)
  /\ returns (services s request)
  /\ returns (project_list s request)
  /\ returns (blog_list s request)
  /\ returns (gallery s request)
  /\ returns (testimonials s request)
  /\ returns (certificates s request)
  /\ returns (snd (contact validate_email clean_ipv6_address uuid now s
                     request))
  /\ returns (faq_list s request)
  /\ answers (project_detail s request id)
  /\ (answers (snd (blog_detail column now s request slug))
      \/ snd (blog_detail column now s request slug) = Raise DataError
         /\ exists b,
              In b (blog_table s) /\ Blog.slug b = slug
              /\ Blog.is_published b = true
              /\ IntegerField.fits column (Blog.views b + 1) = false).
Proof.
  intros Hid Hslug. unfold returns, answers. repeat apply conj.
  - unfold cached_home, cache_page.
    destruct (negb _); [eexists; reflexivity|].
    destruct (match Cache.get _ _ _ with Some _ => _ | None => _ end);
      [eexists; reflexivity|].
    unfold home. cbn [status_code]. destruct (negb _ && _);
      eexists; reflexivity.
  - eexists. reflexivity.
  - unfold services. run_get_page. eexists. reflexivity.
  - unfold project_list. run_get_page. eexists. reflexivity.
  - unfold blog_list. run_get_page. eexists. reflexivity.
  - unfold gallery. run_get_page. eexists. reflexivity.
  - unfold testimonials. run_get_page. eexists. reflexivity.
  - eexists. reflexivity.
  - unfold contact.
    destruct (String.eqb (method request) "POST");
      [destruct (ContactForm.is_valid _ _);
       [destruct (is_value _ _)|]|]; eexists; reflexivity.
  - eexists. reflexivity.
  - unfold project_detail.
    destruct (get_object_or_404_answers Project.id id
                (fun p => (Project.id p =? id)%N && Project.is_active p)
                (project_table s) Hid) as [[x E]|E].
    + intros y Hy. apply andb_prop in Hy. now apply N.eqb_eq.
    + rewrite E. left. eexists. reflexivity.
    + rewrite E. now right.
  - unfold blog_detail.
    destruct (get_object_or_404_answers Blog.slug slug
                (fun b => String.eqb (Blog.slug b) slug
                          && Blog.is_published b)
                (blog_table s) Hslug) as [[x E]|E].
    + intros y Hy. apply andb_prop in Hy. now apply String.eqb_eq.
    + rewrite E. unfold Blog_save.
      cbn [Blog.views Blog.set_updated_at Blog.set_views].
      destruct (IntegerField.fits column (Blog.views x + 1)) eqn:Hfit;
        cbn [negb].
      * left. left. destruct (existsb _ _); eexists; reflexivity.
      * right. split; [reflexivity|]. exists x.
        apply get_object_or_404_In in E. destruct E as [Hin Hx].
        apply andb_prop in Hx. destruct Hx as [Hs Hp].
        apply String.eqb_eq in Hs. auto.
    + rewrite E. left. now right.
Qed.

Lemma html_views_answer_witness :
  returns (snd (cached_home Sample.cache_key [] 100 Sample.catalogue
                  (Sample.get [("page", "x")])))
  /\ returns (services Sample.catalogue (Sample.get [("page", "x")]))
  /\ returns (project_list Sample.catalogue (Sample.get [("page", "x")]))
  /\ answers (project_detail Sample.catalogue
                (Sample.get [("page", "x")]) 3%N)
  /\ answers (snd (blog_detail IntegerField.sqlite 100 Sample.catalogue
                     (Sample.get [("page", "x")]) "post1")).
Proof.
  destruct (html_views_answer Sample.validate_email
              Sample.clean_ipv6_address Sample.cache_key [] 
              IntegerField.sqlite 9%N 100 Sample.catalogue
              (Sample.get [("page", "x")]) 3%N "post1")
    as (H1 & _ & H3 & H4 & _ & _ & _ & _ & _ & _ & H11 & H12).
  - distinct.
  - distinct.
  - repeat apply conj; try assumption.
    destruct H12 as [H|[H _]]; [exact H|].
    vm_compute in H. discriminate H.
Defined.

(** ** Type and category filters *)

Lemma truthy_opt_some (v : string) :
  v <> "" -> Py.truthy_opt (Some v) = true.
Proof.
  intros H. unfold Py.truthy_opt, Py.truthy.
  now destruct (String.eqb_spec v "").
Qed.

(** A [type] parameter that is not empty narrows the project listing to
    the projects of exactly that type, and a [category] parameter that
    is not empty narrows the gallery to the items of exactly that
    category; each holds whatever the other parameters are. *)
Theorem exact_match_filters (s : Store) (request : HttpRequest) :
  (forall type,
      dict_get (GET request) "type" = Some type -> type <> "" ->
      exists c,
        project_list s request
        = Return (render "portfolio/projects.html" (ProjectListContext c))
        /\ Forall (fun p => Project.project_type p = type)
             (project_list_queryset s request)
        /\ Forall (fun p => Project.project_type p = type)
             (Paginator.page_object_list (ProjectList.page_obj c)))
  /\ (forall category,
        dict_get (GET request) "category" = Some category ->
        category <> "" ->
        exists c,
          gallery s request
          = Return (render "portfolio/gallery.html" (GalleryContext c))
          /\ Forall (fun g => Gallery.category g = category)
               (gallery_queryset s request)
          /\ Forall (fun g => Gallery.category g = category)
               (Paginator.page_object_list (GalleryPage.page_obj c))).
Proof.
  split.
  - intros type Ht Hte.
    assert (Q : Forall (fun p => Project.project_type p = type)
                  (project_list_queryset s request)).
    { unfold project_list_queryset. rewrite Ht.
      rewrite truthy_opt_some by assumption. cbn [or_empty].
      assert (F : Forall (fun p => Project.project_type p = type)
                    (filter
                       (fun p => String.eqb (Project.project_type p) type)
                       (QuerySet.order_by (QuerySet.desc Project.created_at)
                          (filter Project.is_active (project_table s))))).
      { apply Forall_forall. intros p Hp. apply filter_In in Hp.
        now apply String.eqb_eq. }
      destruct (Py.truthy_opt (dict_get (GET request) "search"));
        [now apply Forall_filter_keep|exact F]. }
    unfold project_list. run_get_page.
    eexists. split; [reflexivity|]. split; [exact Q|]. fields.
    unfold page_rows. now apply Forall_slice_keep.
  - intros category Hc Hce.
    assert (Q : Forall (fun g => Gallery.category g = category)
                  (gallery_queryset s request)).
    { unfold gallery_queryset. rewrite Hc.
      rewrite truthy_opt_some by assumption. cbn [or_empty].
      apply Forall_forall. intros g Hg. apply filter_In in Hg.
      now apply String.eqb_eq. }
    unfold gallery. run_get_page.
    eexists. split; [reflexivity|]. split; [exact Q|]. fields.
    unfold page_rows. now apply Forall_slice_keep.
Qed.

(** In the sample store five of the eleven projects are web projects
    and seven of the fourteen gallery items are personal ones. *)
Lemma exact_match_filters_witness :
  (exists c,
      project_list Sample.catalogue (Sample.get [("type", "web")])
      = Return (render "portfolio/projects.html" (ProjectListContext c))
      /\ Forall (fun p => Project.project_type p = "web")
           (Paginator.page_object_list (ProjectList.page_obj c))
      /\ map Project.id
           (Paginator.page_object_list (ProjectList.page_obj c))
         = [10; 8; 6; 4; 2]%N)
  /\ (exists c,
        gallery Sample.catalogue (Sample.get [("category", "personal")])
        = Return (render "portfolio/gallery.html" (GalleryContext c))
        /\ Forall (fun g => Gallery.category g = "personal")
             (Paginator.page_object_list (GalleryPage.page_obj c))
        /\ map Gallery.id
             (Paginator.page_object_list (GalleryPage.page_obj c))
           = [13; 11; 9; 7; 5; 3; 1]%N).
Proof.
  split.
  - destruct (proj1 (exact_match_filters Sample.catalogue
                       (Sample.get [("type", "web")])) "web")
      as (c & E & _ & H).
    + reflexivity.
    + discriminate.
    + exists c. split; [exact E|]. split; [exact H|].
      vm_compute in E. inversion E. reflexivity.
  - destruct (proj2 (exact_match_filters Sample.catalogue
                       (Sample.get [("category", "personal")])) "personal")
      as (c & E & _ & H).
    + reflexivity.
    + discriminate.
    + exists c. split; [exact E|]. split; [exact H|].
      vm_compute in E. inversion E. reflexivity.
Defined.

(** ** The order of text *)

Lemma ascii_compare_lt_trans (a b c : ascii) :
  Ascii.compare a b = Lt -> Ascii.compare b c = Lt ->
  Ascii.compare a c = Lt.
Proof.
  unfold Ascii.compare. rewrite !N.compare_lt_iff. apply N.lt_trans.
Qed.

Lemma string_compare_refl (a : string) : String.compare a a = Eq.
Proof.
  induction a as [|c a IH]; simpl; [reflexivity|].
  unfold Ascii.compare. now rewrite N.compare_refl.
Qed.

Lemma string_compare_lt_trans (a b c : string) :
  String.compare a b = Lt -> String.compare b c = Lt ->
  String.compare a c = Lt.
Proof.
  revert b c. induction a as [|x a IH]; intros [|y b] [|z c]; simpl;
    try discriminate; auto.
  destruct (Ascii.compare x y) eqn:Exy; try discriminate;
    destruct (Ascii.compare y z) eqn:Eyz; try discriminate; intros H1 H2.
  - apply Ascii.compare_eq_iff in Exy, Eyz. subst.
    unfold Ascii.compare. rewrite N.compare_refl. now apply IH with b.
  - apply Ascii.compare_eq_iff in Exy. subst. now rewrite Eyz.
  - apply Ascii.compare_eq_iff in Eyz. subst. now rewrite Exy.
  - now rewrite (ascii_compare_lt_trans x y z).
Qed.

Lemma string_leb_iff (a b : string) :
  String.leb a b = true <-> a = b \/ String.compare a b = Lt.
Proof.
  unfold String.leb. split.
  - destruct (String.compare a b) eqn:E; try discriminate; intros _.
    + left. now apply String.compare_eq_iff.
    + now right.
  - intros [->|H]; [now rewrite string_compare_refl|now rewrite H].
Qed.

Lemma string_leb_trans (a b c : string) :
  String.leb a b = true -> String.leb b c = true -> String.leb a c = true.
Proof.
  rewrite !string_leb_iff. intros [->|H1] [->|H2]; auto.
  right. now apply string_compare_lt_trans with b.
Qed.

Lemma string_ltb_iff (a b : string) :
  String.ltb a b = true <-> String.leb a b = true /\ a <> b.
Proof.
  unfold String.ltb, String.leb. split.
  - destruct (String.compare a b) eqn:E; try discriminate; intros _.
    split; [reflexivity|]. intros ->.
    rewrite string_compare_refl in E. discriminate.
  - intros [H Hne]. destruct (String.compare a b) eqn:E;
      try reflexivity; try discriminate.
    elim Hne. now apply String.compare_eq_iff.
Qed.

(** ** What the listings select, and in which order *)

Lemma param_holds_filter {A} (param : option string)
  (test : string -> A -> bool) (rows : list A) (x : A) :
  In x (if Py.truthy_opt param
        then filter (test (or_empty param)) rows else rows)
  <-> In x rows /\ param_holds param (fun v => test v x).
Proof.
  unfold param_holds. destruct param as [v|]; cbn [Py.truthy_opt or_empty].
  - unfold Py.truthy. destruct (String.eqb_spec v "") as [->|Hv];
      cbn [negb].
    + split; [intros H; split; [exact H|]|tauto].
      intros value E Hne. inversion E; subst. now elim Hne.
    + rewrite filter_In. split; intros [H1 H2]; split; auto.
      intros value E _. now inversion E; subst.
  - split; [intros H; split; [exact H|]|tauto]. discriminate.
Qed.

(** The project listing, the blog listing and the gallery paginate
    exactly the visible rows that meet the conditions of the request: no
    matching row is left out and no other row gets in.  The conditions
    are an exact match on [type] (projects) or [category] (gallery) and
    a case-insensitive substring match of [search] in the title, the
    description and the technologies of a project, or in the title, the
    content, the tags and the excerpt of a post. *)
Theorem listings_select_exactly (s : Store) (request : HttpRequest) :
  (forall p,
      In p (project_list_queryset s request)
      <-> In p (project_table s)
          /\ Project.is_active p = true
          /\ param_holds (dict_get (GET request) "type")
               (fun v => String.eqb (Project.project_type p) v)
          /\ param_holds (dict_get (GET request) "search")
               (fun v => icontains (Project.title p) v
                         || icontains (quill_json (Project.description p)) v
                         || icontains (Project.technologies p) v))
  /\ (forall b,
      In b (blog_list_queryset s request)
      <-> In b (blog_table s)
          /\ Blog.is_published b = true
          /\ param_holds (dict_get (GET request) "search")
               (fun v => icontains (Blog.title b) v
                         || icontains (quill_json (Blog.content b)) v
                         || icontains (Blog.tags b) v
                         || icontains (Blog.excerpt b) v))
  /\ (forall g,
      In g (gallery_queryset s request)
      <-> In g (gallery_table s)
          /\ Gallery.is_active g = true
          /\ param_holds (dict_get (GET request) "category")
               (fun v => String.eqb (Gallery.category g) v)).
Proof.
  repeat apply conj.
  - intros p. unfold project_list_queryset.
    rewrite (param_holds_filter (dict_get (GET request) "search")
               (fun v p => icontains (Project.title p) v
                           || icontains (quill_json (Project.description p)) v
                           || icontains (Project.technologies p) v)).
    rewrite (param_holds_filter (dict_get (GET request) "type")
               (fun v p => String.eqb (Project.project_type p) v)).
    rewrite order_by_In, filter_In. tauto.
  - intros b. unfold blog_list_queryset.
    rewrite (param_holds_filter (dict_get (GET request) "search")
               (fun v b => icontains (Blog.title b) v
                           || icontains (quill_json (Blog.content b)) v
                           || icontains (Blog.tags b) v
                           || icontains (Blog.excerpt b) v)).
    rewrite order_by_In, filter_In. tauto.
  - intros g. unfold gallery_queryset.
    rewrite (param_holds_filter (dict_get (GET request) "category")
               (fun v g => String.eqb (Gallery.category g) v)).
    rewrite order_by_In, filter_In. tauto.
Qed.

(** ** The order of each listing *)

Lemma order_by_sorted_by {A} (leb : A -> A -> bool) (l : list A) :
  (forall a b, leb a b = true \/ leb b a = true) ->
  (forall a b c, leb a b = true -> leb b c = true -> leb a c = true) ->
  sorted_by leb (QuerySet.order_by leb l).
Proof. intros Ht Htr. now apply order_by_sorted. Qed.

Lemma asc_sorted {A} (key : A -> Z) (l : list A) :
  sorted_by (QuerySet.asc key) (QuerySet.order_by (QuerySet.asc key) l).
Proof.
  apply order_by_sorted_by; unfold QuerySet.asc; intros; lia.
Qed.

Lemma desc_opt_sorted {A} (key : A -> option Z) (l : list A) :
  sorted_by (QuerySet.desc_opt key)
    (QuerySet.order_by (QuerySet.desc_opt key) l).
Proof.
  apply order_by_sorted_by; unfold QuerySet.desc_opt, QuerySet.opt_le.
  - intros a b. destruct (key a), (key b); auto. lia.
  - intros a b c. destruct (key a), (key b), (key c); auto;
      try discriminate. lia.
Qed.

Lemma asc2_sorted {A} (k1 : A -> string) (k2 : A -> Z) (l : list A) :
  sorted_by (QuerySet.asc2 k1 k2)
    (QuerySet.order_by (QuerySet.asc2 k1 k2) l).
Proof.
  apply order_by_sorted_by; unfold QuerySet.asc2.
  - intros a b.
    destruct (String.ltb (k1 a) (k1 b)) eqn:Eab; [now left|].
    destruct (String.ltb (k1 b) (k1 a)) eqn:Eba; [now right|].
    assert (E : k1 a = k1 b).
    { destruct (String.leb_total (k1 a) (k1 b)) as [H|H];
        destruct (string_dec (k1 a) (k1 b)) as [E|E]; auto; exfalso.
      - assert (String.ltb (k1 a) (k1 b) = true)
          by now apply string_ltb_iff.
        congruence.
      - assert (String.ltb (k1 b) (k1 a) = true)
          by (apply string_ltb_iff; split; [exact H|congruence]).
        congruence. }
    rewrite E, String.eqb_refl. cbn [orb andb]. lia.
  - intros a b c H1 H2.
    apply orb_true_iff in H1, H2. apply orb_true_iff.
    destruct H1 as [H1|H1], H2 as [H2|H2].
    + left. apply string_ltb_iff in H1, H2. apply string_ltb_iff.
      destruct H1 as [L1 N1], H2 as [L2 N2].
      split; [now apply string_leb_trans with (k1 b)|].
      intros E. rewrite E in L1. apply N2.
      now apply String.leb_antisym.
    + apply andb_prop in H2. destruct H2 as [E _].
      apply String.eqb_eq in E. left. now rewrite <- E.
    + apply andb_prop in H1. destruct H1 as [E _].
      apply String.eqb_eq in E. left. now rewrite E.
    + apply andb_prop in H1, H2. destruct H1 as [E1 O1], H2 as [E2 O2].
      apply String.eqb_eq in E1, E2. right.
      rewrite E1, E2, String.eqb_refl. cbn [andb]. lia.
Qed.

(** Filtering, limiting and slicing keep the order of a list. *)
Ltac keep_order :=
  unfold sorted_by, page_rows, QuerySet.limit, QuerySet.exclude;
  repeat first
    [ apply StronglySorted_slice
    | apply StronglySorted_firstn
    | apply StronglySorted_filter ].

(** Each listing shows its rows in the order its view asks for:
    services by the [order] field, posts by publication date with the
    latest first (and the undated last), gallery items and testimonials
    by creation time with the newest first, certificates by issue date
    with the latest first. *)
Theorem listings_are_ordered (s : Store) (request : HttpRequest) :
  (exists pg,
      services s request
      = Return (render "portfolio/services.html" (ServicesContext pg))
      /\ sorted_by (QuerySet.asc Service.order)
           (Paginator.page_object_list pg))
  /\ (exists c,
      blog_list s request
      = Return (render "portfolio/blog.html" (BlogListContext c))
      /\ sorted_by (QuerySet.desc_opt Blog.published_date)
           (Paginator.page_object_list (BlogList.page_obj c)))
  /\ (exists c,
      gallery s request
      = Return (render "portfolio/gallery.html" (GalleryContext c))
      /\ newest_first Gallery.created_at
           (Paginator.page_object_list (GalleryPage.page_obj c)))
  /\ (exists pg,
      testimonials s request
      = Return (render "portfolio/testimonials.html"
                  (TestimonialsContext pg))
      /\ newest_first Testimonial.created_at
           (Paginator.page_object_list pg))
  /\ (exists l,
      certificates s request
      = Return (render "portfolio/certificates.html"
                  (CertificatesContext l))
      /\ newest_first Certificate.issue_date l).
Proof.
  repeat apply conj.
  - unfold services. run_get_page. eexists. split; [reflexivity|]. fields.
    unfold services_queryset. keep_order. apply asc_sorted.
  - unfold blog_list. run_get_page. eexists. split; [reflexivity|]. fields.
    unfold blog_list_queryset.
    destruct (Py.truthy_opt (dict_get (GET request) "search"));
      keep_order; apply desc_opt_sorted.
  - unfold gallery. run_get_page. eexists. split; [reflexivity|]. fields.
    unfold gallery_queryset, newest_first.
    destruct (Py.truthy_opt (dict_get (GET request) "category"));
      keep_order; apply order_by_desc_newest_first.
  - unfold testimonials. run_get_page.
    eexists. split; [reflexivity|]. fields.
    unfold testimonials_queryset, newest_first. keep_order.
    apply order_by_desc_newest_first.
  - unfold certificates. eexists. split; [reflexivity|].
    apply order_by_desc_newest_first.
Qed.

(** ** Buckets of a list sorted by category *)

Section SortedBuckets.
Context {A : Type}.
Variable category : A -> string.
Variable order : A -> Z.

Let by_category (a b : A) : Prop :=
  String.leb (category a) (category b) = true.

Lemma asc2_by_category (l : list A) :
  sorted_by (QuerySet.asc2 category order) l ->
  StronglySorted by_category l.
Proof.
  unfold sorted_by. induction 1 as [|x l Hl IH Hx]; constructor; auto.
  eapply Forall_impl; [|exact Hx]. intros y Hy. unfold by_category.
  unfold QuerySet.asc2 in Hy. apply orb_true_iff in Hy.
  destruct Hy as [Hy|Hy].
  - now apply string_ltb_iff in Hy.
  - apply andb_prop in Hy. destruct Hy as [E _].
    apply String.eqb_eq in E. rewrite E. apply string_leb_iff. now left.
Qed.

Lemma filter_all_keys (f : string -> bool) (keys : list string) :
  (forall k, In k keys -> f k = true) -> filter f keys = keys.
Proof.
  induction keys as [|a keys IH]; simpl; intros H; [reflexivity|].
  rewrite (H a) by (now left). f_equal. apply IH. intros z Hz.
  apply H. now right.
Qed.

Lemma other_keys_again (k : string) (keys : list string) :
  filter (fun k' => negb (String.eqb k' k))
    (k :: filter (fun k' => negb (String.eqb k' k)) keys)
  = filter (fun k' => negb (String.eqb k' k)) keys.
Proof.
  cbn [filter]. rewrite String.eqb_refl. cbn [negb].
  induction keys as [|a keys IH]; [reflexivity|]. cbn [filter].
  destruct (negb (String.eqb a k)) eqn:E; [|exact IH].
  cbn [filter]. rewrite E. now f_equal.
Qed.

Lemma grouped_flatten (l : list A) :
  StronglySorted by_category l ->
  List.concat (map snd (grouped category l)) = l.
Proof.
  unfold grouped. rewrite map_map. cbn [snd].
  induction 1 as [|x l Hl IH Hx]; [reflexivity|].
  cbn [map first_seen List.concat filter]. rewrite String.eqb_refl.
  cbn [app]. f_equal.
  set (K := first_seen (map category l)) in *.
  assert (Hrest : forall ks,
             map (fun k => filter (fun y => String.eqb (category y) k)
                             (x :: l))
                 (filter (fun k' => negb (String.eqb k' (category x))) ks)
             = map (fun k => filter (fun y => String.eqb (category y) k) l)
                   (filter (fun k' => negb (String.eqb k' (category x)))
                      ks)).
  { intros ks. apply map_ext_in. intros k Hk. apply filter_In in Hk.
    destruct Hk as [_ Hk]. cbn [filter].
    rewrite String.eqb_sym. apply negb_true_iff in Hk. now rewrite Hk. }
  rewrite Hrest. clear Hrest.
  destruct (in_dec string_dec (category x) K) as [Hin|Hout].
  - (* the category of [x] opens the rest of the list *)
    destruct l as [|y l']; [contradiction|].
    assert (Ey : category y = category x).
    { apply (proj1 (first_seen_In _ _)) in Hin.
      apply in_map_iff in Hin. destruct Hin as [z [Ez Hz]].
      inversion Hx as [|? ? Hxy Hxl]; subst.
      apply String.leb_antisym; [|exact Hxy].
      rewrite <- Ez. destruct Hz as [->|Hz].
      - apply string_leb_iff. now left.
      - inversion Hl as [|? ? _ Hyl]; subst.
        rewrite Forall_forall in Hyl. now apply Hyl. }
    revert IH. unfold K. cbn [map first_seen List.concat]. rewrite Ey.
    rewrite other_keys_again. intros IH. exact IH.
  - rewrite (filter_none
               (fun y => String.eqb (category y) (category x)) l).
    2:{ intros z Hz. apply String.eqb_neq. intros E. apply Hout.
        apply first_seen_In. rewrite <- E. now apply in_map. }
    rewrite (filter_all_keys _ K); [exact IH|].
    intros k Hk. apply negb_true_iff, String.eqb_neq. intros E.
    apply Hout. now rewrite <- E.
Qed.

Lemma first_seen_strict (keys : list string) :
  StronglySorted (fun a b => String.leb a b = true) keys ->
  StronglySorted (fun a b => String.ltb a b = true) (first_seen keys).
Proof.
  induction 1 as [|k keys Hk IH Hall]; cbn [first_seen]; constructor.
  - now apply StronglySorted_filter.
  - apply Forall_forall. intros e He. apply filter_In in He.
    destruct He as [He Hne]. apply (proj1 (first_seen_In _ _)) in He.
    rewrite Forall_forall in Hall. apply string_ltb_iff. split; auto.
    apply negb_true_iff, String.eqb_neq in Hne. congruence.
Qed.

Lemma grouped_keys_strict (l : list A) :
  StronglySorted by_category l ->
  StronglySorted (fun a b => String.ltb a b = true)
    (map fst (grouped category l)).
Proof.
  intros H. rewrite grouped_keys. apply first_seen_strict.
  induction H as [|x l Hl IH Hx]; cbn [map]; constructor; auto.
  apply Forall_forall. intros k Hk. apply in_map_iff in Hk.
  destruct Hk as [y [<- Hy]]. rewrite Forall_forall in Hx. now apply Hx.
Qed.

Lemma grouped_buckets (l : list A) :
  sorted_by (QuerySet.asc2 category order) l ->
  Forall (fun kv =>
            snd kv <> []
            /\ Forall (fun x => category x = fst kv) (snd kv)
            /\ sorted_by (QuerySet.asc order) (snd kv))
    (grouped category l).
Proof.
  intros Hs. apply Forall_forall. intros [k b] Hkb.
  unfold grouped in Hkb. apply in_map_iff in Hkb.
  destruct Hkb as [k' [E Hk]]. inversion E; subst. cbn [fst snd].
  assert (Hcat : Forall (fun x => category x = k)
                   (filter (fun x => String.eqb (category x) k) l)).
  { apply Forall_forall. intros x Hx. apply filter_In in Hx.
    now apply String.eqb_eq. }
  repeat split; [|exact Hcat|].
  - apply (proj1 (first_seen_In _ _)) in Hk. apply in_map_iff in Hk.
    destruct Hk as [x [Ex Hx]]. intros E'.
    assert (Hin : In x (filter (fun x => String.eqb (category x) k) l)).
    { apply filter_In. split; [exact Hx|]. now apply String.eqb_eq. }
    rewrite E' in Hin. contradiction.
  - assert (Hf : sorted_by (QuerySet.asc2 category order)
                   (filter (fun x => String.eqb (category x) k) l))
      by now apply StronglySorted_filter.
    revert Hcat Hf. unfold sorted_by.
    generalize (filter (fun x => String.eqb (category x) k) l) as r.
    induction r as [|x r IH]; intros Hcat Hf; constructor.
    + inversion Hcat; inversion Hf; subst. now apply IH.
    + inversion Hcat as [|? ? Cx Cr]; inversion Hf as [|? ? _ Hx]; subst.
      rewrite Forall_forall in *. intros y Hy.
      specialize (Hx y Hy). specialize (Cr y Hy).
      unfold QuerySet.asc2 in Hx. unfold QuerySet.asc.
      apply orb_true_iff in Hx. destruct Hx as [Hx|Hx].
      * apply string_ltb_iff in Hx. destruct Hx as [_ Hx]. congruence.
      * apply andb_prop in Hx. tauto.
Qed.
End SortedBuckets.

Lemma home_buckets (s : Store) (request : HttpRequest) :
  exists c,
    home s request = Return (render "portfolio/home.html" (HomeContext c))
    /\ StronglySorted (fun a b => String.ltb a b = true)
         (map fst (Home.skills_by_category c))
    /\ Forall (fun kv =>
                 snd kv <> []
                 /\ Forall (fun x => Skill.category x = fst kv) (snd kv)
                 /\ sorted_by (QuerySet.asc Skill.order) (snd kv))
         (Home.skills_by_category c)
    /\ List.concat (map snd (Home.skills_by_category c))
       = QuerySet.order_by (QuerySet.asc2 Skill.category Skill.order)
           (filter Skill.is_active (skill_table s))
    /\ Home.skills c
       = QuerySet.order_by (QuerySet.asc2 Skill.category Skill.order)
           (filter Skill.is_active (skill_table s)).
Proof.
  unfold home. eexists. split; [reflexivity|]. fields.
  rewrite group_by_grouped.
  pose proof (asc2_sorted Skill.category Skill.order
                (filter Skill.is_active (skill_table s))) as Hs.
  repeat apply conj.
  - eapply grouped_keys_strict, asc2_by_category, Hs.
  - now apply grouped_buckets.
  - eapply grouped_flatten, asc2_by_category, Hs.
  - reflexivity.
Qed.

(** The FAQ page and the skills of the home page: the categories come
    in ascending order of their code, no bucket is empty, each bucket
    holds rows of its own category only, in ascending order of the
    [order] field, and the buckets read one after the other give back
    the sorted list of active rows, so that every active row is shown
    exactly once.  For the home page, which is cached, the rows are
    those of the store its response was computed from. *)
Theorem grouped_pages_are_ordered
  (cache_key : string -> HttpRequest -> string) (history : list visit)
  (now : Z) (s : Store) (request : HttpRequest) :
  (exists c,
      faq_list s request
      = Return (render "portfolio/faq.html" (FaqListContext c))
      /\ StronglySorted (fun a b => String.ltb a b = true)
           (map fst (FaqList.faqs_by_category c))
      /\ Forall (fun kv =>
                   snd kv <> []
                   /\ Forall (fun f => FAQ.category f = fst kv) (snd kv)
                   /\ sorted_by (QuerySet.asc FAQ.order) (snd kv))
           (FaqList.faqs_by_category c)
      /\ List.concat (map snd (FaqList.faqs_by_category c))
         = QuerySet.order_by (QuerySet.asc2 FAQ.category FAQ.order)
             (filter FAQ.is_active (faq_table s)))
  /\ (exists s0 request0 c,
      snd (cached_home cache_key (cache_after cache_key history) now s
             request)
      = Return (render "portfolio/home.html" (HomeContext c))
      /\ computed_from history now s request s0 request0
      /\ StronglySorted (fun a b => String.ltb a b = true)
           (map fst (Home.skills_by_category c))
      /\ Forall (fun kv =>
                   snd kv <> []
                   /\ Forall (fun x => Skill.category x = fst kv) (snd kv)
                   /\ sorted_by (QuerySet.asc Skill.order) (snd kv))
           (Home.skills_by_category c)
      /\ List.concat (map snd (Home.skills_by_category c))
         = QuerySet.order_by (QuerySet.asc2 Skill.category Skill.order)
             (filter Skill.is_active (skill_table s0))
      /\ Home.skills c
         = QuerySet.order_by (QuerySet.asc2 Skill.category Skill.order)
             (filter Skill.is_active (skill_table s0))).
Proof.
  split.
  - unfold faq_list. eexists. split; [reflexivity|]. fields.
    rewrite group_by_grouped.
    pose proof (asc2_sorted FAQ.category FAQ.order
                  (filter FAQ.is_active (faq_table s))) as Hs.
    repeat apply conj.
    + eapply grouped_keys_strict, asc2_by_category, Hs.
    + now apply grouped_buckets.
    + eapply grouped_flatten, asc2_by_category, Hs.
  - destruct (cached_home_replays cache_key history now s request)
      as (s0 & request0 & E & Hc).
    destruct (home_buckets s0 request0) as (c & Eh & H).
    exists s0, request0, c. rewrite E. split; [exact Eh|].
    split; [exact Hc|exact H].
Qed.

(** ** The home page *)

Lemma split_from_head (sep : ascii) (cur s : string) :
  exists before rest,
    hd "" (Py.split_from sep cur s) = (cur ++ before)%string
    /\ s = (before ++ rest)%string
    /\ ~ In sep (list_ascii_of_string before)
    /\ (rest = "" \/ exists rest', rest = String sep rest').
Proof.
  revert cur. induction s as [|c s IH]; intros cur; cbn [Py.split_from].
  - exists "", "". cbn. repeat split; auto.
    clear. induction cur; cbn; congruence.
  - destruct (Ascii.eqb_spec c sep) as [->|Hc].
    + exists "", (String sep s). cbn. repeat split; eauto.
      clear. induction cur; cbn; congruence.
    + destruct (IH (cur ++ String c "")%string)
        as (before & rest & H1 & H2 & H3 & H4).
      exists (String c before), rest. repeat split; auto.
      * rewrite H1. clear. induction cur; cbn; congruence.
      * cbn. now rewrite H2.
      * cbn. intros [E|E]; [congruence|contradiction].
Qed.

(** What the function [home] puts on the page. *)
Lemma home_lists (s : Store) (request request' : HttpRequest) :
  dict_get (GET request') "page" = None ->
  exists c,
    home s request = Return (render "portfolio/home.html" (HomeContext c))
    /\ (List.length (Home.services c) <= 6
        /\ List.length (Home.featured_projects c) <= 4
        /\ List.length (Home.testimonials c) <= 5
        /\ List.length (Home.blog_posts c) <= 3
        /\ List.length (Home.faq c) <= 5
        /\ List.length (Home.gallery_items c) <= 8
        /\ List.length (Home.certificates c) <= 3)%nat
    /\ all_set Project.is_featured (Home.featured_projects c)
    /\ newest_first Project.created_at (Home.featured_projects c)
    /\ all_set Testimonial.is_featured (Home.testimonials c)
    /\ newest_first Testimonial.created_at (Home.testimonials c)
    /\ services s request'
       = Return (render "portfolio/services.html"
                   (ServicesContext
                      {| Paginator.page_object_list := Home.services c;
                         Paginator.number := 1;
                         Paginator.paginator :=
                           Paginator.make (services_queryset s) 6 |}))
    /\ Forall (fun post_tag =>
                 let tags := Blog.tags (fst post_tag) in
                 (tags = "" -> snd post_tag = "General")
                 /\ (tags <> "" ->
                     ~ In ","%char (list_ascii_of_string (snd post_tag))
                     /\ exists rest,
                          tags = (snd post_tag ++ rest)%string
                          /\ (rest = ""
                              \/ exists rest', rest = String "," rest')))
         (Home.blog_posts c).
Proof.
  intros Hpage. unfold home. eexists. split; [reflexivity|]. fields.
  repeat apply conj;
    try (unfold QuerySet.limit; rewrite ?length_map, length_firstn; lia).
  - keep_flag.
  - unfold newest_first. keep_order. apply order_by_desc_newest_first.
  - keep_flag.
  - unfold newest_first. keep_order. apply order_by_desc_newest_first.
  - unfold services. rewrite Hpage. run_get_page.
    unfold resolved_page, of_param, py_int, page_rows, Py.slice,
      QuerySet.limit, services_queryset.
    set (rows := QuerySet.order_by _ _).
    change ((1 - 1) * 6) with 0. change (Z.to_nat 0) with 0%nat.
    cbn [skipn]. rewrite Z.sub_0_r.
    replace (firstn (Z.to_nat (Z.min (1 * 6) (Z.of_nat (List.length rows))))
               rows)
      with (firstn 6 rows); [reflexivity|].
    destruct (Z.min_spec (1 * 6) (Z.of_nat (List.length rows)))
      as [[H ->]|[H ->]]; [reflexivity|].
    rewrite Nat2Z.id, firstn_all. apply firstn_all2. lia.
  - apply Forall_forall. intros [post tag] H. apply in_map_iff in H.
    destruct H as [p [E _]]. inversion E; subst. cbn [fst snd].
    unfold first_tag, Py.truthy.
    destruct (String.eqb_spec (Blog.tags post) "") as [E0|E0]; cbn [negb].
    + split; [reflexivity|congruence].
    + split; [congruence|]. intros _.
      destruct (split_from_head "," "" (Blog.tags post))
        as (before & rest & H1 & H2 & H3 & H4).
      unfold Py.split. rewrite H1. cbn [String.append].
      split; [exact H3|]. now exists rest.
Qed.

(** The home page shows at most six services, four projects, five
    testimonials, three posts, five FAQs, eight gallery items and three
    certificates; its projects and testimonials are the featured ones,
    newest first; its services are those of the first page of the
    services listing.  The [first_tag] of a post is [General] when the
    post has no tags, and otherwise the text of [tags] before its first
    comma.  The page is cached: the services listing meant is that of
    the store the response was computed from, the store of the request
    unless the cache answers. *)
Theorem home_page_lists
  (cache_key : string -> HttpRequest -> string) (history : list visit)
  (now : Z) (s : Store) (request request' : HttpRequest) :
  dict_get (GET request') "page" = None ->
  exists s0 request0 c,
    snd (cached_home cache_key (cache_after cache_key history) now s
           request)
    = Return (render "portfolio/home.html" (HomeContext c))
    /\ computed_from history now s request s0 request0
    /\ (List.length (Home.services c) <= 6
        /\ List.length (Home.featured_projects c) <= 4
        /\ List.length (Home.testimonials c) <= 5
        /\ List.length (Home.blog_posts c) <= 3
        /\ List.length (Home.faq c) <= 5
        /\ List.length (Home.gallery_items c) <= 8
        /\ List.length (Home.certificates c) <= 3)%nat
    /\ all_set Project.is_featured (Home.featured_projects c)
    /\ newest_first Project.created_at (Home.featured_projects c)
    /\ all_set Testimonial.is_featured (Home.testimonials c)
    /\ newest_first Testimonial.created_at (Home.testimonials c)
    /\ services s0 request'
       = Return (render "portfolio/services.html"
                   (ServicesContext
                      {| Paginator.page_object_list := Home.services c;
                         Paginator.number := 1;
                         Paginator.paginator :=
                           Paginator.make (services_queryset s0) 6 |}))
    /\ Forall (fun post_tag =>
                 let tags := Blog.tags (fst post_tag) in
                 (tags = "" -> snd post_tag = "General")
                 /\ (tags <> "" ->
                     ~ In ","%char (list_ascii_of_string (snd post_tag))
                     /\ exists rest,
                          tags = (snd post_tag ++ rest)%string
                          /\ (rest = ""
                              \/ exists rest', rest = String "," rest')))
         (Home.blog_posts c).
Proof.
  intros Hpage.
  destruct (cached_home_replays cache_key history now s request)
    as (s0 & request0 & E & Hc).
  destruct (home_lists s0 request0 request' Hpage) as (c & Eh & H).
  exists s0, request0, c. rewrite E. split; [exact Eh|].
  split; [exact Hc|exact H].
Qed.

(** The home page of the sample store, computed on an empty cache, and
    the first page of its services listing. *)
Lemma home_page_lists_witness :
  exists c,
    snd (cached_home Sample.cache_key [] 100 Sample.catalogue
           (Sample.get []))
    = Return (render "portfolio/home.html" (HomeContext c))
    /\ map Service.id (Home.services c) = [8; 7; 6; 5; 4; 3]%N
    /\ map Project.id (Home.featured_projects c) = [10; 8; 6; 4]%N
    /\ map snd (Home.blog_posts c) = ["a"; "a"; "a"]
    /\ services Sample.catalogue (Sample.get [])
       = Return (render "portfolio/services.html"
                   (ServicesContext
                      {| Paginator.page_object_list := Home.services c;
                         Paginator.number := 1;
                         Paginator.paginator :=
                           Paginator.make
                             (services_queryset Sample.catalogue) 6 |})).
Proof.
  destruct (home_page_lists Sample.cache_key [] 100 Sample.catalogue
              (Sample.get []) (Sample.get []) eq_refl)
    as (s0 & request0 & c & E & Hc & _ & _ & _ & _ & _ & Hs & _).
  destruct Hc as [[-> ->]|(v & [] & _)].
  exists c. split; [exact E|].
  split; [|split; [|split; [|exact Hs]]];
    vm_compute in E; inversion E; reflexivity.
Defined.

(** ** Visits of a post *)

(** Beside the post itself, the detail page of a published post shows
    up to three other posts: each of them is published, none is the
    post itself, and they come latest first.  (The page is served: the
    counter of the post, once raised, fits its column.) *)
Theorem related_blogs_published_latest_first
  (column : IntegerField.range) (now : Z) (s : Store)
  (request : HttpRequest) (b : Blog.t) :
  unique Blog.id (blog_table s) ->
  unique Blog.slug (blog_table s) ->
  In b (blog_table s) ->
  Blog.is_published b = true ->
  IntegerField.fits column (Blog.views b + 1) = true ->
  exists s' c,
    blog_detail column now s request (Blog.slug b)
    = (s', Return (render "portfolio/blog_detail.html"
                     (BlogDetailContext c)))
    /\ Forall (fun q => In q (blog_table s)
                        /\ Blog.is_published q = true
                        /\ Blog.id q <> Blog.id b)
         (BlogDetail.related_blogs c)
    /\ (List.length (BlogDetail.related_blogs c) <= 3)%nat
    /\ sorted_by (QuerySet.desc_opt Blog.published_date)
         (BlogDetail.related_blogs c).
Proof.
  intros Hid Hslug Hin Hpub Hfit.
  destruct (blog_detail_table column now s request b
              Hid Hslug Hin Hpub Hfit)
    as (c & E & _ & Er).
  rewrite E. do 2 eexists. split; [reflexivity|]. rewrite Er.
  repeat apply conj.
  - apply Forall_forall. intros q Hq. unfold QuerySet.limit in Hq.
    apply In_firstn in Hq. apply order_by_In in Hq.
    unfold QuerySet.exclude in Hq.
    apply filter_In in Hq. destruct Hq as [Hq Hne].
    apply filter_In in Hq. destruct Hq as [Hq Hp].
    apply negb_true_iff, N.eqb_neq in Hne.
    apply in_map_iff in Hq. destruct Hq as [x [Ex Hx]].
    unfold visited in Ex.
    destruct (String.eqb_spec (Blog.slug x) (Blog.slug b)) as [Es|_].
    + elim Hne. rewrite <- Ex. cbn.
      now rewrite (unique_key_eq Blog.slug (blog_table s) x b).
    + subst q. auto.
  - unfold QuerySet.limit. rewrite length_firstn. lia.
  - keep_order. apply desc_opt_sorted.
Qed.

Lemma related_blogs_witness :
  exists s' c,
    blog_detail IntegerField.sqlite 100 Sample.catalogue (Sample.get [])
      "post4"
    = (s', Return (render "portfolio/blog_detail.html"
                     (BlogDetailContext c)))
    /\ map Blog.slug (BlogDetail.related_blogs c)
       = ["post8"; "post7"; "post6"]
    /\ sorted_by (QuerySet.desc_opt Blog.published_date)
         (BlogDetail.related_blogs c).
Proof.
  destruct (related_blogs_published_latest_first IntegerField.sqlite 100
              Sample.catalogue (Sample.get [])
              (Sample.blog 4%N "post4" true (Some 4) 0 "a, b"))
    as (s' & c & E & _ & _ & Hs).
  - distinct.
  - distinct.
  - cbn. tauto.
  - reflexivity.
  - reflexivity.
  - exists s', c. split; [exact E|]. split; [|exact Hs].
    vm_compute in E. inversion E. reflexivity.
Defined.

(** [n] requests for the detail page of a published post, served one
    after the other, add exactly [n] to the counter of that post when
    the counter so raised still fits its column; every other post is
    left as it was, and no post is added or removed. *)
Theorem visits_add_up
  (column : IntegerField.range) (clock : nat -> Z) (n : nat) (s : Store)
  (request : HttpRequest) (b : Blog.t) :
  unique Blog.id (blog_table s) ->
  unique Blog.slug (blog_table s) ->
  In b (blog_table s) ->
  Blog.is_published b = true ->
  IntegerField.min_value column <= Blog.views b + 1 ->
  Blog.views b + Z.of_nat n <= IntegerField.max_value column ->
  Forall2 (fun old new =>
             Blog.id new = Blog.id old
             /\ Blog.slug new = Blog.slug old
             /\ Blog.is_published new = Blog.is_published old
             /\ if String.eqb (Blog.slug old) (Blog.slug b)
                then Blog.views new = Blog.views old + Z.of_nat n
                else new = old)
    (blog_table s)
    (blog_table (visits column clock n s request (Blog.slug b))).
Proof.
  intros Hid Hslug Hin Hpub Hmin Hmax. induction n as [|n IH].
  - cbn [visits]. clear. induction (blog_table s) as [|x l IHl];
      constructor; auto.
    repeat split. destruct (String.eqb _ _); [cbn; lia|reflexivity].
  - specialize (IH ltac:(lia)).
    cbn [visits].
    set (sn := visits column clock n s request (Blog.slug b)) in *.
    assert (Hmap : map Blog.id (blog_table sn) = map Blog.id (blog_table s)
                   /\ map Blog.slug (blog_table sn)
                      = map Blog.slug (blog_table s)).
    { clear -IH. induction IH as [|x y l l' (H1 & H2 & _) _ IHl];
        [now split|].
      cbn [map]. destruct IHl as [-> ->]. now rewrite H1, H2. }
    destruct Hmap as [Hmi Hms].
    assert (Hb : exists bn, In bn (blog_table sn)
                            /\ Blog.slug bn = Blog.slug b
                            /\ Blog.is_published bn = true
                            /\ Blog.views bn = Blog.views b + Z.of_nat n).
    { assert (Hu : forall x, In x (blog_table s) ->
                             Blog.slug x = Blog.slug b -> x = b).
      { intros x Hx Ex.
        now apply (unique_key_eq Blog.slug (blog_table s)). }
      clear -IH Hin Hpub Hu.
      induction IH as [|x y l l' (H1 & H2 & H3 & H4) _ IHl];
        [contradiction|].
      destruct Hin as [->|Hin].
      - exists y. split; [now left|]. rewrite String.eqb_refl in H4.
        repeat split; congruence.
      - destruct IHl as (bn & Hbn & Hs); [exact Hin| |].
        + intros z Hz. apply Hu. now right.
        + exists bn. split; [now right|exact Hs]. }
    destruct Hb as (bn & Hbn & Hsn & Hpn & Hvn).
    destruct (blog_detail_table column (clock n) sn request bn)
      as (c & E & _); try assumption.
    { unfold unique. now rewrite Hmi. }
    { unfold unique. now rewrite Hms. }
    { unfold IntegerField.fits. rewrite Hvn.
      apply andb_true_intro. split; apply Z.leb_le; lia. }
    rewrite Hsn in E. rewrite E. cbn [fst blog_table set_blog_table].
    clear -IH. induction IH as [|x y l l' (H1 & H2 & H3 & H4) _ IHl];
      cbn [map]; constructor; [|exact IHl].
    destruct (visited_keys (Blog.slug b) (clock n) y) as (K1 & K2 & K3 & _).
    rewrite K1, K2, K3. repeat split; try assumption.
    unfold visited. rewrite H2.
    destruct (String.eqb (Blog.slug x) (Blog.slug b)).
    + cbn [Blog.views Blog.set_updated_at Blog.set_views]. lia.
    + exact H4.
Qed.

Lemma visits_add_up_witness :
  Forall2 (fun old new =>
             Blog.id new = Blog.id old
             /\ Blog.slug new = Blog.slug old
             /\ Blog.is_published new = Blog.is_published old
             /\ if String.eqb (Blog.slug old) (Blog.slug Sample.b_hello)
                then Blog.views new = Blog.views old + Z.of_nat 3
                else new = old)
    (blog_table Sample.journal)
    (blog_table (visits IntegerField.postgresql (fun k => 100 + Z.of_nat k)
                   3 Sample.journal (Sample.get [])
                   (Blog.slug Sample.b_hello))).
Proof.
  apply (visits_add_up IntegerField.postgresql
           (fun k => 100 + Z.of_nat k) 3 Sample.journal
           (Sample.get []) Sample.b_hello).
  - distinct.
  - distinct.
  - cbn. tauto.
  - reflexivity.
  - vm_compute. discriminate.
  - vm_compute. discriminate.
Defined.

(** ** What the contact page leaves alone *)

Lemma fst_if {A B} (b : bool) (x : A) (y z : B) :
  fst (if b then (x, y) else (x, z)) = x.
Proof. now destruct b. Qed.

(** The contact page writes to the table of messages only, and only at
    its end: every message stored before is still there, unchanged and
    in place, at most one message follows them, and the other nine
    tables are as they were.  A request that is not a POST stores
    nothing and shows an empty form with no error. *)
Theorem contact_only_appends
  (validate_email : string -> bool)
  (clean_ipv6_address : string -> option string) (uuid : UUID) (now : Z)
  (s : Store)
  (request : HttpRequest) :
  let s' := fst (contact validate_email clean_ipv6_address uuid now s request) in
  (exists added,
      contact_table s' = (contact_table s ++ added)%list
      /\ (List.length added <= 1)%nat
      /\ Forall (fun m => ContactMessage.id m = uuid
                          /\ ContactMessage.created_at m = now
                          /\ ContactMessage.updated_at m = now) added)
  /\ about_table s' = about_table s
  /\ service_table s' = service_table s
  /\ project_table s' = project_table s
  /\ blog_table s' = blog_table s
  /\ gallery_table s' = gallery_table s
  /\ testimonial_table s' = testimonial_table s
  /\ certificate_table s' = certificate_table s
  /\ skill_table s' = skill_table s
  /\ faq_table s' = faq_table s
  /\ (String.eqb (method request) "POST" = false ->
      contact validate_email clean_ipv6_address uuid now s request
      = (s, Return (render "portfolio/contact.html"
                      (ContactContext (ContactForm.make None))))
      /\ ContactForm.errors validate_email (ContactForm.make None) = []).
Proof.
  unfold contact. cbv zeta.
  destruct (String.eqb (method request) "POST").
  - destruct (ContactForm.is_valid validate_email _).
    + rewrite fst_if. unfold ContactMessage_insert.
      cbn [ContactForm.save_commit_false ContactMessage.id
           ContactMessage.name ContactMessage.email ContactMessage.subject
           ContactMessage.message ContactMessage.status
           ContactMessage.created_at ContactMessage.updated_at].
      repeat apply conj; try reflexivity; try discriminate.
      eexists. split; [reflexivity|]. split; [cbn; lia|].
      repeat constructor.
    + cbn [fst]. repeat apply conj; try reflexivity; try discriminate.
      exists []. rewrite app_nil_r. repeat split; auto.
  - cbn [fst]. repeat apply conj; try reflexivity.
    + exists []. rewrite app_nil_r. repeat split; auto.
    + intros _. split; reflexivity.
Qed.

(** ** The JSON project listing *)

Lemma page_below_one {A} (p : Paginator.t A) (n : Z) :
  n < 1 -> Paginator.page p (PyInt n) = Raise EmptyPage.
Proof.
  intros Hn. unfold Paginator.page, Paginator.validate_number.
  cbn [py_int bind]. destruct (Z.ltb_spec n 1); [reflexivity|lia].
Qed.

Lemma api_projects_page_served (s : Store) (request : HttpRequest)
  (n per_page : Z) :
  py_int (param_or request "page" 1) = Return n ->
  py_int (param_or request "per_page" 9) = Return per_page ->
  0 < per_page < 2 ^ 1075 ->
  let rows := api_projects_queryset s in
  let last := last_page per_page (Z.of_nat (List.length rows)) in
  let current := if (1 <=? n) && (n <=? last) then n else 1 in
  api_projects_page s request
  = Return {| Paginator.page_object_list := page_rows per_page rows current;
              Paginator.number := current;
              Paginator.paginator := Paginator.make rows per_page |}
  /\ 1 <= current <= last.
Proof.
  intros Hpage Hper [Hp Hf]. cbv zeta. unfold api_projects_page.
  rewrite Hpage, Hper. cbn [bind].
  pose proof (last_page_bounds (api_projects_queryset s) per_page Hp)
    as (H1 & _).
  set (last := last_page per_page _) in *.
  destruct (Z.leb_spec 1 n) as [Hn|Hn]; cbn [andb].
  - destruct (Z.leb_spec n last) as [Hl|Hl].
    + rewrite page_in_range by (try assumption; fold last; lia).
      split; [reflexivity|lia].
    + rewrite page_beyond by (try assumption; fold last; lia).
      cbn [try_except].
      rewrite page_in_range by (try assumption; fold last; lia).
      split; [reflexivity|lia].
  - rewrite page_below_one by lia. cbn [try_except].
    rewrite page_in_range by (try assumption; fold last; lia).
    split; [reflexivity|lia].
Qed.

(** A GET request whose [page] and [per_page] are integers (or absent:
    1 and 9 then), with [per_page] at least 1 and below [2^1075], gets
    a JSON answer when the descriptions of the projects are Quill
    documents.  Its entries are those of the active projects of one
    page, newest first: the requested page when the listing has it,
    page 1 otherwise.  [total] counts the active projects, [pages] is
    the number of pages, [current] the page served, [has_next] and
    [has_previous] say whether a page follows and whether one precedes.
    An entry shows the address of the image of its project, and no
    address when the project has no image. *)
Theorem api_projects_json
  (s : Store) (request : HttpRequest) (n per_page : Z) :
  method request = "GET" ->
  py_int (param_or request "page" 1) = Return n ->
  py_int (param_or request "per_page" 9) = Return per_page ->
  0 < per_page < 2 ^ 1075 ->
  quill_descriptions (project_table s) ->
  let rows := api_projects_queryset s in
  let total := Z.of_nat (List.length rows) in
  let last := last_page per_page total in
  let current := if (1 <=? n) && (n <=? last) then n else 1 in
  let shown := page_rows per_page rows current in
  (exists entries,
      api_projects s request
      = Return (JsonResponse
                  (ProjectsData entries
                     {| Api.total := total;
                        Api.pages := last;
                        Api.current := current;
                        Api.has_next := current <? last;
                        Api.has_previous := 1 <? current |}))
      /\ api_entries shown entries
      /\ Forall2 (fun p entry =>
                    Api.id entry = Project.id p
                    /\ Some (Api.description entry)
                       = quill_html (Project.description p)
                    /\ Api.featured_image entry
                       = if String.eqb
                              (FieldFile.name (Project.featured_image p)) ""
                         then None
                         else Some (FieldFile.url (Project.featured_image p)))
           shown entries)
  /\ total = Z.of_nat (List.length (filter Project.is_active
                                      (project_table s)))
  /\ Z.of_nat (List.length shown)
     = Z.min per_page (total - (current - 1) * per_page)
  /\ all_set Project.is_active shown
  /\ newest_first Project.created_at shown.
Proof.
  intros Hm Hpage Hper Hpp Hq. cbv zeta.
  destruct (api_projects_page_served s request n per_page Hpage Hper Hpp)
    as [E Hc].
  destruct Hpp as [Hp Hf]. repeat apply conj.
  - set (shown := page_rows per_page (api_projects_queryset s) _) in *.
    destruct (for_each_entries shown) as [entries [Ee He]].
    { eapply quill_descriptions_sub; [|exact Hq].
      intros p Hp'. apply In_page_rows in Hp'.
      now apply api_projects_queryset_In. }
    exists entries. split; [|split; [exact He|]].
    + unfold api_projects. rewrite Hm.
      change (String.eqb "GET" "GET") with true. cbn [negb].
      rewrite E. cbn [bind]. fields. fold shown. rewrite Ee. cbn [bind].
      unfold Paginator.has_next. fields.
      rewrite num_pages_last_page by assumption. cbn [bind].
      unfold Paginator.count, Paginator.has_previous.
      cbn [Paginator.object_list Paginator.number]. reflexivity.
    + eapply Forall2_impl; [|exact He].
      intros p entry Hpe. unfold api_project_entry, Quill_html in Hpe.
      destruct (quill_html (Project.description p)) as [html|];
        [|discriminate].
      cbn [bind] in Hpe. inversion Hpe; subst.
      cbn [Api.id Api.description Api.featured_image].
      unfold Py.truthy.
      destruct (String.eqb (FieldFile.name (Project.featured_image p)) "");
        repeat split; reflexivity.
  - unfold api_projects_queryset. now rewrite order_by_length.
  - now apply page_rows_length.
  - unfold api_projects_queryset. keep_flag.
  - unfold api_projects_queryset, newest_first. keep_order.
    apply order_by_desc_newest_first.
Qed.

Lemma api_projects_json_witness :
  (exists entries,
      api_projects Sample.catalogue
        (Sample.get [("page", "2"); ("per_page", "4")])
      = Return (JsonResponse
                  (ProjectsData entries
                     {| Api.total := 11;
                        Api.pages := 3;
                        Api.current := 2;
                        Api.has_next := true;
                        Api.has_previous := true |}))
      /\ map Api.id entries = [7; 6; 5; 4]%N).
Proof.
  destruct (api_projects_json Sample.catalogue
              (Sample.get [("page", "2"); ("per_page", "4")]) 2 4)
    as [[entries (E & He & _)] _].
  - reflexivity.
  - reflexivity.
  - reflexivity.
  - split; [lia|reflexivity].
  - unfold quill_descriptions. cbn.
    repeat (constructor; [discriminate|]). constructor.
  - exists entries. split; [exact E|].
    vm_compute in E. inversion E. reflexivity.
Defined.

(** An entry shows the label of the type and the address of the image.
    A project whose description is plain text, not a Quill document,
    has no entry, and the listing that meets it fails. *)
Example api_project_entries :
  (exists entry,
      api_project_entry Sample.p_old = Return entry
      /\ Api.project_type entry = "Web Development"
      /\ Api.featured_image entry = Some "/media/old.png")
  /\ api_project_entry Sample.p_plain = Raise QuillParseError
  /\ api_projects (Sample.with_projects [Sample.p_old; Sample.p_plain])
       (Sample.get [])
     = Raise QuillParseError.
Proof.
  split; [eexists; split; [vm_compute; reflexivity|split; reflexivity]|].
  split; vm_compute; reflexivity.
Qed.

(** With [per_page=0] the JSON listing raises [ZeroDivisionError]: the
    page look-up fails inside the [try], and the fall-back to page 1 in
    the [except] branch divides by zero again.  A [per_page] that is
    not a number raises [ValueError], for it is parsed before the
    [try]. *)
Theorem api_projects_bad_per_page
  (s : Store) (request : HttpRequest) (n : Z) (per_page : string) :
  method request = "GET" ->
  py_int (param_or request "page" 1) = Return n ->
  dict_get (GET request) "per_page" = Some per_page ->
  (Py.int per_page = Some 0 ->
   api_projects s request = Raise ZeroDivisionError)
  /\ (Py.int per_page = None -> api_projects s request = Raise ValueError).
Proof.
  intros Hm Hpage Hget. unfold api_projects. rewrite Hm.
  change (String.eqb "GET" "GET") with true. cbn [negb].
  unfold api_projects_page. rewrite Hpage. cbn [bind].
  unfold param_or. rewrite Hget. cbn [py_int].
  split; intros Hper; rewrite Hper; [|reflexivity].
  cbn [bind]. unfold Paginator.page, Paginator.validate_number.
  cbn [py_int bind]. unfold Paginator.num_pages.
  cbn [Paginator.per_page Z.eqb bind].
  destruct (n <? 1); reflexivity.
Qed.

Lemma api_projects_bad_per_page_witness :
  api_projects Sample.portfolio (Sample.get [("per_page", "0")])
  = Raise ZeroDivisionError
  /\ api_projects Sample.portfolio (Sample.get [("per_page", "many")])
     = Raise ValueError.
Proof.
  split.
  - apply (proj1 (api_projects_bad_per_page Sample.portfolio
                    (Sample.get [("per_page", "0")]) 1 "0"
                    eq_refl eq_refl eq_refl)).
    reflexivity.
  - apply (proj2 (api_projects_bad_per_page Sample.portfolio
                    (Sample.get [("per_page", "many")]) 1 "many"
                    eq_refl eq_refl eq_refl)).
    reflexivity.
Defined.

(** ** The tags of the blog listing *)

Lemma lstrip_head (l : list ascii) :
  Py.lstrip l = []
  \/ exists c t, Py.lstrip l = c :: t /\ Py.isspace c = false.
Proof.
  induction l as [|c l IH]; cbn [Py.lstrip]; [now left|].
  destruct (Py.isspace c) eqn:E; [exact IH|].
  right. now exists c, l.
Qed.

Lemma lstrip_fixed (l : list ascii) :
  l = [] \/ (exists c t, l = c :: t /\ Py.isspace c = false) ->
  Py.lstrip l = l.
Proof.
  intros [->|(c & t & -> & E)]; cbn [Py.lstrip]; [reflexivity|].
  now rewrite E.
Qed.

Lemma lstrip_suffix (l : list ascii) :
  exists ws, l = (ws ++ Py.lstrip l)%list.
Proof.
  induction l as [|c l [ws IH]]; cbn [Py.lstrip]; [now exists []|].
  destruct (Py.isspace c).
  - exists (c :: ws). cbn. now rewrite <- IH.
  - now exists [].
Qed.

Lemma rstrip_prefix (l : list ascii) :
  exists ws, l = (Py.rstrip l ++ ws)%list.
Proof.
  unfold Py.rstrip. destruct (lstrip_suffix (rev l)) as [ws E].
  exists (rev ws). rewrite <- rev_app_distr, <- E. now rewrite rev_involutive.
Qed.

Lemma strip_chars_fixed (l : list ascii) :
  let r := Py.rstrip (Py.lstrip l) in
  Py.rstrip (Py.lstrip r) = r.
Proof.
  cbv zeta. set (m := Py.lstrip l). set (r := Py.rstrip m).
  assert (Hl : Py.lstrip r = r).
  { apply lstrip_fixed. destruct r as [|c t] eqn:Er; [now left|].
    right. exists c, t. split; [reflexivity|].
    destruct (rstrip_prefix m) as [ws E]. fold r in E. rewrite Er in E.
    destruct (lstrip_head l) as [H|(c' & t' & H & Hc)]; fold m in H;
      rewrite H in E; cbn in E; [discriminate|].
    now inversion E; subst. }
  rewrite Hl. unfold Py.rstrip at 1.
  assert (Hr : Py.lstrip (rev r) = rev r).
  { unfold r, Py.rstrip. rewrite rev_involutive.
    apply lstrip_fixed. destruct (lstrip_head (rev m)) as [H|H];
      [left|right]; exact H. }
  rewrite Hr. apply rev_involutive.
Qed.

Lemma strip_idempotent (s : string) : Py.strip (Py.strip s) = Py.strip s.
Proof.
  unfold Py.strip. rewrite list_ascii_of_string_of_list_ascii.
  now rewrite strip_chars_fixed.
Qed.

Lemma sorted_set_In (t : string) (l : list string) :
  In t (sorted_set l) <-> In t l.
Proof. unfold sorted_set. now rewrite order_by_In, nodup_In. Qed.

Lemma sorted_set_strict (l : list string) :
  StronglySorted (fun a b => String.ltb a b = true) (sorted_set l).
Proof.
  unfold sorted_set.
  assert (Hnd : NoDup (QuerySet.order_by String.leb (nodup string_dec l))).
  { eapply Permutation_NoDup; [apply order_by_Permutation|].
    apply NoDup_nodup. }
  pose proof (order_by_sorted String.leb String.leb_total string_leb_trans
                (nodup string_dec l)) as Hs.
  revert Hnd Hs. generalize (QuerySet.order_by String.leb
                               (nodup string_dec l)) as r.
  induction r as [|a r IH]; intros Hnd Hs; constructor.
  - inversion Hnd; inversion Hs; subst. now apply IH.
  - inversion Hnd as [|? ? Ha _]; inversion Hs as [|? ? _ Hall]; subst.
    rewrite Forall_forall in *. intros b Hb. apply string_ltb_iff.
    split; [now apply Hall|]. intros ->. contradiction.
Qed.

(** The tag list of the blog listing holds the tags of all the posts
    that match the request, not only of those on the page shown: a tag
    is in the list exactly when it is a piece of the comma-separated
    [tags] of such a post, stripped of surrounding white space and not
    empty.  The list is in strictly ascending order (so no tag comes
    twice), and no tag in it is empty or has white space around it. *)
Theorem blog_list_tags (s : Store) (request : HttpRequest) :
  exists c,
    blog_list s request
    = Return (render "portfolio/blog.html" (BlogListContext c))
    /\ (forall t,
          In t (BlogList.all_tags c)
          <-> exists b piece,
                In b (blog_list_queryset s request)
                /\ In piece (Py.split "," (Blog.tags b))
                /\ t = Py.strip piece /\ t <> "")
    /\ StronglySorted (fun a b => String.ltb a b = true)
         (BlogList.all_tags c)
    /\ Forall (fun t => t <> "" /\ Py.strip t = t) (BlogList.all_tags c).
Proof.
  unfold blog_list. run_get_page. eexists. split; [reflexivity|].
  cbn [BlogList.all_tags].
  assert (M : forall t,
             In t (sorted_set (flat_map tags_of
                                 (blog_list_queryset s request)))
             <-> exists b piece,
                   In b (blog_list_queryset s request)
                   /\ In piece (Py.split "," (Blog.tags b))
                   /\ t = Py.strip piece /\ t <> "").
  { intros t. rewrite sorted_set_In, in_flat_map. unfold tags_of.
    split.
    - intros (b & Hb & Ht). apply in_map_iff in Ht.
      destruct Ht as (piece & E & Hp). apply filter_In in Hp.
      destruct Hp as [Hp Hne]. exists b, piece. repeat split; auto.
      unfold Py.truthy in Hne. apply negb_true_iff, String.eqb_neq in Hne.
      congruence.
    - intros (b & piece & Hb & Hp & E & Hne). exists b. split; [exact Hb|].
      apply in_map_iff. exists piece. split; [auto|].
      apply filter_In. split; [exact Hp|]. unfold Py.truthy.
      apply negb_true_iff, String.eqb_neq. congruence. }
  repeat apply conj.
  - exact M.
  - apply sorted_set_strict.
  - apply Forall_forall. intros t Ht. apply M in Ht.
    destruct Ht as (b & piece & _ & _ & E & Hne). split; [exact Hne|].
    rewrite E. apply strip_idempotent.
Qed.

(** ** Walking through the pages *)








(** ** The site-wide context *)

Lemma first_of_sorted {A} (leb : A -> A -> bool) (rows : list A) :
  (forall a b, leb a b = true \/ leb b a = true) ->
  (forall a b c, leb a b = true -> leb b c = true -> leb a c = true) ->
  match QuerySet.first (QuerySet.order_by leb rows) with
  | Some x => In x rows /\ forall y, In y rows -> leb x y = true
  | None => rows = []
  end.
Proof.
  intros Ht Htr.
  pose proof (order_by_sorted leb Ht Htr rows) as Hs.
  pose proof (fun x => order_by_In leb x rows) as Hin.
  pose proof (order_by_length leb rows) as Hlen.
  destruct (QuerySet.order_by leb rows) as [|x r]; cbn.
  - destruct rows; [reflexivity|discriminate].
  - split; [apply Hin; now left|]. intros y Hy. apply Hin in Hy.
    destruct Hy as [<-|Hy].
    + destruct (Ht x x); assumption.
    + inversion Hs as [|? ? _ Hall]; subst.
      rewrite Forall_forall in Hall. now apply Hall.
Qed.

(** The site-wide context and the about page show the same About
    record: the active one with the smallest primary key, and none when
    no About is active.  The Services menu of the navigation lists the
    first five rows of the services listing and the FAQ menu the first
    five active FAQs by category and order; both hold active rows of
    the store only.  The home page, which is cached, shows the About
    record and the FAQs that the site-wide context has for the store its
    response was computed from. *)
Theorem site_wide_context
  (cache_key : string -> HttpRequest -> string) (history : list visit)
  (now : Z) (s : Store) (request : HttpRequest) (path : string) :
  let shown := SiteSettings.about (site_settings s request) in
  (exists c,
      about s request
      = Return (render "portfolio/about.html" (AboutContext c))
      /\ AboutPage.about c = shown)
  /\ (shown = None
      <-> forall a, In a (about_table s) -> About.is_active a = false)
  /\ (forall a,
        shown = Some a ->
        In a (about_table s)
        /\ About.is_active a = true
        /\ forall a', In a' (about_table s) -> About.is_active a' = true ->
                      (About.id a <= About.id a')%N)
  /\ menu_at (navigation s request path) "/services/"
     = Some (Nav.ServiceDropdown (firstn 5 (services_queryset s)))
  /\ shown_from Service.is_active (service_table s)
       (firstn 5 (services_queryset s))
  /\ menu_at (navigation s request path) "/faq/"
     = Some (Nav.FaqDropdown
               (firstn 5
                  (QuerySet.order_by (QuerySet.asc2 FAQ.category FAQ.order)
                     (filter FAQ.is_active (faq_table s)))))
  /\ shown_from FAQ.is_active (faq_table s)
       (firstn 5
          (QuerySet.order_by (QuerySet.asc2 FAQ.category FAQ.order)
             (filter FAQ.is_active (faq_table s))))
  /\ (exists s0 request0 c,
        snd (cached_home cache_key (cache_after cache_key history) now s
               request)
        = Return (render "portfolio/home.html" (HomeContext c))
        /\ computed_from history now s request s0 request0
        /\ Home.about c = SiteSettings.about (site_settings s0 request0)
        /\ menu_at (navigation s0 request0 path) "/faq/"
           = Some (Nav.FaqDropdown (Home.faq c))).
Proof.
  cbv zeta. cbn [site_settings SiteSettings.about].
  pose proof (first_of_sorted (by_pk About.id)
                (filter About.is_active (about_table s))) as Hfirst.
  fold (active_about s) in Hfirst.
  assert (Hf : match active_about s with
               | Some x =>
                   In x (filter About.is_active (about_table s))
                   /\ forall y, In y (filter About.is_active (about_table s))
                                -> by_pk About.id x y = true
               | None => filter About.is_active (about_table s) = []
               end).
  { apply Hfirst; unfold by_pk.
    - intros a b. rewrite !N.leb_le. lia.
    - intros a b c. rewrite !N.leb_le. lia. }
  clear Hfirst. repeat apply conj.
  - unfold about. eexists. split; reflexivity.
  - intros E. rewrite E in Hf. intros a Ha.
    destruct (About.is_active a) eqn:Ea; [|reflexivity].
    assert (H : In a (filter About.is_active (about_table s)))
      by (apply filter_In; tauto).
    rewrite Hf in H. contradiction.
  - intros H. destruct (active_about s) as [a|]; [|reflexivity].
    destruct Hf as [Hin _]. apply filter_In in Hin.
    destruct Hin as [Hin Ha]. rewrite (H a Hin) in Ha. discriminate.
  - intros a E. rewrite E in Hf. destruct Hf as [Hin Hmin].
    apply filter_In in Hin. repeat split; try tauto.
    intros a' Ha' Hact. apply N.leb_le. apply (Hmin a').
    apply filter_In. tauto.
  - reflexivity.
  - unfold services_queryset. from_table.
  - reflexivity.
  - from_table.
  - destruct (cached_home_replays cache_key history now s request)
      as (s0 & request0 & E & Hc).
    exists s0, request0. rewrite E. unfold home. eexists.
    split; [reflexivity|]. split; [exact Hc|]. fields.
    split; reflexivity.
Qed.

(** The sample store has two active About records: the one with the
    smaller key is shown, and the menus hold five rows each. *)
Example site_wide_context_of_the_catalogue :
  option_map About.full_name
    (SiteSettings.about (site_settings Sample.catalogue (Sample.get [])))
  = Some "B"
  /\ (match menu_at (navigation Sample.catalogue (Sample.get []) "/")
               "/services/" with
      | Some (Nav.ServiceDropdown rows) => map Service.id rows
      | _ => []
      end = [8; 7; 6; 5; 4]%N)
  /\ (match menu_at (navigation Sample.catalogue (Sample.get []) "/")
               "/faq/" with
      | Some (Nav.FaqDropdown rows) => map FAQ.id rows
      | _ => []
      end = [6; 4; 2; 5; 3]%N).
Proof. repeat split; vm_compute; reflexivity. Qed.

(** ** Saving a post in the admin *)

(** A post saved through the blog admin is stored with a publication
    date whenever it is published: a missing date is set to the time
    [save_model] reads, a date already there is kept, and the date of an
    unpublished post is left as it is.  The saved post is in the table
    afterwards, the rows of all other posts are untouched, and a table
    in which every published post is dated stays such a table.  (A post
    whose counter does not fit its column is refused by the save.) *)
Theorem save_model_dates_published_posts
  (column : IntegerField.range) (published_now now : Z) (change : bool)
  (table : list Blog.t) (obj : Blog.t) :
  (IntegerField.fits column (Blog.views obj) = false ->
   BlogAdmin_save_model column published_now now change table obj
   = Raise DataError)
  /\ (IntegerField.fits column (Blog.views obj) = true ->
      exists table' saved,
        BlogAdmin_save_model column published_now now change table obj
        = Return (table', saved)
        /\ In saved table'
        /\ Blog.id saved = Blog.id obj
        /\ Blog.is_published saved = Blog.is_published obj
        /\ (Blog.is_published obj = true ->
            Blog.published_date saved <> None)
        /\ (Blog.is_published obj = true ->
            Blog.published_date obj = None ->
            Blog.published_date saved = Some published_now)
        /\ (forall d, Blog.published_date obj = Some d ->
                      Blog.published_date saved = Some d)
        /\ (Blog.is_published obj = false ->
            Blog.published_date saved = Blog.published_date obj)
        /\ (forall b, In b table -> Blog.id b <> Blog.id obj ->
                      In b table')
        /\ (forall b, In b table' -> b = saved \/ In b table)
        /\ (published_are_dated table -> published_are_dated table')).
Proof.
  unfold BlogAdmin_save_model.
  set (dated := if Blog.is_published obj
                   && negb match Blog.published_date obj with
                           | Some _ => true
                           | None => false
                           end
                then Blog_set_published_date obj (Some published_now)
                else obj).
  assert (Hd : Blog.id dated = Blog.id obj
               /\ Blog.is_published dated = Blog.is_published obj
               /\ Blog.views dated = Blog.views obj
               /\ (Blog.is_published obj = true ->
                   Blog.published_date dated <> None)
               /\ (Blog.is_published obj = true ->
                   Blog.published_date obj = None ->
                   Blog.published_date dated = Some published_now)
               /\ (forall d, Blog.published_date obj = Some d ->
                             Blog.published_date dated = Some d)
               /\ (Blog.is_published obj = false ->
                   Blog.published_date dated = Blog.published_date obj)).
  { unfold dated. destruct (Blog.is_published obj) eqn:Ep;
      destruct (Blog.published_date obj) eqn:Ed; cbn; repeat split;
      congruence. }
  destruct Hd as (Hid & Hpub & Hviews & Hdate & Hnew & Hkeep & Hun).
  split; intros Hfit.
  - unfold Blog_admin_save, Blog_save.
    cbn [Blog.views Blog.set_updated_at]. rewrite Hviews, Hfit.
    now destruct (change && _).
  - assert (Hsave : exists saved table',
               Blog_admin_save column change table dated now
               = Return (table', saved)
               /\ Blog.id saved = Blog.id dated
               /\ Blog.is_published saved = Blog.is_published dated
               /\ Blog.published_date saved = Blog.published_date dated
               /\ In saved table'
               /\ (forall b, In b table -> Blog.id b <> Blog.id dated ->
                             In b table')
               /\ (forall b, In b table' -> b = saved \/ In b table)).
    { unfold Blog_admin_save, Blog_save.
      cbn [Blog.views Blog.set_updated_at]. rewrite Hviews, Hfit.
      cbn [negb].
      destruct (existsb (fun b => (Blog.id b =? Blog.id dated)%N) table)
        eqn:Ex; [destruct change|]; cbn [andb].
      - cbn [Blog.id Blog.set_updated_at]. rewrite Ex.
        do 2 eexists. split; [reflexivity|]. repeat split.
        + apply existsb_exists in Ex. destruct Ex as [x [Hx Ex]].
          apply in_map_iff. exists x. now rewrite Ex.
        + intros b Hb Hne. apply in_map_iff. exists b.
          split; [|exact Hb].
          apply N.eqb_neq in Hne. now rewrite Hne.
        + intros b Hb. apply in_map_iff in Hb. destruct Hb as [x [E Hx]].
          destruct (Blog.id x =? Blog.id dated)%N; [now left|].
          right. congruence.
      - do 2 eexists. split; [reflexivity|]. repeat split.
        + apply in_or_app. right. now left.
        + intros b Hb _. apply in_or_app. now left.
        + intros b Hb. apply in_app_or in Hb.
          destruct Hb as [Hb|[<-|[]]]; auto.
      - rewrite andb_false_r.
        do 2 eexists. split; [reflexivity|]. repeat split.
        + apply in_or_app. right. now left.
        + intros b Hb _. apply in_or_app. now left.
        + intros b Hb. apply in_app_or in Hb.
          destruct Hb as [Hb|[<-|[]]]; auto. }
    destruct Hsave as (saved & table' & E & Sid & Spub & Sdate & Sin
                       & Sother & Sonly).
    exists table', saved. rewrite E. rewrite Sid, Spub, Sdate, Hid, Hpub.
    repeat apply conj; auto.
    + intros b Hb Hne. apply Sother; [exact Hb|congruence].
    + unfold published_are_dated. rewrite !Forall_forall.
      intros Hall b Hb.
      destruct (Sonly b Hb) as [->|Hold]; [|now apply Hall].
      rewrite Spub, Sdate, Hpub. exact Hdate.
Qed.

(** A draft that is published through the admin at time 50 and saved at
    time 51 is dated 50. *)
Example save_model_dates_a_draft :
  exists table' saved,
    BlogAdmin_save_model IntegerField.sqlite 50 51 true
      (blog_table Sample.journal)
      (Sample.blog 2%N "draft" true None 0 "")
    = Return (table', saved)
    /\ Blog.published_date saved = Some 50
    /\ Blog.updated_at saved = 51
    /\ map Blog.published_date table' = [Some 5; Some 50; Some 9].
Proof.
  do 2 eexists. split; [vm_compute; reflexivity|].
  repeat split.
Qed.

(** ** Marking messages in the admin *)



(** ** Chart data by month *)

Lemma combine_fst_snd {A B} (l : list (A * B)) :
  combine (map fst l) (map snd l) = l.
Proof.
  induction l as [|[a b] l IH]; cbn; [reflexivity|]. now rewrite IH.
Qed.

Lemma total_of_Permutation (l1 l2 : list Z) :
  Permutation l1 l2 -> total_of l1 = total_of l2.
Proof.
  unfold total_of. induction 1; cbn; try lia.
Qed.

Lemma tallied_unique (d : list (string * Z)) (label : string) (x : Z) :
  NoDup (map fst d) -> In (label, x) d -> tallied d label = x.
Proof.
  unfold tallied. induction d as [|[k y] d IH]; cbn [map filter fst];
    intros Hnd Hin; [contradiction|].
  inversion Hnd as [|? ? Hk Hnd']; subst.
  destruct Hin as [E|Hin].
  - inversion E; subst. rewrite String.eqb_refl. cbn [map snd].
    rewrite filter_none; [cbn; lia|].
    intros [k' y'] Hk'. cbn [fst]. apply String.eqb_neq. intros ->.
    apply Hk. apply in_map_iff. now exists (label, y').
  - destruct (String.eqb_spec k label) as [->|_]; [|now apply IH].
    elim Hk. apply in_map_iff. now exists (label, x).
Qed.

Lemma add_tallied (d : list (string * Z)) (key : string) (v : Z)
  (label : string) :
  tallied (Chart.add d key v) label
  = tallied d label + (if String.eqb key label then v else 0).
Proof.
  unfold tallied. induction d as [|[k y] d IH]; cbn [Chart.add].
  - cbn [filter map fst]. destruct (String.eqb key label); cbn; lia.
  - destruct (String.eqb_spec k key) as [->|Hk]; cbn [filter map fst].
    + destruct (String.eqb key label); cbn [map snd]; unfold total_of;
        cbn; lia.
    + destruct (String.eqb k label); cbn [map snd]; unfold total_of in *;
        cbn; rewrite IH; lia.
Qed.

Lemma add_total (d : list (string * Z)) (key : string) (v : Z) :
  total_of (map snd (Chart.add d key v)) = total_of (map snd d) + v.
Proof.
  unfold total_of. induction d as [|[k y] d IH]; cbn [Chart.add].
  - cbn. lia.
  - destruct (String.eqb k key); cbn; [|rewrite IH]; lia.
Qed.

Lemma add_keys (d : list (string * Z)) (key : string) (v : Z)
  (label : string) :
  In label (map fst (Chart.add d key v))
  <-> label = key \/ In label (map fst d).
Proof.
  induction d as [|[k y] d IH]; cbn [Chart.add].
  - cbn. intuition.
  - destruct (String.eqb_spec k key) as [->|Hk]; cbn [map fst In].
    + intuition.
    + rewrite IH. intuition.
Qed.

Lemma add_NoDup (d : list (string * Z)) (key : string) (v : Z) :
  NoDup (map fst d) -> NoDup (map fst (Chart.add d key v)).
Proof.
  induction d as [|[k y] d IH]; cbn [Chart.add]; intros Hnd.
  - cbn. repeat constructor. auto.
  - inversion Hnd as [|? ? Hk Hnd']; subst.
    destruct (String.eqb_spec k key) as [->|Hne]; cbn [map fst].
    + now constructor.
    + constructor; [|now apply IH].
      rewrite add_keys. intros [E|H]; [congruence|contradiction].
Qed.

Section ChartFacts.
Context {Obj Date : Type}.
Variable date_of : Obj -> option Date.
Variable value_of : Obj -> option PyValue.
Variable strftime_Y_m : Date -> string.

Lemma loop_returns (queryset : list Obj) (d : list (string * Z)) :
  (forall obj, In obj queryset -> date_of obj <> None ->
               exists v, py_int (Chart.value value_of obj) = Return v) ->
  NoDup (map fst d) ->
  exists d',
    Chart.loop date_of value_of strftime_Y_m d queryset = Return d'
    /\ NoDup (map fst d')
    /\ (forall label,
          tallied d' label
          = tallied d label
            + total_of (map (amount value_of)
                          (filter (in_month date_of strftime_Y_m label)
                             queryset)))
    /\ (forall label,
          In label (map fst d')
          <-> In label (map fst d)
              \/ exists obj, In obj queryset
                             /\ in_month date_of strftime_Y_m label obj
                                = true)
    /\ total_of (map snd d')
       = total_of (map snd d)
         + total_of (map (amount value_of) (filter (dated date_of) queryset)).
Proof.
  revert d. induction queryset as [|obj rest IH]; intros d Hok Hnd.
  - exists d. split; [reflexivity|]. split; [exact Hnd|].
    unfold total_of. cbn [filter map fold_right In]. repeat split.
    + intros label. lia.
    + intros H. now left.
    + intros [H|(obj & [] & _)]. exact H.
    + lia.
  - cbn [Chart.loop].
    destruct (date_of obj) as [date|] eqn:Ed.
    + destruct (Hok obj (or_introl eq_refl)) as [v Ev]; [congruence|].
      rewrite Ev. cbn [bind].
      destruct (IH (Chart.add d (strftime_Y_m date) v))
        as (d' & E & Hnd' & Ht & Hk & Hs).
      { intros o Ho. apply Hok. now right. }
      { now apply add_NoDup. }
      exists d'. split; [exact E|]. split; [exact Hnd'|].
      assert (Ea : amount value_of obj = v)
        by (unfold amount; now rewrite Ev).
      assert (Em : forall label,
                 in_month date_of strftime_Y_m label obj
                 = String.eqb (strftime_Y_m date) label)
        by (intros label; unfold in_month; now rewrite Ed).
      assert (Hd : dated date_of obj = true) by (unfold dated; now rewrite Ed).
      repeat split.
      * intros label. rewrite Ht, add_tallied. cbn [filter].
        rewrite Em.
        destruct (String.eqb (strftime_Y_m date) label);
          cbn [map]; unfold total_of; cbn [fold_right]; rewrite ?Ea; lia.
      * intros H. apply Hk in H. rewrite add_keys in H.
        destruct H as [[->|H]|(o & Ho & Hm)]; auto.
        -- right. exists obj. split; [now left|].
           rewrite Em. apply String.eqb_refl.
        -- right. exists o. split; [now right|exact Hm].
      * intros H. apply Hk. rewrite add_keys.
        destruct H as [H|(o & [<-|Ho] & Hm)]; auto.
        -- left. left. rewrite Em in Hm.
           apply String.eqb_eq in Hm. congruence.
        -- right. now exists o.
      * rewrite Hs, add_total. cbn [filter]. rewrite Hd.
        unfold total_of. cbn [map fold_right]. rewrite Ea. lia.
    + destruct (IH d) as (d' & E & Hnd' & Ht & Hk & Hs); auto.
      { intros o Ho. apply Hok. now right. }
      exists d'. split; [exact E|]. split; [exact Hnd'|].
      assert (Em : forall label,
                 in_month date_of strftime_Y_m label obj = false)
        by (intros label; unfold in_month; now rewrite Ed).
      assert (Hd : dated date_of obj = false) by (unfold dated; now rewrite Ed).
      repeat split.
      * intros label. rewrite Ht. cbn [filter]. now rewrite Em.
      * intros H. apply Hk in H.
        destruct H as [H|(o & Ho & Hm)]; auto.
        right. exists o. split; [now right|exact Hm].
      * intros H. apply Hk.
        destruct H as [H|(o & [<-|Ho] & Hm)]; auto.
        -- rewrite Em in Hm. discriminate.
        -- right. now exists o.
      * rewrite Hs. cbn [filter]. now rewrite Hd.
Qed.

Lemma loop_raises (queryset : list Obj) (d : list (string * Z)) :
  (exists obj, In obj queryset /\ date_of obj <> None
               /\ forall v, py_int (Chart.value value_of obj) <> Return v) ->
  exists e,
    Chart.loop date_of value_of strftime_Y_m d queryset = Raise e
    /\ (e = ValueError \/ e = TypeError).
Proof.
  revert d. induction queryset as [|obj rest IH]; intros d
    (bad & Hin & Hd & Hv); [contradiction|].
  cbn [Chart.loop]. destruct (date_of obj) as [date|] eqn:Ed.
  - destruct (py_int (Chart.value value_of obj)) as [v|e] eqn:Ev;
      cbn [bind].
    + apply IH. destruct Hin as [<-|Hin]; [now elim (Hv v)|].
      now exists bad.
    + exists e. split; [reflexivity|]. unfold py_int in Ev.
      destruct (Chart.value value_of obj) as [|t|z];
        [| destruct (Py.int t) |]; inversion Ev; auto.
  - apply IH. destruct Hin as [<-|Hin]; [congruence|]. now exists bad.
Qed.
End ChartFacts.

Lemma asc2_keys_increase (l : list (string * Z)) :
  NoDup (map fst l) ->
  StronglySorted (fun a b => QuerySet.asc2 fst snd a b = true) l ->
  StronglySorted (fun a b => String.ltb a b = true) (map fst l).
Proof.
  induction l as [|[k x] l IH]; cbn [map fst]; intros Hnd Hs;
    [constructor|].
  inversion Hnd as [|? ? Hk Hnd']; subst.
  inversion Hs as [|? ? Hs' Hall]; subst.
  constructor; [now apply IH|].
  apply Forall_forall. intros k' Hin.
  apply in_map_iff in Hin. destruct Hin as ([k2 y] & <- & Hin).
  rewrite Forall_forall in Hall. specialize (Hall _ Hin).
  unfold QuerySet.asc2 in Hall. cbn [fst snd] in Hall |- *.
  destruct (String.ltb k k2) eqn:El; [reflexivity|].
  destruct (String.eqb_spec k k2) as [->|Hne]; [|discriminate].
  elim Hk. apply in_map_iff. now exists (k2, y).
Qed.

(** [get_chart_data] on a queryset whose dated objects all carry a
    value [int()] accepts returns one label per month that has a dated
    object, in strictly ascending order, and beside each label the sum of
    the values of the objects of that month; objects without a date are
    left out, and the data add up to the sum over the dated objects. *)
Theorem chart_data_by_month {Obj Date : Type}
  (date_of : Obj -> option Date) (value_of : Obj -> option PyValue)
  (strftime_Y_m : Date -> string) (queryset : list Obj) :
  (forall obj, In obj queryset -> date_of obj <> None ->
               exists v, py_int (Chart.value value_of obj) = Return v) ->
  exists chart,
    Chart.get_chart_data date_of value_of strftime_Y_m queryset
    = Return chart
    /\ List.length (Chart.labels chart) = List.length (Chart.data chart)
    /\ sorted_by String.ltb (Chart.labels chart)
    /\ (forall label,
          In label (Chart.labels chart)
          <-> exists obj, In obj queryset
                          /\ in_month date_of strftime_Y_m label obj = true)
    /\ (forall label x,
          In (label, x) (combine (Chart.labels chart) (Chart.data chart)) ->
          x = total_of (map (amount value_of)
                          (filter (in_month date_of strftime_Y_m label)
                             queryset)))
    /\ total_of (Chart.data chart)
       = total_of (map (amount value_of)
                     (filter (dated date_of) queryset)).
Proof.
  intros Hok.
  destruct (loop_returns date_of value_of strftime_Y_m queryset [] Hok)
    as (d & E & Hnd & Ht & Hk & Hs); [constructor|].
  unfold Chart.get_chart_data. rewrite E. cbn [bind].
  set (sorted_data := QuerySet.order_by (QuerySet.asc2 fst snd) d).
  assert (Hp : Permutation d sorted_data)
    by apply order_by_Permutation.
  eexists. split; [reflexivity|]. cbn [Chart.labels Chart.data].
  repeat split.
  - now rewrite !length_map.
  - apply asc2_keys_increase.
    + eapply Permutation_NoDup; [|exact Hnd]. now apply Permutation_map.
    + apply asc2_sorted.
  - intros H.
    assert (H' : In label (map fst d)).
    { eapply Permutation_in; [|exact H].
      symmetry. now apply Permutation_map. }
    apply Hk in H'. destruct H' as [[]|H']. exact H'.
  - intros H.
    eapply Permutation_in; [apply Permutation_map; exact Hp|].
    apply Hk. now right.
  - intros label x Hin. rewrite combine_fst_snd in Hin.
    apply (Permutation_in _ (Permutation_sym Hp)) in Hin.
    rewrite <- (tallied_unique d label x Hnd Hin), Ht.
    unfold tallied, total_of. cbn. lia.
  - rewrite <- (total_of_Permutation _ _ (Permutation_map snd Hp)), Hs.
    unfold total_of. cbn. lia.
Qed.

Lemma chart_data_by_month_witness :
  exists chart,
    Chart.get_chart_data fst snd (fun date : string => date)
      [(Some "2024-03", Some (PyInt 2)); (None, Some PyNone);
       (Some "2024-01", None); (Some "2024-03", Some (PyStr " 5 "))]
    = Return chart
    /\ Chart.labels chart = ["2024-01"; "2024-03"]
    /\ Chart.data chart = [1; 7].
Proof.
  destruct (chart_data_by_month fst snd (fun date : string => date)
              [(Some "2024-03", Some (PyInt 2)); (None, Some PyNone);
               (Some "2024-01", None); (Some "2024-03", Some (PyStr " 5 "))])
    as (chart & E & _).
  - intros obj [<-|[<-|[<-|[<-|[]]]]] Hd; try (now elim Hd);
      eexists; vm_compute; reflexivity.
  - exists chart. split; [exact E|].
    vm_compute in E. inversion E. split; reflexivity.
Defined.

(** [get_chart_data] raises, with the [ValueError] or [TypeError] of
    [int()], as soon as one dated object carries a value [int()]
    rejects; the value of an object without a date is never read. *)
Theorem chart_data_rejects_bad_value {Obj Date : Type}
  (date_of : Obj -> option Date) (value_of : Obj -> option PyValue)
  (strftime_Y_m : Date -> string) (queryset : list Obj) :
  (exists obj, In obj queryset /\ date_of obj <> None
               /\ forall v, py_int (Chart.value value_of obj) <> Return v) ->
  exists e,
    Chart.get_chart_data date_of value_of strftime_Y_m queryset = Raise e
    /\ (e = ValueError \/ e = TypeError).
Proof.
  intros Hbad.
  destruct (loop_raises date_of value_of strftime_Y_m queryset [] Hbad)
    as (e & E & He).
  exists e. split; [|exact He].
  unfold Chart.get_chart_data. now rewrite E.
Qed.

Lemma chart_data_rejects_bad_value_witness :
  exists e,
    Chart.get_chart_data fst snd (fun date : string => date)
      [(Some "2024-03", Some (PyInt 2)); (Some "2024-04", Some PyNone)]
    = Raise e
    /\ (e = ValueError \/ e = TypeError).
Proof.
  apply (chart_data_rejects_bad_value fst snd (fun date : string => date)).
  exists (Some "2024-04", Some PyNone).
  split; [right; left; reflexivity|].
  split; [discriminate|]. intros v. vm_compute. discriminate.
Defined.

(* ================================================================= *)
(** ** The filter form and its range of dates *)

Lemma clean_date_given (strptime : string -> option Z) (f : FilterForm.t)
  (field : string) :
  FilterForm.clean_date strptime (FilterForm.raw_value f field)
  = if date_rejected strptime f field then FilterForm.Error Invalid
    else FilterForm.Value (date_given strptime f field).
Proof.
  unfold FilterForm.clean_date, date_rejected, date_given.
  destruct (FilterForm.raw_value f field) as [value|]; [|reflexivity].
  destruct (String.eqb value ""); cbn [negb andb]; [reflexivity|].
  now destruct (strptime (Py.strip value)).
Qed.

Lemma clean_search_given (f : FilterForm.t) :
  FilterForm.clean_search (FilterForm.raw_value f "search")
  = if search_rejected f then FilterForm.Error NullCharacters
    else FilterForm.Value
           (ContactForm.to_python (FilterForm.raw_value f "search")).
Proof.
  unfold FilterForm.clean_search, search_rejected,
    ContactForm.ProhibitNullCharactersValidator.
  set (value := ContactForm.to_python (FilterForm.raw_value f "search")).
  destruct (String.eqb_spec value "") as [->|_]; [reflexivity|].
  now destruct (Py.contains (String Ascii.zero EmptyString) value).
Qed.

Lemma unbound_gives_nothing (strptime : string -> option Z)
  (f : FilterForm.t) (field : string) :
  FilterForm.data f = None -> date_given strptime f field = None.
Proof.
  unfold date_given, FilterForm.raw_value. now intros ->.
Qed.

Lemma get_clean_date (strptime : string -> option Z) (f : FilterForm.t)
  (field : string) :
  FilterForm.get
    (FilterForm.entry
       (FilterForm.clean_date strptime (FilterForm.raw_value f field)))
  = date_given strptime f field.
Proof.
  rewrite clean_date_given. unfold date_rejected, date_given.
  destruct (FilterForm.raw_value f field) as [value|]; [|reflexivity].
  destruct (String.eqb value ""); cbn [negb andb]; [reflexivity|].
  now destruct (strptime (Py.strip value)).
Qed.

Lemma full_clean_bound (strptime : string -> option Z) (f : FilterForm.t)
  (d : list (string * string)) :
  FilterForm.data f = Some d ->
  FilterForm.full_clean strptime f
  = Some ({| FilterForm.search :=
               if search_rejected f then None
               else Some (ContactForm.to_python
                            (FilterForm.raw_value f "search"));
             FilterForm.start_date :=
               if date_rejected strptime f "start_date" then None
               else Some (date_given strptime f "start_date");
             FilterForm.end_date :=
               if date_rejected strptime f "end_date" then None
               else Some (date_given strptime f "end_date") |},
          (field_part strptime f
           ++ if out_of_order strptime f
              then [FilterForm.NonFieldError
                      "Start date cannot be after end date"]
              else [])%list)
  /\ FilterForm.errors strptime f
     = (field_part strptime f
        ++ if out_of_order strptime f
           then [FilterForm.NonFieldError
                   "Start date cannot be after end date"]
           else [])%list.
Proof.
  intros Ed.
  assert (E : FilterForm.full_clean strptime f = Some
    ({| FilterForm.search :=
          if search_rejected f then None
          else Some (ContactForm.to_python
                       (FilterForm.raw_value f "search"));
        FilterForm.start_date :=
          if date_rejected strptime f "start_date" then None
          else Some (date_given strptime f "start_date");
        FilterForm.end_date :=
          if date_rejected strptime f "end_date" then None
          else Some (date_given strptime f "end_date") |},
     (field_part strptime f
      ++ if out_of_order strptime f
         then [FilterForm.NonFieldError
                 "Start date cannot be after end date"]
         else [])%list)).
  { unfold FilterForm.full_clean, FilterForm._clean_fields,
      FilterForm.clean. rewrite Ed.
    cbn [FilterForm.start_date FilterForm.end_date].
    rewrite !get_clean_date. unfold out_of_order, field_part.
    rewrite !clean_date_given, clean_search_given.
    destruct (search_rejected f),
      (date_rejected strptime f "start_date"),
      (date_rejected strptime f "end_date");
      cbn [FilterForm.entry FilterForm.field_errors app];
      destruct (date_given strptime f "start_date") as [s|],
        (date_given strptime f "end_date") as [e|];
      try destruct (e <? s); rewrite ?app_nil_r; reflexivity. }
  split; [exact E|]. unfold FilterForm.errors. now rewrite E.
Qed.

Lemma errors_unbound (strptime : string -> option Z) (f : FilterForm.t) :
  FilterForm.data f = None -> FilterForm.errors strptime f = [].
Proof.
  unfold FilterForm.errors, FilterForm.full_clean. now intros ->.
Qed.

Lemma is_valid_errors (strptime : string -> option Z) (f : FilterForm.t) :
  FilterForm.is_valid strptime f = true
  <-> FilterForm.data f <> None /\ FilterForm.errors strptime f = [].
Proof.
  unfold FilterForm.is_valid, FilterForm.errors, FilterForm.full_clean.
  destruct (FilterForm.data f) as [d|].
  - destruct (FilterForm._clean_fields strptime f) as [cd errs].
    destruct (FilterForm.clean cd) as [cd'|m].
    + destruct errs; split; try discriminate; try tauto.
      * intros _. split; [discriminate|reflexivity].
      * intros [_ H]. discriminate.
    + destruct errs; cbn [app]; split; try discriminate;
        intros [_ H]; discriminate.
  - split; [discriminate|]. intros [H _]. now elim H.
Qed.

Lemma field_part_fields (strptime : string -> option Z) (f : FilterForm.t)
  (err : FilterForm.FormError) :
  In err (field_part strptime f) ->
  exists field e, err = FilterForm.FieldError field e.
Proof.
  unfold field_part. intros Hin.
  repeat (apply in_app_or in Hin; destruct Hin as [Hin|Hin]);
    match type of Hin with
    | In _ (if ?b then _ else _) => destruct b
    end;
    try contradiction; destruct Hin as [<-|[]]; eauto.
Qed.

(** The filter form compares its two dates only when both were given
    and both are dates: it then reports its range error exactly when the
    end comes before the start.  It is valid exactly when it is bound,
    its search text holds no null character, neither date field holds a
    text that is no date, and there is no range error; its cleaned data
    are then the stripped search text and the two dates, in order when
    both are there. *)
Theorem filter_form_checks_range (strptime : string -> option Z)
  (f : FilterForm.t) :
  (range_error strptime f
   <-> exists s e,
         date_given strptime f "start_date" = Some s
         /\ date_given strptime f "end_date" = Some e
         /\ e < s)
  /\ (FilterForm.is_valid strptime f = true
      <-> FilterForm.data f <> None
          /\ search_rejected f = false
          /\ date_rejected strptime f "start_date" = false
          /\ date_rejected strptime f "end_date" = false
          /\ ~ range_error strptime f)
  /\ (FilterForm.is_valid strptime f = true ->
      FilterForm.cleaned_data strptime f
      = Some {| FilterForm.search :=
                  Some (ContactForm.to_python
                          (FilterForm.raw_value f "search"));
                FilterForm.start_date :=
                  Some (date_given strptime f "start_date");
                FilterForm.end_date :=
                  Some (date_given strptime f "end_date") |}
      /\ forall s e,
           date_given strptime f "start_date" = Some s ->
           date_given strptime f "end_date" = Some e ->
           s <= e).
Proof.
  assert (Hrange :
            range_error strptime f
            <-> exists s e,
                  date_given strptime f "start_date" = Some s
                  /\ date_given strptime f "end_date" = Some e
                  /\ e < s).
  { unfold range_error. destruct (FilterForm.data f) as [d|] eqn:Ed.
    - rewrite (proj2 (full_clean_bound strptime f d Ed)).
      unfold out_of_order. split.
      + intros [m Hin]. apply in_app_or in Hin.
        destruct Hin as [Hin|Hin];
          [apply field_part_fields in Hin;
           destruct Hin as (fd & e & Hin); discriminate|].
        destruct (date_given strptime f "start_date") as [s|];
          [|contradiction].
        destruct (date_given strptime f "end_date") as [e|];
          [|contradiction].
        destruct (Z.ltb_spec e s); [|contradiction].
        now exists s, e.
      + intros (s & e & -> & -> & Hlt).
        apply Z.ltb_lt in Hlt. rewrite Hlt.
        eexists. apply in_or_app. right. now left.
    - rewrite (errors_unbound strptime f Ed),
        !(unbound_gives_nothing strptime f _ Ed).
      split; [intros [m []]|intros (s & e & H & _); discriminate]. }
  split; [exact Hrange|].
  assert (Hvalid :
            FilterForm.is_valid strptime f = true
            <-> FilterForm.data f <> None
                /\ search_rejected f = false
                /\ date_rejected strptime f "start_date" = false
                /\ date_rejected strptime f "end_date" = false
                /\ ~ range_error strptime f).
  { rewrite is_valid_errors. destruct (FilterForm.data f) as [d|] eqn:Ed.
    - unfold range_error.
      rewrite (proj2 (full_clean_bound strptime f d Ed)).
      unfold field_part.
      destruct (search_rejected f),
        (date_rejected strptime f "start_date"),
        (date_rejected strptime f "end_date");
        cbn [app];
        try (split; [intros [_ H]; discriminate
                    |intros (_ & H1 & H2 & H3 & _); discriminate]).
      destruct (out_of_order strptime f); split.
      + intros [_ H]; discriminate.
      + intros (_ & _ & _ & _ & H). elim H. eexists. now left.
      + intros _. repeat split; try discriminate. intros [m []].
      + intros _. split; [discriminate|reflexivity].
    - split; [intros [H _]; now elim H|intros [H _]; now elim H]. }
  split; [exact Hvalid|].
  intros Hv. apply (proj1 Hvalid) in Hv.
  destruct Hv as (Hb & Hs & Hsd & Hed & Hr).
  destruct (FilterForm.data f) as [d|] eqn:Ed; [|now elim Hb].
  split.
  - unfold FilterForm.cleaned_data.
    rewrite (proj1 (full_clean_bound strptime f d Ed)).
    cbn [option_map fst]. now rewrite Hs, Hsd, Hed.
  - intros s e Es Ee.
    destruct (Z.le_gt_cases s e) as [H|H]; [exact H|].
    elim Hr. apply Hrange. now exists s, e.
Qed.

Example filter_form_at_work :
  FilterForm.is_valid Sample.strptime (Sample.filter_form "3" "3") = true
  /\ FilterForm.is_valid Sample.strptime (Sample.filter_form "5" "") = true
  /\ FilterForm.errors Sample.strptime (Sample.filter_form "5" " 3 ")
     = [FilterForm.NonFieldError "Start date cannot be after end date"]
  /\ FilterForm.errors Sample.strptime (Sample.filter_form "soon" "3")
     = [FilterForm.FieldError "start_date" Invalid]
  /\ FilterForm.is_valid Sample.strptime (FilterForm.make None) = false.
Proof. repeat split; vm_compute; reflexivity. Qed.
